(** * Personal AI stylist client: wardrobe grouping, planner, chat and session rules

    A shallow embedding of the React Native client (the [App] component):
    the pure helpers are Rocq functions, the asynchronous handlers are
    state-passing functions over the component state, with the network and
    the device storage given by an explicit environment and every request
    recorded in a trace. *)

From Stdlib Require Import ZArith Ascii String.
From stdpp Require Import base option list gmap fin_maps strings pretty sorting.

Local Open Scope string_scope.
Local Open Scope list_scope.

(** ** JavaScript values used by the client *)

(** A string is held as its UTF-8 text, whose UTF-16 code units (what
    JavaScript compares and trims) are given by [Js.codeUnits]; an optional,
    [null] or [undefined] value is [None]. *)

Module Js.

(** Whether an optional string is truthy: [undefined], [null] and the empty
    string are falsy. *)
Definition truthy (o : option string) : bool :=
  match o with
  | Some s => bool_decide (s ≠ "")
  | None => false
  end.

(** [o || d] *)
Definition or_else (o : option string) (d : string) : string :=
  match o with
  | Some s => if bool_decide (s ≠ "") then s else d
  | None => d
  end.

(** [o || null]. *)
Definition or_null (o : option string) : option string :=
  if truthy o then o else None.

(** [s.startsWith(p)] *)
Definition startsWith (p s : string) : bool := String.prefix p s.

(** The payload of a UTF-8 continuation byte. *)
Definition continuation (c : Ascii.ascii) : option N :=
  let n := Ascii.N_of_ascii c in
  if (128 <=? n)%N && (n <? 192)%N then Some (n - 128)%N else None.

(** The two code units (a surrogate pair) of a code point above the basic
    plane. *)
Definition surrogates (cp : N) : list N :=
  let v := (cp - 65536)%N in [(55296 + v / 1024)%N; (56320 + v mod 1024)%N].

(** The UTF-16 code units of a string: a sequence of one, two or three
    bytes is one code unit (a lone surrogate is held as its three bytes), a
    sequence of four bytes is a surrogate pair. A byte that starts no
    sequence, which the text of a JavaScript string never has, counts as a
    code unit of its own. *)
Fixpoint codeUnits (s : string) : list N :=
  match s with
  | EmptyString => []
  | String c0 s1 =>
      let b0 := Ascii.N_of_ascii c0 in
      let alone := b0 :: codeUnits s1 in
      if (b0 <? 192)%N then alone
      else
        match s1 with
        | String c1 s2 =>
            match continuation c1 with
            | Some x1 =>
                if (b0 <? 224)%N then ((b0 - 192) * 64 + x1)%N :: codeUnits s2
                else
                  match s2 with
                  | String c2 s3 =>
                      match continuation c2 with
                      | Some x2 =>
                          if (b0 <? 240)%N
                          then ((b0 - 224) * 4096 + x1 * 64 + x2)%N :: codeUnits s3
                          else
                            match s3 with
                            | String c3 s4 =>
                                match continuation c3 with
                                | Some x3 =>
                                    if (b0 <? 248)%N
                                    then surrogates ((b0 - 240) * 262144 + x1 * 4096
                                                     + x2 * 64 + x3)%N
                                         ++ codeUnits s4
                                    else alone
                                | None => alone
                                end
                            | EmptyString => alone
                            end
                      | None => alone
                      end
                  | EmptyString => alone
                  end
            | None => alone
            end
        | EmptyString => alone
        end
  end.

(** The code units that [trim] removes: the white space and line
    terminators of ECMAScript (TAB, LF, VT, FF, CR, SP, NBSP, U+1680,
    U+2000 to U+200A, U+2028, U+2029, U+202F, U+205F, U+3000, U+FEFF). *)
Definition isWhiteSpace (u : N) : bool :=
  ((9 <=? u) && (u <=? 13) || (u =? 32) || (u =? 160) || (u =? 5760)
   || (8192 <=? u) && (u <=? 8202) || (u =? 8232) || (u =? 8233)
   || (u =? 8239) || (u =? 8287) || (u =? 12288) || (u =? 65279))%N.

(** [!s.trim()]: nothing but white space. *)
Definition isBlank (s : string) : bool := forallb isWhiteSpace (codeUnits s).

(** [a < b] is false, for strings given by their code units: the first
    difference decides, and a proper prefix comes first. *)
Fixpoint unitsLe (a b : list N) : bool :=
  match a, b with
  | [], _ => true
  | _ :: _, [] => false
  | x :: a', y :: b' =>
      if (x <? y)%N then true else if (y <? x)%N then false else unitsLe a' b'
  end.

(** The order of JavaScript's [<=] on strings, which is that of
    [Array.prototype.sort()] without a comparator. *)
Definition le (s t : string) : Prop := unitsLe (codeUnits s) (codeUnits t) = true.

#[global] Instance le_dec : RelDecision le := λ s t,
  decide (unitsLe (codeUnits s) (codeUnits t) = true).

Fixpoint stripPrefix (p s : string) : option string :=
  match p, s with
  | EmptyString, _ => Some s
  | String a p, String b s => if Ascii.eqb a b then stripPrefix p s else None
  | String _ _, EmptyString => None
  end.

Definition isLower (c : Ascii.ascii) : bool :=
  let n := Ascii.N_of_ascii c in (97 <=? n)%N && (n <=? 122)%N.

Definition isUpper (c : Ascii.ascii) : bool :=
  let n := Ascii.N_of_ascii c in (65 <=? n)%N && (n <=? 90)%N.

Fixpoint dropLower (s : string) : string :=
  match s with
  | String c s' => if isLower c then dropLower s' else s
  | EmptyString => s
  end.

(** [s.replace(/^data:image\/[a-z]+;base64,/, '')] *)
Definition stripDataUrl (s : string) : string :=
  match stripPrefix "data:image/" s with
  | Some (String c rest) =>
      if isLower c then default s (stripPrefix ";base64," (dropLower rest)) else s
  | _ => s
  end.

(** [s] starts with a match of [/^data:image\/[a-z]+;base64,/]: the
    letters matched are [kind], and [payload] is what follows the match. *)
Definition dataUrlHeader (kind payload s : string) : Prop :=
  kind ≠ "" ∧ dropLower kind = "" ∧
  s = "data:image/" +:+ kind +:+ ";base64," +:+ payload.

(** [s.split('.').pop()]: what follows the last dot, or all of [s]. *)
Fixpoint lastSegment (s : string) : string :=
  match s with
  | EmptyString => EmptyString
  | String c s' =>
      if Ascii.eqb c "."%char then lastSegment s'
      else if bool_decide (String.index 0 "." s' = None) then s
      else lastSegment s'
  end.

(** [s.toLowerCase()] on the letters A to Z. *)
Fixpoint toLowerCase (s : string) : string :=
  match s with
  | EmptyString => EmptyString
  | String c s' =>
      String (if isUpper c then Ascii.ascii_of_N (Ascii.N_of_ascii c + 32) else c)
             (toLowerCase s')
  end.

(** The three bytes that hold the code unit [u] of the basic plane from
    U+0800 on, a lone surrogate included. *)
Definition threeBytes (u : N) : string :=
  String (Ascii.ascii_of_N (224 + u / 4096))
    (String (Ascii.ascii_of_N (128 + (u / 64) mod 64))
       (String (Ascii.ascii_of_N (128 + u mod 64)) EmptyString)).

(** [s.slice(0, n)]: the first [n] code units of [s]. A character outside
    the basic plane has two, and when only the first is among the [n] it
    is kept alone, a high surrogate. *)
Fixpoint slice0 (n : nat) (s : string) : string :=
  match n, s with
  | O, _ => EmptyString
  | S _, EmptyString => EmptyString
  | S n', String c0 s1 =>
      let b0 := Ascii.N_of_ascii c0 in
      let alone := String c0 (slice0 n' s1) in
      if (b0 <? 192)%N then alone
      else
        match s1 with
        | String c1 s2 =>
            match continuation c1 with
            | Some x1 =>
                if (b0 <? 224)%N then String c0 (String c1 (slice0 n' s2))
                else
                  match s2 with
                  | String c2 s3 =>
                      match continuation c2 with
                      | Some x2 =>
                          if (b0 <? 240)%N
                          then String c0 (String c1 (String c2 (slice0 n' s3)))
                          else
                            match s3 with
                            | String c3 s4 =>
                                match continuation c3 with
                                | Some x3 =>
                                    if (b0 <? 248)%N
                                    then
                                      match n' with
                                      | O =>
                                          threeBytes
                                            (default 0%N
                                               (head (surrogates
                                                        ((b0 - 240) * 262144 + x1 * 4096
                                                         + x2 * 64 + x3)%N)))
                                      | S n'' =>
                                          String c0 (String c1 (String c2
                                            (String c3 (slice0 n'' s4))))
                                      end
                                    else alone
                                | None => alone
                                end
                            | EmptyString => alone
                            end
                      | None => alone
                      end
                  | EmptyString => alone
                  end
            | None => alone
            end
        | EmptyString => alone
        end
  end.

(** [n.toString()] for an integer. *)
Definition toString (n : Z) : string := pretty n.

(** The value of a decimal digit. *)
Definition digitValue (c : Ascii.ascii) : option Z := Z.of_nat <$> Ascii.is_nat c.

(** The longest prefix of decimal digits of [s], read after the digits
    [acc] already seen; [None] when there is no digit at all. *)
Fixpoint parseDigits (acc : option Z) (s : string) : option Z :=
  match s with
  | String c s' =>
      match digitValue c with
      | Some d => parseDigits (Some (10 * default 0 acc + d)) s'
      | None => acc
      end
  | EmptyString => acc
  end%Z.

Fixpoint trimStart (s : string) : string :=
  match s with
  | String c s' => if Ascii.is_space c then trimStart s' else s
  | EmptyString => s
  end.

(** [parseInt(s)] for a decimal numeral: leading white space and a sign are
    accepted, what follows the digits is ignored, and [None] is [NaN]. (The
    hexadecimal prefix is not modelled.) *)
Definition parseInt (s : string) : option Z :=
  match trimStart s with
  | String "-"%char s' => Z.opp <$> parseDigits None s'
  | String "+"%char s' => parseDigits None s'
  | s' => parseDigits None s'
  end.

Arguments toString : simpl never.
Arguments truthy : simpl never.

End Js.

(** ** Wardrobe items and their grouping *)

Module Wardrobe.

(** [interface WardrobeItem]; the optional fields are [option]s. *)
Record WardrobeItem := {
  item_id : string;
  item_user_id : string;
  image_base64 : string;
  exact_item_name : option string;
  category : option string;
  color : option string;
  pattern : option string;
  fabric_type : option string;
  style : option string;
  tags : list string;
  created_at : string
}.

(** [item.category || 'Other'] *)
Definition categoryOf (item : WardrobeItem) : string :=
  Js.or_else (category item) "Other".

(** The names every object literal inherits from [Object.prototype]:
    indexing [{}] with one of them yields the inherited member (a function,
    or the prototype itself for [__proto__]), which is truthy and is no
    array. *)
Definition objectPrototype : list string :=
  ["constructor"; "hasOwnProperty"; "isPrototypeOf"; "propertyIsEnumerable";
   "toLocaleString"; "toString"; "valueOf"; "__proto__"; "__defineGetter__";
   "__defineSetter__"; "__lookupGetter__"; "__lookupSetter__"].

(** What indexing an object yields: an array it was given, or a member it
    inherits. *)
Inductive Property :=
  | Group (items : list WardrobeItem)
  | Inherited (name : string).

(** [obj[key]] for an object whose own properties are [own]: the own
    property, or else the inherited member, or else [undefined]. *)
Definition member (own : gmap string (list WardrobeItem)) (key : string)
    : option Property :=
  match own !! key with
  | Some group => Some (Group group)
  | None => if decide (key ∈ objectPrototype) then Some (Inherited key) else None
  end.

(** [obj[key] = value]: a new own property, except that assigning to
    [__proto__] sets the prototype (here to the one the object already
    has) and adds no property. *)
Definition assign (key : string) (value : Property)
    (obj : gmap string Property) : gmap string Property :=
  if decide (key = "__proto__") then obj else <[key := value]> obj.

(** The steps of the [forEach] body on a key the object does not inherit:
    create the group when the key is absent, then push the item at its
    end. *)
Definition addToGroup (grouped : gmap string (list WardrobeItem))
    (item : WardrobeItem) : gmap string (list WardrobeItem) :=
  let category := categoryOf item in
  let grouped :=
    match grouped !! category with
    | None => <[category := []]> grouped
    | Some _ => grouped
    end in
  alter (λ group, group ++ [item]) category grouped.

(** The body of the [forEach] in [getGroupedWardrobe]. When the category
    names an inherited member, [grouped[category]] is that member: the
    guard finds it truthy, no group is created, and [push], which it does
    not have, is called: a [TypeError], here [None]. (No group is ever
    created under such a name, so that otherwise [grouped[category]] is an
    own property or [undefined].) *)
Definition groupStep (grouped : gmap string (list WardrobeItem))
    (item : WardrobeItem) : option (gmap string (list WardrobeItem)) :=
  match member grouped (categoryOf item) with
  | Some (Inherited _) => None
  | _ => Some (addToGroup grouped item)
  end.

(** [wardrobe] is the state value, always an array ([setWardrobe] is only
    given arrays), so that the [Array.isArray] guard passes. [None] is the
    [TypeError] thrown out of the [forEach]. *)
Definition getGroupedWardrobe (wardrobe : list WardrobeItem)
    : option (gmap string (list WardrobeItem)) :=
  foldl (λ grouped item, grouped ≫= λ grouped, groupStep grouped item)
        (Some ∅) wardrobe.

(** The grouping when no step throws. *)
Definition groups (wardrobe : list WardrobeItem)
    : gmap string (list WardrobeItem) :=
  foldl addToGroup ∅ wardrobe.

(** The items of one category, in wardrobe order. *)
Definition ofCategory (c : string) (wardrobe : list WardrobeItem)
    : list WardrobeItem :=
  filter (λ item, categoryOf item = c) wardrobe.

(** All the items held by a grouping, group after group. *)
Definition groupedItems (grouped : gmap string (list WardrobeItem))
    : list WardrobeItem :=
  concat (map snd (map_to_list grouped)).

(** *** Category list and category filter *)

(** [Set.prototype.add]: a set keeps its members in insertion order and
    ignores a member it already has. *)
Definition set_add (members : list string) (x : string) : list string :=
  if decide (x ∈ members) then members else members ++ [x].

(** [Array.prototype.sort()] without a comparator orders strings by their
    UTF-16 code units; the engine's algorithm is a stable sort. *)
Definition sort (l : list string) : list string := merge_sort Js.le l.

Definition getAvailableCategories (wardrobe : list WardrobeItem) : list string :=
  let categories :=
    foldl (λ categories item, set_add categories (categoryOf item)) [] wardrobe in
  sort categories.

(** [None] is the [TypeError] of [getGroupedWardrobe]. The filtered object
    gets what [allGrouped[selectedCategoryFilter]] yields, which for the
    name of an inherited member is that member. *)
Definition getFilteredWardrobe (selectedCategoryFilter : string)
    (wardrobe : list WardrobeItem) : option (gmap string Property) :=
  if decide (selectedCategoryFilter = "all")
  then fmap (M:=gmap string) Group <$> getGroupedWardrobe wardrobe
  else
    allGrouped ← getGroupedWardrobe wardrobe;
    let filtered : gmap string Property := ∅ in
    mret (match member allGrouped selectedCategoryFilter with
          | Some value => assign selectedCategoryFilter value filtered
          | None => filtered
          end).

End Wardrobe.

(** ** Dates of the planner *)

Module Calendar.

Local Open Scope Z_scope.

(** A [Date] holds a time value: milliseconds since the epoch, in UTC. *)
Definition Date := Z.

Definition msPerDay : Z := 86400000.
Definition msPerMinute : Z := 60000.

(** The proleptic Gregorian calendar of the Date object: the day number
    (days since 1970-01-01) of a year, month (1 to 12) and day of month. *)
Definition days_from_civil (y m d : Z) : Z :=
  let y := if m <=? 2 then y - 1 else y in
  let era := y / 400 in
  let yoe := y - era * 400 in
  let mp := (m + 9) mod 12 in
  let doy := (153 * mp + 2) / 5 + d - 1 in
  let doe := yoe * 365 + yoe / 4 - yoe / 100 + doy in
  era * 146097 + doe - 719468.

(** Year, month and day of month of a day number. *)
Definition civil_from_days (z : Z) : Z * Z * Z :=
  let z := z + 719468 in
  let era := z / 146097 in
  let doe := z - era * 146097 in
  let yoe := (doe - doe / 1460 + doe / 36524 - doe / 146096) / 365 in
  let y := yoe + era * 400 in
  let doy := doe - (365 * yoe + yoe / 4 - yoe / 100) in
  let mp := (5 * doy + 2) / 153 in
  let d := doy - (153 * mp + 2) / 5 + 1 in
  let m := if mp <? 10 then mp + 3 else mp - 9 in
  (if m <=? 2 then y + 1 else y, m, d).

(** Day number of the first day of the month a day falls in. *)
Definition monthStart (day : Z) : Z :=
  let '(y, m, _) := civil_from_days day in days_from_civil y m 1.

Definition digit (n : Z) : string :=
  String (Ascii.ascii_of_N (Z.to_N (48 + n mod 10))) "".

Definition pad2 (n : Z) : string := (digit (n / 10) ++ digit n)%string.

Definition pad4 (n : Z) : string := (pad2 (n / 100) ++ pad2 (n mod 100))%string.

(** The date part [YYYY-MM-DD] of an ISO string, for the day with the given
    day number (years 0 to 9999). *)
Definition isoDate (day : Z) : string :=
  let '(y, m, d) := civil_from_days day in
  (pad4 y ++ "-" ++ pad2 m ++ "-" ++ pad2 d)%string.

Definition pad3 (n : Z) : string := (digit (n / 100) ++ pad2 (n mod 100))%string.

(** The time part [HH:mm:ss.sss] of an ISO string. *)
Definition isoTime (ms : Z) : string :=
  (pad2 (ms / 3600000) ++ ":" ++ pad2 (ms / 60000 mod 60) ++ ":"
   ++ pad2 (ms / 1000 mod 60) ++ "." ++ pad3 (ms mod 1000))%string.

(** [date.toISOString()]: the time value printed in UTC. *)
Definition toISOString (date : Date) : string :=
  (isoDate (date / msPerDay) ++ "T" ++ isoTime (date mod msPerDay) ++ "Z")%string.

(** [date.toISOString().split('T')[0]]: what [toISOString] prints before
    the [T], the UTC day of the time value. *)
Definition formatDate (date : Date) : string := isoDate (date / msPerDay).

Section LocalTime.

(** The device's time zone: local time is UTC plus [tz] minutes (the
    opposite of [getTimezoneOffset()]), the same over the dates involved. *)
Variable tz : Z.

Definition localTime (date : Date) : Z := date + tz * msPerMinute.

(** The local calendar day of a date, as a day number. *)
Definition localDay (date : Date) : Z := localTime date / msPerDay.

Definition timeWithinDay (date : Date) : Z := localTime date mod msPerDay.

(** [date.getDay()]: 0 is Sunday; day number 0 was a Thursday. *)
Definition getDay (date : Date) : Z := (localDay date + 4) mod 7.

(** [date.getDate()]: the day of the month, from 1. *)
Definition getDate (date : Date) : Z :=
  localDay date - monthStart (localDay date) + 1.

(** [date.setDate(n)]: day [n] of the date's month, counted from its first
    day and running over into the months before or after, at the same
    local time of day. *)
Definition setDate (date : Date) (n : Z) : Date :=
  (monthStart (localDay date) + n - 1) * msPerDay + timeWithinDay date
  - tz * msPerMinute.

(** [getWeekDates], with [today = new Date()] given by the clock. *)
Definition getWeekDates (today : Date) (weekOffset : Z) : list Date :=
  let startOfWeek := today in
  let startOfWeek :=
    setDate startOfWeek (getDate today - getDay today + weekOffset * 7) in
  (λ i, let date := startOfWeek in setDate date (getDate startOfWeek + i))
    <$> seqZ 0 7.

(** The calendar date a user sees for a date: its local day. *)
Definition localDate (date : Date) : string := isoDate (localDay date).

(** The query string parameters [loadPlannedOutfits] sends. *)
Definition plannerRange (today : Date) (selectedWeek : Z) : option (string * string) :=
  let weekDates := getWeekDates today selectedWeek in
  startDate ← formatDate <$> weekDates !! 0%nat;
  endDate ← formatDate <$> weekDates !! 6%nat;
  Some (startDate, endDate).

(** The local day of the Sunday that starts the week [weekOffset] weeks
    from the week of [today]. *)
Definition sundayOf (today : Date) (weekOffset : Z) : Z :=
  localDay today - getDay today + weekOffset * 7.

(** The UTC day of a date is its local day moved by [dayShift]: by one day
    back when the local time of day is earlier than the zone's offset, by
    one day forward when it is so late that UTC is already in the next day. *)
Definition dayShift (date : Date) : Z :=
  (timeWithinDay date - tz * msPerMinute) / msPerDay.

End LocalTime.

Arguments plannerRange : simpl never.
Arguments toISOString : simpl never.

End Calendar.

(** ** The component state, its environment and its handlers *)

Module App.

Import Wardrobe Calendar.

Local Open Scope Z_scope.

(** *** Records exchanged with the backend *)

Record User := { user_id : string; user_name : string }.

(** [interface ChatMessage]. The [id] of a stylist message is read from the
    response and is [undefined] ([None]) when the response has none for it;
    so is the text of a message. *)
Record ChatMessage := {
  msg_id : option string;
  msg_user_id : string;
  message : option string;
  is_user : bool;
  timestamp : string;
  msg_image_base64 : option string;
  isTyping : option bool
}.

(** The body of a chat response: [messages], [message_ids], [message] and,
    on an error, [detail]. *)
Record ChatData := {
  messages : option (list string);
  message_ids : option (list string);
  data_message : option string;
  chat_detail : option string
}.

(** The four slots of a planned outfit, each a wardrobe item id or [null]. *)
Record OutfitItems := {
  top : option string;
  bottom : option string;
  layering : option string;
  shoes : option string
}.

(** What [savePlannedOutfit] posts. *)
Record PlannedOutfitData := {
  date : string;
  occasion : string;
  event_name : option string;
  items : OutfitItems
}.

(** A planned outfit as the planner endpoint returns it. *)
Record PlannedOutfit := {
  planned_id : string;
  planned_date : string;
  planned_occasion : option string;
  planned_event_name : option string;
  planned_items : OutfitItems
}.

(** An entry of [weeklyOutfits]: [{...plannedOutfit, items: outfitItems}].
    The entry has the id, the date, the occasion and the event name of
    [planned]; its [items] are [outfitItems], which replace the slot
    references of [planned]: those are no field of the entry. *)
Record DisplayedOutfit := {
  planned : PlannedOutfit;
  outfitItems : list WardrobeItem
}.

(** The outfit being built in the planner: a wardrobe item or [null] per slot. *)
Record SelectedOutfit := {
  selected_top : option WardrobeItem;
  selected_bottom : option WardrobeItem;
  selected_layering : option WardrobeItem;
  selected_shoes : option WardrobeItem
}.

(** An element of [generatedOutfits] ([any[]]): the outfit's JSON text. *)
Definition GeneratedOutfit := string.

(** *** The state hooks of [App] that the handlers below read or write *)

Record AppState := {
  token : option string;
  user : option User;
  wardrobe : list WardrobeItem;
  chatMessages : list ChatMessage;
  chatInput : string;
  chatImage : option string;
  loading : bool;
  generatedOutfits : list GeneratedOutfit;
  weeklyOutfits : gmap string DisplayedOutfit;
  selectedWeek : Z;
  selectedOutfit : SelectedOutfit;
  selectedOutfitDate : string;
  outfitOccasion : string;
  outfitEvent : string;
  showManualOutfitBuilder : bool
}.

Definition setToken (v : option string) (st : AppState) : AppState :=
  {| token := v; user := user st; wardrobe := wardrobe st;
     chatMessages := chatMessages st; chatInput := chatInput st;
     chatImage := chatImage st; loading := loading st;
     generatedOutfits := generatedOutfits st;
     weeklyOutfits := weeklyOutfits st; selectedWeek := selectedWeek st;
     selectedOutfit := selectedOutfit st;
     selectedOutfitDate := selectedOutfitDate st;
     outfitOccasion := outfitOccasion st; outfitEvent := outfitEvent st;
     showManualOutfitBuilder := showManualOutfitBuilder st |}.

Definition setUser (v : option User) (st : AppState) : AppState :=
  {| token := token st; user := v; wardrobe := wardrobe st;
     chatMessages := chatMessages st; chatInput := chatInput st;
     chatImage := chatImage st; loading := loading st;
     generatedOutfits := generatedOutfits st;
     weeklyOutfits := weeklyOutfits st; selectedWeek := selectedWeek st;
     selectedOutfit := selectedOutfit st;
     selectedOutfitDate := selectedOutfitDate st;
     outfitOccasion := outfitOccasion st; outfitEvent := outfitEvent st;
     showManualOutfitBuilder := showManualOutfitBuilder st |}.

Definition setWardrobe (v : list WardrobeItem) (st : AppState) : AppState :=
  {| token := token st; user := user st; wardrobe := v;
     chatMessages := chatMessages st; chatInput := chatInput st;
     chatImage := chatImage st; loading := loading st;
     generatedOutfits := generatedOutfits st;
     weeklyOutfits := weeklyOutfits st; selectedWeek := selectedWeek st;
     selectedOutfit := selectedOutfit st;
     selectedOutfitDate := selectedOutfitDate st;
     outfitOccasion := outfitOccasion st; outfitEvent := outfitEvent st;
     showManualOutfitBuilder := showManualOutfitBuilder st |}.

Definition setChatMessages (v : list ChatMessage) (st : AppState) : AppState :=
  {| token := token st; user := user st; wardrobe := wardrobe st;
     chatMessages := v; chatInput := chatInput st; chatImage := chatImage st;
     loading := loading st; generatedOutfits := generatedOutfits st;
     weeklyOutfits := weeklyOutfits st; selectedWeek := selectedWeek st;
     selectedOutfit := selectedOutfit st;
     selectedOutfitDate := selectedOutfitDate st;
     outfitOccasion := outfitOccasion st; outfitEvent := outfitEvent st;
     showManualOutfitBuilder := showManualOutfitBuilder st |}.

Definition setChatInput (v : string) (st : AppState) : AppState :=
  {| token := token st; user := user st; wardrobe := wardrobe st;
     chatMessages := chatMessages st; chatInput := v;
     chatImage := chatImage st; loading := loading st;
     generatedOutfits := generatedOutfits st;
     weeklyOutfits := weeklyOutfits st; selectedWeek := selectedWeek st;
     selectedOutfit := selectedOutfit st;
     selectedOutfitDate := selectedOutfitDate st;
     outfitOccasion := outfitOccasion st; outfitEvent := outfitEvent st;
     showManualOutfitBuilder := showManualOutfitBuilder st |}.

Definition setChatImage (v : option string) (st : AppState) : AppState :=
  {| token := token st; user := user st; wardrobe := wardrobe st;
     chatMessages := chatMessages st; chatInput := chatInput st;
     chatImage := v; loading := loading st;
     generatedOutfits := generatedOutfits st;
     weeklyOutfits := weeklyOutfits st; selectedWeek := selectedWeek st;
     selectedOutfit := selectedOutfit st;
     selectedOutfitDate := selectedOutfitDate st;
     outfitOccasion := outfitOccasion st; outfitEvent := outfitEvent st;
     showManualOutfitBuilder := showManualOutfitBuilder st |}.

Definition setLoading (v : bool) (st : AppState) : AppState :=
  {| token := token st; user := user st; wardrobe := wardrobe st;
     chatMessages := chatMessages st; chatInput := chatInput st;
     chatImage := chatImage st; loading := v;
     generatedOutfits := generatedOutfits st;
     weeklyOutfits := weeklyOutfits st; selectedWeek := selectedWeek st;
     selectedOutfit := selectedOutfit st;
     selectedOutfitDate := selectedOutfitDate st;
     outfitOccasion := outfitOccasion st; outfitEvent := outfitEvent st;
     showManualOutfitBuilder := showManualOutfitBuilder st |}.

Definition setGeneratedOutfits (v : list GeneratedOutfit) (st : AppState) : AppState :=
  {| token := token st; user := user st; wardrobe := wardrobe st;
     chatMessages := chatMessages st; chatInput := chatInput st;
     chatImage := chatImage st; loading := loading st; generatedOutfits := v;
     weeklyOutfits := weeklyOutfits st; selectedWeek := selectedWeek st;
     selectedOutfit := selectedOutfit st;
     selectedOutfitDate := selectedOutfitDate st;
     outfitOccasion := outfitOccasion st; outfitEvent := outfitEvent st;
     showManualOutfitBuilder := showManualOutfitBuilder st |}.

Definition setWeeklyOutfits (v : gmap string DisplayedOutfit) (st : AppState) : AppState :=
  {| token := token st; user := user st; wardrobe := wardrobe st;
     chatMessages := chatMessages st; chatInput := chatInput st;
     chatImage := chatImage st; loading := loading st;
     generatedOutfits := generatedOutfits st; weeklyOutfits := v;
     selectedWeek := selectedWeek st; selectedOutfit := selectedOutfit st;
     selectedOutfitDate := selectedOutfitDate st;
     outfitOccasion := outfitOccasion st; outfitEvent := outfitEvent st;
     showManualOutfitBuilder := showManualOutfitBuilder st |}.

Definition setSelectedOutfit (v : SelectedOutfit) (st : AppState) : AppState :=
  {| token := token st; user := user st; wardrobe := wardrobe st;
     chatMessages := chatMessages st; chatInput := chatInput st;
     chatImage := chatImage st; loading := loading st;
     generatedOutfits := generatedOutfits st;
     weeklyOutfits := weeklyOutfits st; selectedWeek := selectedWeek st;
     selectedOutfit := v; selectedOutfitDate := selectedOutfitDate st;
     outfitOccasion := outfitOccasion st; outfitEvent := outfitEvent st;
     showManualOutfitBuilder := showManualOutfitBuilder st |}.

Definition setOutfitOccasion (v : string) (st : AppState) : AppState :=
  {| token := token st; user := user st; wardrobe := wardrobe st;
     chatMessages := chatMessages st; chatInput := chatInput st;
     chatImage := chatImage st; loading := loading st;
     generatedOutfits := generatedOutfits st;
     weeklyOutfits := weeklyOutfits st; selectedWeek := selectedWeek st;
     selectedOutfit := selectedOutfit st;
     selectedOutfitDate := selectedOutfitDate st; outfitOccasion := v;
     outfitEvent := outfitEvent st;
     showManualOutfitBuilder := showManualOutfitBuilder st |}.

Definition setOutfitEvent (v : string) (st : AppState) : AppState :=
  {| token := token st; user := user st; wardrobe := wardrobe st;
     chatMessages := chatMessages st; chatInput := chatInput st;
     chatImage := chatImage st; loading := loading st;
     generatedOutfits := generatedOutfits st;
     weeklyOutfits := weeklyOutfits st; selectedWeek := selectedWeek st;
     selectedOutfit := selectedOutfit st;
     selectedOutfitDate := selectedOutfitDate st;
     outfitOccasion := outfitOccasion st; outfitEvent := v;
     showManualOutfitBuilder := showManualOutfitBuilder st |}.

Definition setShowManualOutfitBuilder (v : bool) (st : AppState) : AppState :=
  {| token := token st; user := user st; wardrobe := wardrobe st;
     chatMessages := chatMessages st; chatInput := chatInput st;
     chatImage := chatImage st; loading := loading st;
     generatedOutfits := generatedOutfits st;
     weeklyOutfits := weeklyOutfits st; selectedWeek := selectedWeek st;
     selectedOutfit := selectedOutfit st;
     selectedOutfitDate := selectedOutfitDate st;
     outfitOccasion := outfitOccasion st; outfitEvent := outfitEvent st;
     showManualOutfitBuilder := v |}.

(** The state of the first render: the initial value of each hook. *)
Definition initialState : AppState :=
  {| token := None; user := None; wardrobe := []; chatMessages := [];
     chatInput := ""; chatImage := None; loading := false;
     generatedOutfits := []; weeklyOutfits := ∅; selectedWeek := 0;
     selectedOutfit :=
       {| selected_top := None; selected_bottom := None;
          selected_layering := None; selected_shoes := None |};
     selectedOutfitDate := ""; outfitOccasion := ""; outfitEvent := "";
     showManualOutfitBuilder := false |}.

(** *** Requests, responses and other effects *)

(** The requests the handlers send; [bearer] is the token put in the
    [Authorization] header. *)
Inductive Request :=
| GET_auth_me (bearer : option string)
| GET_wardrobe (bearer : option string)
| POST_wardrobe (bearer : option string) (image_base64 : string) (manual_tags : list string)
| DELETE_wardrobe_item (bearer : option string) (itemId : string)
| POST_planner_outfit (bearer : option string) (body : PlannedOutfitData)
| GET_planner_outfits (bearer : option string) (start_date end_date : string)
| POST_chat (bearer : option string) (text : string) (image_base64 : option string)
| DELETE_chat_clear (bearer : option string)
| GET_chat_history (bearer : option string).

(** What [fetch] gives: a rejected promise, or a response with its status
    and its body ([None] when [response.json()] rejects). *)
Inductive FetchResult (B : Type) :=
| NetworkError
| Response (status : Z) (body : option B).
Arguments NetworkError {B}.
Arguments Response {B} status body.

Inductive StorageOp :=
| GetItem (key : string)
| SetItem (key value : string)
| RemoveItem (key : string).

(** What a handler does to the outside, in order. An alert is recorded by
    the words of its title; a render that fails, because a state updater
    throws when React runs it, is recorded as well. *)
Inductive Effect :=
| Fetch (request : Request)
| Alert (title : string)
| Storage (op : StorageOp)
| RenderError.

(** [ImagePicker] results. *)
Record Asset := { base64 : option string; uri : option string }.
Record PickerResult := { canceled : bool; assets : option (list Asset) }.

(** The world outside the component, as one handler run meets it: the
    device's zone, clock, storage faults and image picker, and the answer
    of each endpoint, whose body is the part of the JSON that the handlers
    read (for the wardrobe, the array in [data.items] or [data] itself). *)
Record Env := {
  tz : Z;
  clock : nat → Z;
  storageThrows : StorageOp → bool;
  permissionStatus : string;
  pickedImage : PickerResult;
  get_auth_me : option string → FetchResult User;
  get_wardrobe : option string → FetchResult (list WardrobeItem);
  post_wardrobe : option string → string → list string → FetchResult (option Z);
  delete_wardrobe_item : option string → string → FetchResult unit;
  post_planner_outfit : option string → PlannedOutfitData → FetchResult (option string);
  get_planner_outfits : option string → string → string → FetchResult (list PlannedOutfit);
  post_chat : option string → string → option string → FetchResult ChatData;
  delete_chat_clear : option string → FetchResult unit;
  get_chat_history : option string → FetchResult (list ChatMessage)
}.

(** The component state between renders, the device storage, the effects
    so far and the number of clock readings so far. *)
Record World := {
  state : AppState;
  storage : gmap string string;
  trace : list Effect;
  clockReads : nat
}.

(** *** Handlers as state-passing functions with exceptions *)

Inductive Outcome (A : Type) :=
| Returned (a : A)
| Thrown.
Arguments Returned {A} a.
Arguments Thrown {A}.

(** An asynchronous handler, run to its end. A call that the source does
    not await ([loadWardrobe()], [loadChatHistory()], [loadPlannedOutfits()])
    is run to its end where it is made: it starts there, and what it sets
    afterwards is read by no later step of its caller. In
    [deleteWardrobeItem] and in the effect of the planner tab, where the
    order of what the call and its caller do is in question, the call is
    split in its two parts ([loadWardrobeSent], [loadPlannedOutfitsSent]):
    what it does where it is made, up to its request, and what it does once
    the answer is in, after the next steps of its caller. Console output,
    the typing animation, scrolling and the pause between two chunks are
    left out. *)
Definition Handler (A : Type) : Type := World → Outcome A * World.

#[global] Instance handler_ret : MRet Handler := λ A a w, (Returned a, w).

#[global] Instance handler_bind : MBind Handler := λ A B f m w,
  match m w with
  | (Returned a, w') => f a w'
  | (Thrown, w') => (Thrown, w')
  end.

Definition throw {A} : Handler A := λ w, (Thrown, w).

(** [try { body } catch { handler }] *)
Definition tryCatch {A} (body handler : Handler A) : Handler A := λ w,
  match body w with
  | (Returned a, w') => (Returned a, w')
  | (Thrown, w') => handler w'
  end.

(** [try { body } finally { cleanup }] *)
Definition tryFinally {A} (body : Handler A) (cleanup : Handler unit) : Handler A := λ w,
  match body w with
  | (r, w') =>
      match cleanup w' with
      | (Returned _, w'') => (r, w'')
      | (Thrown, w'') => (Thrown, w'')
      end
  end.

(** A state setter, with the function that gives the new state. *)
Definition update (f : AppState → AppState) : Handler unit := λ w,
  (Returned tt,
   {| state := f (state w); storage := storage w; trace := trace w;
      clockReads := clockReads w |}).

Definition emit (e : Effect) : Handler unit := λ w,
  (Returned tt,
   {| state := state w; storage := storage w; trace := trace w ++ [e];
      clockReads := clockReads w |}).

(** [await response.json()] *)
Definition json {B} (body : option B) : Handler B :=
  match body with
  | Some b => mret b
  | None => throw
  end.

(** [x!.field]: reading a field of [null] throws. *)
Definition nonNull {B} (x : option B) : Handler B :=
  match x with
  | Some b => mret b
  | None => throw
  end.

(** [response.ok] *)
Definition ok (status : Z) : bool := bool_decide (200 ≤ status ≤ 299).
Arguments ok : simpl never.

Definition fetch {B} (request : Request) (result : FetchResult B)
    : Handler (Z * option B) :=
  emit (Fetch request);;
  match result with
  | NetworkError => throw
  | Response status body => mret (status, body)
  end.

(** [setChatMessages(prev => [...prev, msg])] *)
Definition appendMessage (msg : ChatMessage) : Handler unit :=
  update (λ st, setChatMessages (chatMessages st ++ [msg]) st).

(** [prev.filter(msg => keep(msg.id))], where reading [startsWith] of an
    [undefined] id throws. *)
Fixpoint filterIds (keep : string → bool) (prev : list ChatMessage)
    : option (list ChatMessage) :=
  match prev with
  | [] => Some []
  | msg :: rest =>
      match msg_id msg with
      | Some id =>
          if keep id then (msg ::.) <$> filterIds keep rest
          else filterIds keep rest
      | None => None
      end
  end.

(** [setChatMessages(prev => f(prev))]. The call queues the updater and
    never throws: React runs the updater when it next renders. An updater
    that throws fails that render, which is recorded, and sets nothing;
    the handler that queued it goes on, though what it sets from then on
    is shown to no one. *)
Definition updateMessages (f : list ChatMessage → option (list ChatMessage))
    : Handler unit := λ w,
  match f (chatMessages (state w)) with
  | Some msgs => update (setChatMessages msgs) w
  | None => emit RenderError w
  end.

Definition notIndicator (id : string) : bool :=
  negb (Js.startsWith "typing-" id) && negb (Js.startsWith "loading-" id).

Definition notLoading (id : string) : bool := negb (Js.startsWith "loading-" id).

(** [data.messages || [data.message]] *)
Definition messageChunks (data : ChatData) : list (option string) :=
  match messages data with
  | Some chunks => Some <$> chunks
  | None => [data_message data]
  end.

Definition sessionThreshold : Z := 5 * 60 * 1000.

(** [(currentTime - parseInt(lastSessionTime)) > sessionThreshold]; a
    comparison with [NaN] is false. *)
Definition elapsedOver (currentTime : Z) (lastSessionTime : string) : bool :=
  match Js.parseInt lastSessionTime with
  | Some last => bool_decide (currentTime - last > sessionThreshold)
  | None => false
  end.

(** [if (slot) { const item = wardrobe.find(item => item.id === slot);
    if (item) outfitItems.push(item); }] *)
Definition pushResolved (wardrobe : list WardrobeItem) (slot : option string)
    (outfitItems : list WardrobeItem) : list WardrobeItem :=
  match slot with
  | Some id =>
      if Js.truthy slot then
        match List.find (λ item, bool_decide (item_id item = id)) wardrobe with
        | Some item => outfitItems ++ [item]
        | None => outfitItems
        end
      else outfitItems
  | None => outfitItems
  end.

(** The body of the loop over [data.planned_outfits] in [loadPlannedOutfits]. *)
Definition displayOutfit (wardrobe : list WardrobeItem) (plannedOutfit : PlannedOutfit)
    : DisplayedOutfit :=
  let outfitItems := [] in
  let outfitItems := pushResolved wardrobe (top (planned_items plannedOutfit)) outfitItems in
  let outfitItems := pushResolved wardrobe (bottom (planned_items plannedOutfit)) outfitItems in
  let outfitItems := pushResolved wardrobe (layering (planned_items plannedOutfit)) outfitItems in
  let outfitItems := pushResolved wardrobe (shoes (planned_items plannedOutfit)) outfitItems in
  {| planned := plannedOutfit; outfitItems := outfitItems |}.

Definition buildOutfitsMap (wardrobe : list WardrobeItem)
    (planned_outfits : list PlannedOutfit) : gmap string DisplayedOutfit :=
  foldl (λ outfitsMap plannedOutfit,
           <[planned_date plannedOutfit := displayOutfit wardrobe plannedOutfit]> outfitsMap)
        ∅ planned_outfits.

(** The request body [savePlannedOutfit] prepares. *)
Definition plannedOutfitData (snap : AppState) : PlannedOutfitData :=
  let items :=
    {| top := Js.or_null (item_id <$> selected_top (selectedOutfit snap));
       bottom := Js.or_null (item_id <$> selected_bottom (selectedOutfit snap));
       layering := Js.or_null (item_id <$> selected_layering (selectedOutfit snap));
       shoes := Js.or_null (item_id <$> selected_shoes (selectedOutfit snap)) |} in
  {| date := selectedOutfitDate snap;
     occasion := Js.or_else (Some (outfitOccasion snap)) "Casual";
     event_name := Js.or_null (Some (outfitEvent snap));
     items := items |}.

Definition emptySelection : SelectedOutfit :=
  {| selected_top := None; selected_bottom := None;
     selected_layering := None; selected_shoes := None |}.

(** The data URL [addWardrobeItems] builds from the picked asset. *)
Definition imageDataUrl (asset : Asset) (assetBase64 : string) : string :=
  let base64Data := Js.stripDataUrl assetBase64 in
  let fileExtension :=
    match uri asset with
    | Some u => if bool_decide (u ≠ "") then Js.toLowerCase (Js.lastSegment u) else "jpeg"
    | None => "jpeg"
    end in
  let mimeType := if bool_decide (fileExtension = "png") then "image/png" else "image/jpeg" in
  ("data:" ++ mimeType ++ ";base64," ++ base64Data)%string.

Section Handlers.

(** The environment of the run, and the state values of the render whose
    closures are running: a handler reads [token], [wardrobe] and the like
    from [snap], and its setters act on the state of the world. *)
Context (env : Env) (snap : AppState).

(** [Date.now()] and [new Date()] *)
Definition now : Handler Z := λ w,
  (Returned (clock env (clockReads w)),
   {| state := state w; storage := storage w; trace := trace w;
      clockReads := S (clockReads w) |}).

Definition getItem (key : string) : Handler (option string) :=
  emit (Storage (GetItem key));;
  if storageThrows env (GetItem key) then throw
  else λ w, (Returned (storage w !! key), w).

Definition setItem (key value : string) : Handler unit :=
  emit (Storage (SetItem key value));;
  if storageThrows env (SetItem key value) then throw
  else λ w,
    (Returned tt,
     {| state := state w; storage := <[key := value]> (storage w);
        trace := trace w; clockReads := clockReads w |}).

Definition removeItem (key : string) : Handler unit :=
  emit (Storage (RemoveItem key));;
  if storageThrows env (RemoveItem key) then throw
  else λ w,
    (Returned tt,
     {| state := state w; storage := delete key (storage w);
        trace := trace w; clockReads := clockReads w |}).

Definition loadWardrobe : Handler unit :=
  if negb (Js.truthy (token snap)) then mret tt
  else
    update (setLoading true);;
    tryFinally
      (tryCatch
         ('(status, body) ← fetch (GET_wardrobe (token snap)) (get_wardrobe env (token snap));
          if ok status then
            wardrobeItems ← json body;
            update (setWardrobe wardrobeItems)
          else if bool_decide (status = 401) then
            removeItem "token";;
            update (setToken None);;
            update (setUser None)
          else mret tt)
         (mret tt))
      (update (setLoading false)).

(** The answer of a request that is out. *)
Definition received {B} (result : FetchResult B) : Handler (Z * option B) :=
  match result with
  | NetworkError => throw
  | Response status body => mret (status, body)
  end.

(** [loadWardrobe()] where it is not awaited: the call runs up to the
    [await] of its [fetch], with the request out, and returns to its
    caller; what it does once the answer is in is the handler given back. *)
Definition loadWardrobeSent : Handler (Handler unit) :=
  if negb (Js.truthy (token snap)) then mret (mret tt)
  else
    update (setLoading true);;
    emit (Fetch (GET_wardrobe (token snap)));;
    mret
      (tryFinally
         (tryCatch
            ('(status, body) ← received (get_wardrobe env (token snap));
             if ok status then
               wardrobeItems ← json body;
               update (setWardrobe wardrobeItems)
             else if bool_decide (status = 401) then
               removeItem "token";;
               update (setToken None);;
               update (setUser None)
             else mret tt)
            (mret tt))
         (update (setLoading false))).

Definition addWardrobeItems : Handler unit :=
  tryFinally
    (tryCatch
       (if negb (bool_decide (permissionStatus env = "granted")) then
          emit (Alert "Permission needed")
        else
          update (setLoading true);;
          let result := pickedImage env in
          match (if canceled result then None else assets result ≫= head) with
          | Some asset =>
              match base64 asset with
              | Some assetBase64 =>
                  if Js.truthy (base64 asset) then
                    '(status, body) ←
                      fetch (POST_wardrobe (token snap) (imageDataUrl asset assetBase64) [])
                            (post_wardrobe env (token snap) (imageDataUrl asset assetBase64) []);
                    if ok status then
                      result ← json body;
                      loadWardrobe;;
                      update (setGeneratedOutfits []);;
                      emit (Alert "Upload Complete!")
                    else throw
                  else mret tt
              | None => mret tt
              end
          | None => mret tt
          end)
       (emit (Alert "Error")))
    (update (setLoading false)).

(** The reload that rolls the removal back is not awaited: its request
    goes out, the alert is shown, and the handler is at its end; the answer
    of the reload is dealt with afterwards, outside the [try]. *)
Definition deleteWardrobeItem (itemId : string) : Handler unit :=
  reloaded ←
    tryCatch
      (update (λ st, setWardrobe
                       (filter (λ item, item_id item ≠ itemId) (wardrobe st)) st);;
       (if negb (Js.truthy (token snap)) then throw else mret tt);;
       '(status, _) ← fetch (DELETE_wardrobe_item (token snap) itemId)
                            (delete_wardrobe_item env (token snap) itemId);
       if ok status then
         update (setGeneratedOutfits []);;
         mret (mret tt)
       else
         reloaded ← loadWardrobeSent;
         emit (Alert "Error");;
         mret reloaded)
      (reloaded ← loadWardrobeSent;
       emit (Alert "Error");;
       mret reloaded);
  reloaded.

(** [handleItemExtractionPermission] only shows the question; the handler
    of its second button is [extractChatItems]. *)
Definition handleItemExtractionPermission (imageBase64 context : string) : Handler unit :=
  emit (Alert "Extract Wardrobe Items").

(** The [onPress] of the button that accepts the extraction, in the chat. *)
Definition extractChatItems (imageBase64 context : string) : Handler unit :=
  tryFinally
    (tryCatch
       (update (setLoading true);;
        '(status, body) ←
          fetch (POST_wardrobe (token snap) imageBase64 ["chat-extracted"; Js.slice0 20 context])
                (post_wardrobe env (token snap) imageBase64 ["chat-extracted"; Js.slice0 20 context]);
        if ok status then
          result ← json body;
          loadWardrobe;;
          emit (Alert "Items Extracted!")
        else emit (Alert "Error"))
       (emit (Alert "Error")))
    (update (setLoading false)).

Definition handleOutfitExtractionPermission (imageBase64 : string) : Handler unit :=
  emit (Alert "Add Items to Wardrobe").

(** The [onPress] of the button that accepts the extraction, after an
    outfit validation. *)
Definition extractOutfitItems (imageBase64 : string) : Handler unit :=
  tryFinally
    (tryCatch
       (update (setLoading true);;
        '(status, body) ←
          fetch (POST_wardrobe (token snap) imageBase64 ["validated-outfit"; "outfit-extract"])
                (post_wardrobe env (token snap) imageBase64 ["validated-outfit"; "outfit-extract"]);
        if ok status then
          result ← json body;
          loadWardrobe;;
          emit (Alert "Items Added!")
        else emit (Alert "Error"))
       (emit (Alert "Error")))
    (update (setLoading false)).

Definition loadPlannedOutfits : Handler unit :=
  if negb (Js.truthy (token snap)) then mret tt
  else
    tryCatch
      (today ← now;
       match plannerRange (tz env) today (selectedWeek snap) with
       | Some (startDate, endDate) =>
           '(status, body) ←
             fetch (GET_planner_outfits (token snap) startDate endDate)
                   (get_planner_outfits env (token snap) startDate endDate);
           if ok status then
             planned_outfits ← json body;
             update (setWeeklyOutfits (buildOutfitsMap (wardrobe snap) planned_outfits))
           else mret tt
       | None => throw
       end)
      (mret tt).

Definition savePlannedOutfit : Handler unit :=
  if negb (Js.truthy (token snap))
     || (negb (bool_decide (is_Some (selected_top (selectedOutfit snap))))
         && negb (bool_decide (is_Some (selected_bottom (selectedOutfit snap)))))
  then mret tt
  else
    tryFinally
      (tryCatch
         (update (setLoading true);;
          '(status, body) ←
            fetch (POST_planner_outfit (token snap) (plannedOutfitData snap))
                  (post_planner_outfit env (token snap) (plannedOutfitData snap));
          data ← json body;
          if ok status then
            emit (Alert "Success!");;
            update (setSelectedOutfit emptySelection);;
            update (setOutfitEvent "");;
            update (setOutfitOccasion "");;
            update (setShowManualOutfitBuilder false);;
            loadPlannedOutfits
          else emit (Alert "Error"))
         (emit (Alert "Error")))
      (update (setLoading false)).

Definition loadChatHistory : Handler unit :=
  if negb (Js.truthy (token snap)) then mret tt
  else
    tryCatch
      ('(status, body) ← fetch (GET_chat_history (token snap))
                               (get_chat_history env (token snap));
       if ok status then
         msgs ← json body;
         update (setChatMessages msgs)
       else if bool_decide (status = 401) then
         removeItem "token";;
         update (setToken None);;
         update (setUser None)
       else mret tt)
      (mret tt).

Definition handleAppReopenBehavior : Handler unit :=
  tryCatch
    (lastSessionTime ← getItem "lastSessionTime";
     currentTime ← now;
     (if negb (Js.truthy lastSessionTime)
         || elapsedOver currentTime (default "" lastSessionTime)
      then
        (if Js.truthy (token snap) then
           tryCatch
             (fetch (DELETE_chat_clear (token snap)) (delete_chat_clear env (token snap));;
              mret tt)
             (mret tt)
         else mret tt);;
        update (setChatMessages []);;
        update (setChatInput "");;
        update (setChatImage None)
      else loadChatHistory);;
     setItem "lastSessionTime" (Js.toString currentTime))
    loadChatHistory.

Definition checkAuthStatus : Handler unit :=
  tryCatch
    (storedToken ← getItem "token";
     if Js.truthy storedToken then
       update (setToken storedToken);;
       '(status, body) ← fetch (GET_auth_me storedToken) (get_auth_me env storedToken);
       if ok status then
         userData ← json body;
         update (setUser (Some userData));;
         handleAppReopenBehavior
       else
         removeItem "token";;
         update (setToken None)
     else mret tt)
    (mret tt).

(** The loop over [messageChunks] in [sendMessage], from index [i]. *)
Fixpoint appendChunks (data : ChatData) (userId : string) (i : nat)
    (chunks : list (option string)) : Handler unit :=
  match chunks with
  | [] => mret tt
  | chunk :: rest =>
      id ← match message_ids data with
           | Some ids => mret (ids !! i)
           | None => t ← now; mret (Some (Js.toString (t + Z.of_nat i)))
           end;
      t ← now;
      appendMessage
        {| msg_id := id; msg_user_id := userId; message := chunk; is_user := false;
           timestamp := toISOString t; msg_image_base64 := None; isTyping := None |};;
      appendChunks data userId (S i) rest
  end.

Definition sendMessage : Handler unit :=
  if Js.isBlank (chatInput snap) && negb (Js.truthy (chatImage snap)) then mret tt
  else
    tId ← now;
    u ← nonNull (user snap);
    t ← now;
    appendMessage
      {| msg_id := Some (Js.toString tId); msg_user_id := user_id u;
         message := Some (Js.or_else (Some (chatInput snap)) "Please analyze this image");
         is_user := true; timestamp := toISOString t;
         msg_image_base64 := Js.or_null (chatImage snap); isTyping := None |};;
    match chatImage snap with
    | Some image =>
        if Js.truthy (chatImage snap) then
          tId ← now;
          t ← now;
          appendMessage
            {| msg_id := Some ("loading-" ++ Js.toString tId)%string; msg_user_id := user_id u;
               message := Some "🔄 Analyzing your image and creating style suggestions...";
               is_user := false; timestamp := toISOString t;
               msg_image_base64 := None; isTyping := None |};;
          handleItemExtractionPermission image (chatInput snap)
        else mret tt
    | None => mret tt
    end;;
    let currentInput := chatInput snap in
    let currentImage := chatImage snap in
    update (setChatInput "");;
    update (setChatImage None);;
    update (setLoading true);;
    tId ← now;
    t ← now;
    updateMessages (λ prev,
      (λ kept, kept ++
         [{| msg_id := Some ("typing-" ++ Js.toString tId)%string; msg_user_id := user_id u;
             message := Some "..."; is_user := false; timestamp := toISOString t;
             msg_image_base64 := None; isTyping := Some true |}])
      <$> filterIds notLoading prev);;
    tryFinally
      (tryCatch
         ('(status, body) ←
            fetch (POST_chat (token snap)
                     (Js.or_else (Some currentInput) "Please analyze this image")
                     (if Js.truthy currentImage
                      then (λ image, "data:image/jpeg;base64," ++ image)%string <$> currentImage
                      else None))
                  (post_chat env (token snap)
                     (Js.or_else (Some currentInput) "Please analyze this image")
                     (if Js.truthy currentImage
                      then (λ image, "data:image/jpeg;base64," ++ image)%string <$> currentImage
                      else None));
          data ← json body;
          if ok status then
            updateMessages (filterIds notIndicator);;
            appendChunks data (user_id u) 0 (messageChunks data)
          else
            updateMessages (filterIds notIndicator);;
            emit (Alert "Error"))
         (updateMessages (filterIds notIndicator);;
          emit (Alert "Network Error")))
      (update (setLoading false)).

End Handlers.

(** [useEffect(() => { checkAuthStatus(); }, [])]: the effect runs once,
    after the first render, so the handlers it reaches are the closures of
    that render and read its state values, the initial ones; [setToken] and
    [setUser] change the state of the next render, not what they read. *)
Definition appStart (env : Env) : Handler unit := checkAuthStatus env initialState.

(** *** Observations on handler runs *)

(** Every run of [m] takes a world to one related to it by [R]. *)
Definition steps (R : relation World) {A} (m : Handler A) : Prop :=
  ∀ w, R w (m w).2.

(** The run leaves the cache of generated outfits as it was. *)
Definition sameOutfits : relation World := λ w w',
  generatedOutfits (state w') = generatedOutfits (state w).

(** The run adds effects that all satisfy [P], and removes none. *)
Definition tracedBy (P : Effect → Prop) : relation World := λ w w',
  ∃ new, trace w' = trace w ++ new ∧ Forall P new.

(** The run leaves the planner's map as it was or replaces it by one built
    from fetched outfits and the given wardrobe. *)
Definition plannedFrom (wardrobe : list WardrobeItem) : relation World := λ w w',
  weeklyOutfits (state w') = weeklyOutfits (state w) ∨
  ∃ planned_outfits,
    weeklyOutfits (state w') = buildOutfitsMap wardrobe planned_outfits.

(** An effect that, if it posts a planner outfit, posts the one prepared
    from the selection. *)
Definition postsPrepared (snap : AppState) (e : Effect) : Prop :=
  ∀ bearer body,
    e = Fetch (POST_planner_outfit bearer body) → body = plannedOutfitData snap.

(** An effect other than a request to clear or to load the chat history. *)
Definition noChatRequest (e : Effect) : Prop :=
  ∀ bearer,
    e ≠ Fetch (DELETE_chat_clear bearer) ∧ e ≠ Fetch (GET_chat_history bearer).

(** The effects a run added to the trace. *)
Definition newEffects (w w' : World) : list Effect :=
  drop (length (trace w)) (trace w').

End App.

(** ** A device, a backend and a signed-in user to run the handlers on *)

Module Scenarios.

Import Wardrobe Calendar App.

Local Open Scope Z_scope.

Definition item (id : string) (cat : option string) : WardrobeItem :=
  {| item_id := id; item_user_id := "u1"; image_base64 := "";
     exact_item_name := None; category := cat; color := None; pattern := None;
     fabric_type := None; style := None; tags := [];
     created_at := "2024-01-01T00:00:00.000Z" |}.

Definition shirt : WardrobeItem := item "w1" (Some "Shirts").
Definition jeans : WardrobeItem := item "w2" (Some "Jeans").
Definition scarf : WardrobeItem := item "w3" None.
Definition sneakers : WardrobeItem := item "w4" (Some "Shoes").

(** A no-break space (U+00A0) followed by an ideographic space (U+3000),
    in UTF-8. *)
Definition wideSpaces : string :=
  String (Ascii.ascii_of_N 194) (String (Ascii.ascii_of_N 160)
    (String (Ascii.ascii_of_N 227) (String (Ascii.ascii_of_N 128)
      (String (Ascii.ascii_of_N 128) "")))).

(** An item that the backend has filed under the category constructor. *)
Definition cape : WardrobeItem := item "w5" (Some "constructor").

Definition reply : ChatData :=
  {| messages := Some ["Try the white shirt"; "with the blue jeans"];
     message_ids := Some ["m1"; "m2"];
     data_message := Some "Try the white shirt with the blue jeans";
     chat_detail := None |}.

(** A stylist message that came without an id. *)
Definition orphan : ChatMessage :=
  {| msg_id := None; msg_user_id := "u1"; message := Some "hello"; is_user := false;
     timestamp := "2024-01-09T20:00:00.000Z"; msg_image_base64 := None;
     isTyping := None |}.

(** A backend that accepts every request, on a device whose storage works,
    five and a half hours ahead of UTC, at 02:00 local time on Wednesday
    10 January 2024 (20:30 UTC on 9 January). *)
Definition env : Env :=
  {| tz := 330;
     clock := λ _, 1704832200000;
     storageThrows := λ _, false;
     permissionStatus := "granted";
     pickedImage :=
       {| canceled := false;
          assets := Some [{| base64 := Some "AAAA"; uri := Some "file:///photo.png" |}] |};
     get_auth_me := λ _, Response 200 (Some {| user_id := "u1"; user_name := "Asha" |});
     get_wardrobe := λ _, Response 200 (Some [shirt; jeans; scarf]);
     post_wardrobe := λ _ _ _, Response 200 (Some (Some 1));
     delete_wardrobe_item := λ _ _, Response 200 (Some tt);
     post_planner_outfit := λ _ _, Response 200 (Some None);
     get_planner_outfits := λ _ _ _, Response 200 (Some []);
     post_chat := λ _ _ _, Response 200 (Some reply);
     delete_chat_clear := λ _, Response 200 (Some tt);
     get_chat_history := λ _, Response 200 (Some []) |}.

(** A signed-in user with two wardrobe items and a cached generated outfit,
    who has typed a chat message. *)
Definition signedIn : AppState :=
  {| token := Some "tok";
     user := Some {| user_id := "u1"; user_name := "Asha" |};
     wardrobe := [shirt; jeans];
     chatMessages := [];
     chatInput := "what goes with this";
     chatImage := None;
     loading := false;
     generatedOutfits := ["outfit-1"];
     weeklyOutfits := ∅;
     selectedWeek := 0;
     selectedOutfit := emptySelection;
     selectedOutfitDate := "2024-01-10";
     outfitOccasion := "";
     outfitEvent := "";
     showManualOutfitBuilder := false |}.

(** The same user with only a layering piece and shoes chosen in the
    outfit builder. *)
Definition shoesOnly : AppState :=
  setSelectedOutfit
    {| selected_top := None; selected_bottom := None;
       selected_layering := Some scarf; selected_shoes := Some sneakers |}
    signedIn.

(** The world at the start of a run, with what the device has stored. *)
Definition world (st : AppState) (stored : gmap string string) : World :=
  {| state := st; storage := stored; trace := []; clockReads := 0 |}.

(** A device that has stored the time of its last session. *)
Definition sessionAt (time : Z) : gmap string string :=
  {["lastSessionTime" := Js.toString time]}.

End Scenarios.

(** ** Starting a chat over, and attaching an image to a message *)

Module ChatSession.

Import Wardrobe Calendar App.

Section Handlers.

Context (env : Env) (snap : AppState).

(** The button that starts a new conversation. *)
Definition startFreshChatSession : Handler unit :=
  tryCatch
    (update (setChatMessages []);;
     update (setChatInput "");;
     update (setChatImage None);;
     if Js.truthy (token snap) then
       fetch (DELETE_chat_clear (token snap)) (delete_chat_clear env (token snap));;
       mret tt
     else mret tt)
    (update (setChatMessages []);;
     update (setChatInput "");;
     update (setChatImage None)).

(** The image button of the chat. [result.assets[0]] throws when [assets]
    is [null]; [?.base64] of a missing first asset is [undefined]. *)
Definition selectChatImage : Handler unit :=
  tryCatch
    (let result := pickedImage env in
     if canceled result then mret tt
     else
       picked ← nonNull (assets result);
       match head picked ≫= base64 with
       | Some assetBase64 =>
           if Js.truthy (Some assetBase64) then
             let base64Data := Js.stripDataUrl assetBase64 in
             if Js.truthy (Some base64Data) && bool_decide (0 < String.length base64Data)%nat
             then update (setChatImage (Some base64Data))
             else throw
           else mret tt
       | None => mret tt
       end)
    (emit (Alert "Error")).

End Handlers.

End ChatSession.

(** ** Answers that make a handler give up *)

Module Failures.

Import Wardrobe Calendar App.

(** A request that did not get through, or that the backend refused. *)
Definition refused {B} (result : FetchResult B) : Prop :=
  result = NetworkError ∨
  ∃ status body, result = Response status body ∧ ok status = false.

(** An answer with the status 401. *)
Definition unauthorized {B} (result : FetchResult B) : bool :=
  match result with
  | Response status _ => bool_decide (status = 401%Z)
  | NetworkError => false
  end.

(** A chat request that failed: no response, a response that is not JSON,
    or a status that is not a success. *)
Definition chatFailed (result : FetchResult ChatData) : Prop :=
  result = NetworkError ∨
  (∃ status, result = Response status None) ∨
  ∃ status data, result = Response status (Some data) ∧ ok status = false.

End Failures.

(** ** What the planner shows: day cards, week header, outfit builder *)

Module PlannerView.

Import Wardrobe Calendar App.

Local Open Scope Z_scope.

Definition days : list string :=
  ["Sunday"; "Monday"; "Tuesday"; "Wednesday"; "Thursday"; "Friday"; "Saturday"].

(** The month names of [toLocaleDateString('en-US', { month: 'short' })]. *)
Definition shortMonths : list string :=
  ["Jan"; "Feb"; "Mar"; "Apr"; "May"; "Jun"; "Jul"; "Aug"; "Sep"; "Oct"; "Nov"; "Dec"].

(** The month (1 to 12) a day number falls in. *)
Definition monthOfDay (day : Z) : Z :=
  let '(_, m, _) := civil_from_days day in m.

Section LocalTime.

Variable tz : Z.

(** [days[date.getDay()]]; an index outside the array gives [undefined]. *)
Definition getDayName (date : Date) : option string :=
  days !! Z.to_nat (getDay tz date).

Definition shortMonth (date : Date) : string :=
  default "" (shortMonths !! Z.to_nat (monthOfDay (localDay tz date) - 1)).

(** [formatCardDate], and the [formatDateRange] of [getWeekDateRange],
    which has the same body: the day of the month and the short month. *)
Definition formatCardDate (date : Date) : string :=
  let day := getDate tz date in
  let month := shortMonth date in
  (Js.toString day ++ " " ++ month)%string.

(** [getWeekDateRange], with [new Date()] given by the clock as in
    [getWeekDates]. *)
Definition getWeekDateRange (today : Date) (weekOffset : Z) : option string :=
  let weekDates := getWeekDates tz today weekOffset in
  startDate ← weekDates !! 1%nat;
  let actualEndDate := startDate in
  let actualEndDate := setDate tz actualEndDate (getDate tz startDate + 6) in
  Some (formatCardDate startDate ++ " to " ++ formatCardDate actualEndDate)%string.

End LocalTime.

(** *** The outfit builder *)

Definition tops : list string := ["T-shirts"; "Shirts"; "Tops"; "Blouses"].
Definition bottoms : list string := ["Pants"; "Jeans"; "Bottoms"; "Skirts"; "Shorts"].

(** [list.includes(item.category)]; a missing category is in no list. *)
Definition includes (names : list string) (category : option string) : bool :=
  match category with
  | Some c => bool_decide (c ∈ names)
  | None => false
  end.

(** The items the builder offers for the top and for the bottom slot. *)
Definition topChoices (wardrobe : list WardrobeItem) : list WardrobeItem :=
  filter (λ item, includes tops (category item) = true) wardrobe.

Definition bottomChoices (wardrobe : list WardrobeItem) : list WardrobeItem :=
  filter (λ item, includes bottoms (category item) = true) wardrobe.

(** The items chosen in the builder, in the order of the slots. *)
Definition selectedItems (selected : SelectedOutfit) : list WardrobeItem :=
  omap id [selected_top selected; selected_bottom selected;
           selected_layering selected; selected_shoes selected].

Record RepetitionWarning := { warning_date : string; warning_message : string }.

(** The id of the first shown item of an outfit whose category is one of
    [names]: [outfit.items.find(item => names.includes(item.category))?.id]. *)
Definition shownId (names : list string) (outfit : DisplayedOutfit) : option string :=
  item_id <$> List.find (λ item, includes names (category item)) (outfitItems outfit).

(** The loop of [checkOutfitRepetition] over the planned outfits: the first
    one that shows the two ids gives the warning. Every entry of
    [weeklyOutfits] is an object with an [items] array, and its [date] is
    the planned date. (The text is in UTF-8.) *)
Fixpoint firstRepetition (currentTopId currentBottomId : option string)
    (allOutfits : list DisplayedOutfit) : option RepetitionWarning :=
  match allOutfits with
  | [] => None
  | outfit :: rest =>
      let outfitTopId := shownId tops outfit in
      let outfitBottomId := shownId bottoms outfit in
      if bool_decide (outfitTopId = currentTopId)
         && bool_decide (outfitBottomId = currentBottomId)
      then
        Some {| warning_date := planned_date (planned outfit);
                warning_message :=
                  ("You wore this combination on "
                   ++ planned_date (planned outfit)
                   ++ ". Consider mixing it up! 👗")%string |}
      else firstRepetition currentTopId currentBottomId rest
  end.

(** [checkOutfitRepetition]; [allOutfits] is [Object.values(weeklyOutfits)],
    whose order the map does not record. *)
Definition checkOutfitRepetition (allOutfits : list DisplayedOutfit)
    (selectedItems : SelectedOutfit) : option RepetitionWarning :=
  let currentTopId := item_id <$> selected_top selectedItems in
  let currentBottomId := item_id <$> selected_bottom selectedItems in
  if negb (Js.truthy currentTopId) || negb (Js.truthy currentBottomId) then None
  else firstRepetition currentTopId currentBottomId allOutfits.

End PlannerView.

(** ** The events of the planner *)

Module Events.

Local Open Scope Z_scope.

(** An event of the calendar; the form of the event modal has the same
    three fields. *)
Record CalendarEvent := {
  event_title : string;
  event_time : string;
  event_type : string
}.

(** The hooks of the events: [weeklyEvents] maps a date key to an array,
    whose elements are events or, where an assignment beyond the end left
    a gap, [undefined] ([None]). The keys are the date keys of the cards,
    which [formatDate] makes and which start with a digit or a sign: none
    names a member that objects inherit, and the map is the object's own
    properties. *)
Record EventState := {
  weeklyEvents : gmap string (list (option CalendarEvent));
  showEventModal : bool;
  selectedEventDate : string;
  eventForm : CalendarEvent;
  editingEventIndex : Z
}.

Definition initialEvents : EventState :=
  {| weeklyEvents := ∅; showEventModal := false; selectedEventDate := "";
     eventForm := {| event_title := ""; event_time := ""; event_type := "other" |};
     editingEventIndex := -1 |}.

(** [setWeeklyEvents(prev => f(prev))] *)
Definition setWeeklyEvents
    (f : gmap string (list (option CalendarEvent)) →
         gmap string (list (option CalendarEvent)))
    (st : EventState) : EventState :=
  {| weeklyEvents := f (weeklyEvents st); showEventModal := showEventModal st;
     selectedEventDate := selectedEventDate st; eventForm := eventForm st;
     editingEventIndex := editingEventIndex st |}.

(** [events[dateKey] || []]: an array is truthy, even an empty one. *)
Definition dayEvents (events : gmap string (list (option CalendarEvent)))
    (dateKey : string) : list (option CalendarEvent) :=
  default [] (events !! dateKey).

Definition resetEventForm (st : EventState) : EventState :=
  {| weeklyEvents := weeklyEvents st; showEventModal := false;
     selectedEventDate := "";
     eventForm := {| event_title := ""; event_time := ""; event_type := "other" |};
     editingEventIndex := -1 |}.

Definition openAddEventModal (dateKey : string) (st : EventState) : EventState :=
  {| weeklyEvents := weeklyEvents st; showEventModal := true;
     selectedEventDate := dateKey; eventForm := eventForm st;
     editingEventIndex := -1 |}.

(** [setEventForm(prev => ({ ...prev, field: text }))], the typing in the
    modal, given by what it makes of the form. *)
Definition setEventForm (f : CalendarEvent → CalendarEvent) (st : EventState)
    : EventState :=
  {| weeklyEvents := weeklyEvents st; showEventModal := showEventModal st;
     selectedEventDate := selectedEventDate st; eventForm := f (eventForm st);
     editingEventIndex := editingEventIndex st |}.

(** The event that [addEvent] and [updateEvent] build from the form. *)
Definition eventOfForm (form : CalendarEvent) : CalendarEvent :=
  {| event_title := event_title form;
     event_time := Js.or_else (Some (event_time form)) "9:00 AM";
     event_type := event_type form |}.

(** [events[index] = event] on an array: an index at or beyond the length
    extends the array and leaves a gap; a negative index sets a property
    of the object and no element. *)
Definition assign (events : list (option CalendarEvent)) (index : Z)
    (event : CalendarEvent) : list (option CalendarEvent) :=
  if index <? 0 then events
  else
    let i := Z.to_nat index in
    if (i <? length events)%nat then <[i := Some event]> events
    else events ++ replicate (i - length events) None ++ [Some event].

(** [events.splice(index, 1)] for an index that is not negative. *)
Definition splice1 (events : list (option CalendarEvent)) (index : nat)
    : list (option CalendarEvent) :=
  take index events ++ drop (S index) events.

(** The two buttons of the question [deleteEvent] asks. *)
Inductive AlertButton := Cancel | Delete.

Section Handlers.

(** The state values of the render whose handlers run: what they read of
    the form, the selected date and the index comes from [snap]; their
    setters act on the current state [st]. *)
Context (snap : EventState).

Definition addEvent (st : EventState) : EventState :=
  if Js.isBlank (event_title (eventForm snap))
     || negb (Js.truthy (Some (selectedEventDate snap)))
  then st
  else
    let newEvent := eventOfForm (eventForm snap) in
    resetEventForm
      (setWeeklyEvents
         (λ prev, <[selectedEventDate snap :=
                      dayEvents prev (selectedEventDate snap) ++ [Some newEvent]]> prev)
         st).

(** [editEvent]; reading an index of a missing array, or a field of a
    missing event, throws ([None]). *)
Definition editEvent (dateKey : string) (eventIndex : nat) (st : EventState)
    : option EventState :=
  events ← weeklyEvents snap !! dateKey;
  event ← mjoin (events !! eventIndex);
  Some {| weeklyEvents := weeklyEvents st; showEventModal := true;
          selectedEventDate := dateKey;
          eventForm :=
            {| event_title := event_title event; event_time := event_time event;
               event_type := event_type event |};
          editingEventIndex := Z.of_nat eventIndex |}.

Definition updateEvent (st : EventState) : EventState :=
  if Js.isBlank (event_title (eventForm snap))
     || bool_decide (editingEventIndex snap = -1)
  then st
  else
    let updatedEvent := eventOfForm (eventForm snap) in
    resetEventForm
      (setWeeklyEvents
         (λ prev,
            let events := dayEvents prev (selectedEventDate snap) in
            let events := assign events (editingEventIndex snap) updatedEvent in
            <[selectedEventDate snap := events]> prev)
         st).

End Handlers.

(** [deleteEvent], with the button the user presses in its question. *)
Definition deleteEvent (dateKey : string) (eventIndex : nat) (pressed : AlertButton)
    (st : EventState) : EventState :=
  match pressed with
  | Cancel => st
  | Delete =>
      setWeeklyEvents
        (λ prev,
           let events := dayEvents prev dateKey in
           let events := splice1 events eventIndex in
           <[dateKey := events]> prev)
        st
  end.

(** An event as the modal makes them: present, with a title that is not
    blank and a time. *)
Definition entered (event : option CalendarEvent) : Prop :=
  ∃ e, event = Some e ∧ Js.isBlank (event_title e) = false ∧ event_time e ≠ "".

(** Every stored event is one the modal made. *)
Definition allEntered (st : EventState) : Prop :=
  ∀ dateKey, Forall entered (dayEvents (weeklyEvents st) dateKey).

(** The index being edited is that of a shown event. *)
Definition editingShown (snap st : EventState) : Prop :=
  0 ≤ editingEventIndex snap
    < Z.of_nat (length (dayEvents (weeklyEvents st) (selectedEventDate snap))).

End Events.

(** ** More to run the handlers on: failing backends, a planned outfit, an event *)

Module MoreScenarios.

Import Wardrobe Calendar App Scenarios PlannerView Events.

Local Open Scope Z_scope.

(** The device of [env] with no connection: every request is rejected. *)
Definition offline : Env :=
  {| tz := tz env; clock := clock env; storageThrows := storageThrows env;
     permissionStatus := permissionStatus env; pickedImage := pickedImage env;
     get_auth_me := λ _, NetworkError;
     get_wardrobe := λ _, NetworkError;
     post_wardrobe := λ _ _ _, NetworkError;
     delete_wardrobe_item := λ _ _, NetworkError;
     post_planner_outfit := λ _ _, NetworkError;
     get_planner_outfits := λ _ _ _, NetworkError;
     post_chat := λ _ _ _, NetworkError;
     delete_chat_clear := λ _, NetworkError;
     get_chat_history := λ _, NetworkError |}.

(** The backend of [env] once the token has expired: it answers 401. *)
Definition expired : Env :=
  {| tz := tz env; clock := clock env; storageThrows := storageThrows env;
     permissionStatus := permissionStatus env; pickedImage := pickedImage env;
     get_auth_me := λ _, Response 401 None;
     get_wardrobe := λ _, Response 401 None;
     post_wardrobe := λ _ _ _, Response 401 None;
     delete_wardrobe_item := λ _ _, Response 401 None;
     post_planner_outfit := λ _ _, Response 401 None;
     get_planner_outfits := λ _ _ _, Response 401 None;
     post_chat := λ _ _ _, Response 401 None;
     delete_chat_clear := λ _, Response 401 None;
     get_chat_history := λ _, Response 401 None |}.

(** The user of [signedIn] with a shirt and jeans chosen in the builder. *)
Definition shirtAndJeans : AppState :=
  setSelectedOutfit
    {| selected_top := Some shirt; selected_bottom := Some jeans;
       selected_layering := None; selected_shoes := None |}
    signedIn.

(** That outfit as the planner endpoint returns it once saved. *)
Definition plannedShirtAndJeans : PlannedOutfit :=
  {| planned_id := "p1"; planned_date := "2024-01-10";
     planned_occasion := Some "Casual"; planned_event_name := None;
     planned_items := items (plannedOutfitData shirtAndJeans) |}.

Definition lecture : CalendarEvent :=
  {| event_title := "College"; event_time := "9:00 AM"; event_type := "education" |}.

(** The event modal open on 10 January with a title typed in. *)
Definition typedLecture : EventState :=
  {| weeklyEvents := ∅; showEventModal := true; selectedEventDate := "2024-01-10";
     eventForm := {| event_title := "College"; event_time := ""; event_type := "education" |};
     editingEventIndex := -1 |}.

(** A calendar with that event on 10 January. *)
Definition withLecture : EventState :=
  {| weeklyEvents := {["2024-01-10" := [Some lecture]]}; showEventModal := false;
     selectedEventDate := "";
     eventForm := {| event_title := ""; event_time := ""; event_type := "other" |};
     editingEventIndex := -1 |}.

(** The device of [env] without the permission to read the photo library. *)
Definition noPermission : Env :=
  {| tz := tz env; clock := clock env; storageThrows := storageThrows env;
     permissionStatus := "denied"; pickedImage := pickedImage env;
     get_auth_me := get_auth_me env; get_wardrobe := get_wardrobe env;
     post_wardrobe := post_wardrobe env;
     delete_wardrobe_item := delete_wardrobe_item env;
     post_planner_outfit := post_planner_outfit env;
     get_planner_outfits := get_planner_outfits env;
     post_chat := post_chat env; delete_chat_clear := delete_chat_clear env;
     get_chat_history := get_chat_history env |}.

(** The backend of [env] once the shirt and the jeans are planned. *)
Definition planning : Env :=
  {| tz := tz env; clock := clock env; storageThrows := storageThrows env;
     permissionStatus := permissionStatus env; pickedImage := pickedImage env;
     get_auth_me := get_auth_me env; get_wardrobe := get_wardrobe env;
     post_wardrobe := post_wardrobe env;
     delete_wardrobe_item := delete_wardrobe_item env;
     post_planner_outfit := post_planner_outfit env;
     get_planner_outfits := λ _ _ _, Response 200 (Some [plannedShirtAndJeans]);
     post_chat := post_chat env; delete_chat_clear := delete_chat_clear env;
     get_chat_history := get_chat_history env |}.

(** The user of [signedIn] before the wardrobe has been loaded: the app
    opens on the chat tab, and the wardrobe is loaded by the wardrobe tab
    and by the planner tab. *)
Definition newcomer : AppState := setWardrobe [] signedIn.

End MoreScenarios.

(** ** The card of today *)

Module Today.

Import Calendar PlannerView.

Local Open Scope Z_scope.

Definition shortDays : list string :=
  ["Sun"; "Mon"; "Tue"; "Wed"; "Thu"; "Fri"; "Sat"].

(** The day numbers of the years 0 to 9999, which are printed with four
    digits. *)
Definition fourDigitYear (day : Z) : Prop :=
  let '(y, _, _) := civil_from_days day in 0 ≤ y ≤ 9999.

(** [array.findIndex(p)]: the first index whose element satisfies [p], or
    [-1]. *)
Fixpoint findIndex {A} (p : A → bool) (array : list A) : Z :=
  match array with
  | [] => -1
  | x :: rest =>
      if p x then 0
      else let i := findIndex p rest in if i <? 0 then -1 else i + 1
  end.

Section LocalTime.

Variable tz : Z.

(** [date.toDateString()]: the local day as [Wed Jan 10 2024] (years 0 to
    9999). *)
Definition toDateString (date : Date) : string :=
  let '(y, m, d) := civil_from_days (localDay tz date) in
  (default "" (shortDays !! Z.to_nat (getDay tz date)) ++ " "
   ++ default "" (shortMonths !! Z.to_nat (m - 1)) ++ " "
   ++ pad2 d ++ " " ++ pad4 y)%string.

(** [isToday], with its [new Date()] given by the clock as [now]. *)
Definition isToday (now date : Date) : bool :=
  let today := now in
  bool_decide (toDateString date = toDateString today).

(** [scrollToCurrentDay] once its timer has fired, the planner being
    shown: the vertical position it scrolls to, if it scrolls. [today] is
    the clock reading of [getWeekDates], [now] that of [isToday]. *)
Definition scrollToCurrentDay (today now : Date) (selectedWeek : Z) : option Z :=
  let weekDates := getWeekDates tz today selectedWeek in
  let todayIndex := findIndex (isToday now) weekDates in
  if 0 <=? todayIndex then
    let cardHeight := 200 in
    let scrollPosition := todayIndex * cardHeight in
    Some scrollPosition
  else None.

End LocalTime.

End Today.

(** ** The effect of the planner tab *)

Module PlannerTab.

Import Wardrobe Calendar App.

Section Handlers.

Context (env : Env) (snap : AppState).

(** [loadPlannedOutfits()] where it is not awaited: the call runs up to the
    [await] of its [fetch], with the request out, and returns to its
    caller; what it does once the answer is in is the handler given back.
    The wardrobe it resolves the slots against is the one of the render
    whose closure it is. *)
Definition loadPlannedOutfitsSent : Handler (Handler unit) :=
  if negb (Js.truthy (token snap)) then mret (mret tt)
  else
    tryCatch
      (today ← now env;
       match plannerRange (tz env) today (selectedWeek snap) with
       | Some (startDate, endDate) =>
           emit (Fetch (GET_planner_outfits (token snap) startDate endDate));;
           mret
             (tryCatch
                ('(status, body) ←
                   received (get_planner_outfits env (token snap) startDate endDate);
                 if ok status then
                   planned_outfits ← json body;
                   update (setWeeklyOutfits
                             (buildOutfitsMap (wardrobe snap) planned_outfits))
                 else mret tt)
                (mret tt))
       | None => throw
       end)
      (mret (mret tt)).

(** The effect that runs after a render with the state [snap] in which the
    tab [currentTab] is shown, when the user, the token, the tab or the
    selected week has changed: [loadWardrobe()] and [loadPlannedOutfits()]
    are both started and neither is awaited. The two answers are then dealt
    with, the wardrobe's first when [wardrobeFirst]; no render lies between
    the two calls, so that both are closures of the render of [snap]. *)
Definition plannerTabEffect (currentTab : string) (wardrobeFirst : bool)
    : Handler unit :=
  if bool_decide (is_Some (user snap)) && Js.truthy (token snap)
     && bool_decide (currentTab = "planner")
  then
    wardrobeLoaded ← loadWardrobeSent env snap;
    outfitsLoaded ← loadPlannedOutfitsSent;
    if wardrobeFirst then wardrobeLoaded;; outfitsLoaded
    else outfitsLoaded;; wardrobeLoaded
  else mret tt.

End Handlers.

End PlannerTab.

(** ** The chunks of a reply *)

Module Backend.

(** Modelled from the spec: the delimiter of the chunking, which the
    backend (not under src/) looks for in the reply of the LLM; it is the
    one the prompt asks the LLM to put between the chunks. *)
Definition delimiter : string := "||CHUNK||".

(** Modelled from the spec: string splitting on a delimiter, read from the
    left: the first piece of [s] once [skip] characters (the rest of a
    delimiter just met) are passed over, and the pieces after it. *)
Fixpoint splitFrom (sep : string) (skip : nat) (s : string) : string * list string :=
  match s with
  | EmptyString => (EmptyString, [])
  | String c s' =>
      match skip with
      | S skip' => splitFrom sep skip' s'
      | O =>
          if String.prefix sep s
          then (EmptyString,
                let '(piece, pieces) := splitFrom sep (String.length sep - 1) s' in
                piece :: pieces)
          else
            let '(piece, pieces) := splitFrom sep 0 s' in
            (String c piece, pieces)
      end
  end.

(** Modelled from the spec: string splitting on a delimiter; the pieces
    are what lies before, between and after its occurrences. *)
Definition split (sep s : string) : list string :=
  let '(piece, pieces) := splitFrom sep 0 s in piece :: pieces.

(** Modelled from the spec: the chunking of the stylist's reply by the
    backend, whose code is not under src/ (only the prompt and the client
    that shows the chunks are): string splitting on a delimiter produced
    by the LLM. *)
Definition chunks (reply : string) : list string := split delimiter reply.



End Backend.

(** * Properties *)

(** ** JavaScript values *)

Module JsFacts.

Import Js.

Lemma truthy_Some o : truthy o = true ↔ ∃ s, o = Some s ∧ s ≠ "".
Proof.
  unfold truthy. destruct o as [s|].
  - rewrite bool_decide_eq_true. split.
    + intros Hs. by exists s.
    + by intros (s' & [= <-] & Hs).
  - split; [done|]. by intros (s & [=] & _).
Qed.

Lemma or_else_truthy o d : truthy o = true → Some (or_else o d) = o.
Proof. unfold truthy. destruct o as [s|]; simpl; [|done]. by intros ->. Qed.

Lemma or_else_falsy o d : truthy o = false → or_else o d = d.
Proof. unfold truthy. destruct o as [s|]; simpl; [|done]. by intros ->. Qed.

Lemma digit_cases (d : N) :
  (d < 10)%N →
  d ∈ [0; 1; 2; 3; 4; 5; 6; 7; 8; 9]%N.
Proof.
  intros Hd. repeat (rewrite elem_of_cons). 
  assert (d = 0 ∨ d = 1 ∨ d = 2 ∨ d = 3 ∨ d = 4 ∨ d = 5 ∨ d = 6 ∨ d = 7
          ∨ d = 8 ∨ d = 9)%N by lia.
  tauto.
Qed.

Lemma digitValue_pretty_N_char (d : N) :
  (d < 10)%N → digitValue (pretty_N_char d) = Some (Z.of_N d).
Proof.
  intros Hd%digit_cases. repeat (apply elem_of_cons in Hd as [->|Hd]; [done|]).
  by apply not_elem_of_nil in Hd.
Qed.

Lemma pretty_N_char_plain (d : N) :
  (d < 10)%N →
  Ascii.is_space (pretty_N_char d) = false ∧
  pretty_N_char d ≠ "-"%char ∧ pretty_N_char d ≠ "+"%char.
Proof.
  intros Hd%digit_cases. repeat (apply elem_of_cons in Hd as [->|Hd]; [done|]).
  by apply not_elem_of_nil in Hd.
Qed.

(** Reading back the digits printed for a positive number. *)
Lemma parseDigits_pretty_N_go (x : N) (s : string) :
  (0 < x)%N →
  parseDigits None (pretty_N_go x s) = parseDigits (Some (Z.of_N x)) s.
Proof.
  revert s. induction (N.lt_wf_0 x) as [x _ IH]. intros s Hx.
  rewrite pretty_N_go_step by done.
  assert (x `mod` 10 < 10)%N as Hd by (apply N.mod_lt; lia).
  destruct (decide (x `div` 10 = 0)%N) as [Hq|Hq].
  - rewrite Hq, pretty_N_go_0. simpl.
    rewrite digitValue_pretty_N_char by done. simpl.
    do 2 f_equal.
    assert (x = 10 * (x `div` 10) + x `mod` 10)%N by (by apply N.div_mod). lia.
  - rewrite IH; [|apply N.div_lt; lia|by apply N.neq_0_lt_0]. simpl.
    rewrite digitValue_pretty_N_char by done. simpl.
    do 2 f_equal.
    assert (x = 10 * (x `div` 10) + x `mod` 10)%N by (by apply N.div_mod). lia.
Qed.

Lemma pretty_N_go_head (x : N) (s : string) :
  (0 < x)%N →
  ∃ d s', (d < 10)%N ∧ pretty_N_go x s = String (pretty_N_char d) s'.
Proof.
  revert s. induction (N.lt_wf_0 x) as [x _ IH]. intros s Hx.
  rewrite pretty_N_go_step by done.
  destruct (decide (x `div` 10 = 0)%N) as [Hq|Hq].
  - rewrite Hq, pretty_N_go_0. eexists _, _. split; [|done].
    apply N.mod_lt. lia.
  - apply IH; [apply N.div_lt; lia|by apply N.neq_0_lt_0].
Qed.

Lemma toString_head (n : Z) :
  (0 ≤ n)%Z →
  ∃ d s', (d < 10)%N ∧ toString n = String (pretty_N_char d) s'.
Proof.
  intros Hn. unfold toString, pretty, pretty_Z.
  destruct n as [|p|p]; [|..|lia].
  - by exists 0%N, "".
  - unfold pretty_positive, pretty, pretty_N. rewrite decide_False by lia.
    apply pretty_N_go_head. lia.
Qed.

(** A time stored with [toString] is read back by [parseInt]. *)
Lemma parseInt_toString (n : Z) : (0 ≤ n)%Z → parseInt (toString n) = Some n.
Proof.
  intros Hn. destruct (toString_head n Hn) as (d & s' & Hd & Hs).
  destruct (pretty_N_char_plain d Hd) as (Hsp & Hminus & Hplus).
  unfold parseInt. rewrite Hs. simpl. rewrite Hsp.
  assert (parseDigits None (String (pretty_N_char d) s') = Some n) as Hp.
  { rewrite <-Hs. unfold toString, pretty, pretty_Z.
    destruct n as [|p|p]; [done|..|lia].
    unfold pretty_positive, pretty, pretty_N. rewrite decide_False by lia.
    rewrite parseDigits_pretty_N_go by lia. simpl. f_equal. }
  destruct (pretty_N_char d) as [[] [] [] [] [] [] [] []]; try done.
Qed.

Lemma truthy_toString (n : Z) : (0 ≤ n)%Z → truthy (Some (toString n)) = true.
Proof.
  intros Hn. destruct (toString_head n Hn) as (d & s' & _ & ->). done.
Qed.

Lemma stripPrefix_app p r : Js.stripPrefix p (p +:+ r) = Some r.
Proof.
  induction p as [|a p IH]; [done|].
  change (String a p +:+ r) with (String a (p +:+ r)). cbn [Js.stripPrefix].
  by rewrite Ascii.eqb_refl.
Qed.

Lemma stripPrefix_Some p s r : Js.stripPrefix p s = Some r → s = p +:+ r.
Proof.
  revert s. induction p as [|a p IH]; intros s; cbn [Js.stripPrefix].
  - by intros [= ->].
  - destruct s as [|b s]; [done|].
    destruct (Ascii.eqb_spec a b) as [->|]; [|done].
    intros Hp. change (String b p +:+ r) with (String b (p +:+ r)).
    by rewrite <-(IH s Hp).
Qed.

(** [dropLower] removes the longest prefix of lower-case letters. *)
Lemma dropLower_split s :
  ∃ letters, s = letters +:+ Js.dropLower s ∧ Js.dropLower letters = "".
Proof.
  induction s as [|c s (letters & Hs & Hl)]; [by exists ""|].
  cbn [Js.dropLower]. destruct (Js.isLower c) eqn:Hc.
  - exists (String c letters). split.
    + change (String c letters +:+ Js.dropLower s)
        with (String c (letters +:+ Js.dropLower s)).
      by rewrite <-Hs.
    + cbn [Js.dropLower]. by rewrite Hc.
  - by exists "".
Qed.

Lemma dropLower_app letters c rest :
  Js.dropLower letters = "" → Js.isLower c = false →
  Js.dropLower (letters +:+ String c rest) = String c rest.
Proof.
  intros Hl Hc. induction letters as [|a letters IH].
  - change ("" +:+ String c rest) with (String c rest). cbn [Js.dropLower].
    by rewrite Hc.
  - change (String a letters +:+ String c rest)
      with (String a (letters +:+ String c rest)).
    cbn [Js.dropLower] in *. destruct (Js.isLower a); [by apply IH|done].
Qed.

(** [stripDataUrl] removes the match of the pattern when there is one. *)
Lemma stripDataUrl_header kind payload s :
  Js.dataUrlHeader kind payload s → Js.stripDataUrl s = payload.
Proof.
  intros (Hkind & Hlower & ->). unfold Js.stripDataUrl.
  rewrite stripPrefix_app.
  destruct kind as [|c letters]; [done|].
  change (String c letters +:+ ";base64," +:+ payload)
    with (String c (letters +:+ String ";" ("base64," +:+ payload))).
  cbn [Js.dropLower] in Hlower. destruct (Js.isLower c) eqn:Hc; [|done].
  cbv beta iota. rewrite Hc, dropLower_app by done.
  change (String ";" ("base64," +:+ payload)) with (";base64," +:+ payload).
  by rewrite stripPrefix_app.
Qed.

(** And it leaves a string without such a match as it is. *)
Lemma stripDataUrl_other s :
  (∀ kind payload, ¬ Js.dataUrlHeader kind payload s) → Js.stripDataUrl s = s.
Proof.
  intros Hnone. unfold Js.stripDataUrl.
  destruct (Js.stripPrefix "data:image/" s) as [[|c rest]|] eqn:Hp; [done| |done].
  destruct (Js.isLower c) eqn:Hc; [|done].
  destruct (Js.stripPrefix ";base64," (Js.dropLower rest)) as [payload|] eqn:Hb;
    [|done].
  destruct (dropLower_split rest) as (letters & Hrest & Hletters).
  destruct (Hnone (String c letters) payload). split_and!.
  - done.
  - cbn [Js.dropLower]. by rewrite Hc.
  - apply stripPrefix_Some in Hp, Hb. rewrite Hp. rewrite Hrest at 1.
    by rewrite Hb.
Qed.

(** The code units of a character of two bytes, of one of three bytes
    and of one outside the basic plane, which has two. *)
Lemma codeUnits_samples :
  Js.codeUnits "é～😀" = [233; 65374; 55357; 56832]%N.
Proof. reflexivity. Qed.

(** [slice] counts code units, and can cut a character outside the basic
    plane in two. *)
Lemma slice0_samples :
  Js.slice0 20 "what goes with this" = "what goes with this" ∧
  Js.slice0 4 "what goes with this" = "what" ∧
  Js.slice0 2 "é～😀" = "é～" ∧
  Js.slice0 4 "é～😀" = "é～😀" ∧
  Js.codeUnits (Js.slice0 3 "é～😀") = [233; 65374; 55357]%N.
Proof. split_and!; reflexivity. Qed.

(** White space outside ASCII is white space to [trim]. *)
Lemma isBlank_wideSpaces :
  Js.codeUnits Scenarios.wideSpaces = [160; 12288]%N ∧
  Js.isBlank (" " +:+ Scenarios.wideSpaces) = true ∧
  Js.isBlank " a" = false.
Proof. split_and!; reflexivity. Qed.

End JsFacts.

(** ** Grouping, category list and category filter *)

Module WardrobeFacts.

Import Wardrobe.

Lemma addToGroup_lookup grouped item c :
  addToGroup grouped item !! c =
    if decide (c = categoryOf item)
    then Some (default [] (grouped !! c) ++ [item])
    else grouped !! c.
Proof.
  unfold addToGroup. case_decide as Hc.
  - subst c. destruct (grouped !! categoryOf item) as [group|] eqn:Hg.
    + by rewrite lookup_alter_eq, Hg.
    + by rewrite lookup_alter_eq, lookup_insert_eq.
  - destruct (grouped !! categoryOf item) eqn:Hg.
    + by rewrite lookup_alter_ne.
    + by rewrite lookup_alter_ne, lookup_insert_ne.
Qed.

Lemma addToGroup_insert grouped item :
  addToGroup grouped item =
    <[categoryOf item := default [] (grouped !! categoryOf item) ++ [item]]> grouped.
Proof.
  apply map_eq. intros c. rewrite addToGroup_lookup, lookup_insert.
  repeat case_decide; congruence.
Qed.

Lemma groups_snoc wardrobe item :
  groups (wardrobe ++ [item]) =
    addToGroup (groups wardrobe) item.
Proof. unfold groups. by rewrite foldl_app. Qed.

Lemma ofCategory_snoc c wardrobe item :
  ofCategory c (wardrobe ++ [item]) =
    ofCategory c wardrobe ++ (if decide (categoryOf item = c) then [item] else []).
Proof.
  unfold ofCategory. by rewrite filter_app.
Qed.

(** A group exists exactly when some item has its category, and it then
    holds those items in wardrobe order. *)
Lemma groups_lookup wardrobe c :
  groups wardrobe !! c =
    match ofCategory c wardrobe with
    | [] => None
    | group => Some group
    end.
Proof.
  induction wardrobe as [|item wardrobe IH] using rev_ind; [done|].
  rewrite groups_snoc, addToGroup_lookup, ofCategory_snoc, IH.
  case_decide as Hc.
  - rewrite decide_True by done.
    destruct (ofCategory c wardrobe); done.
  - rewrite decide_False by done. by rewrite app_nil_r.
Qed.

Lemma groups_lookup_Some wardrobe c group :
  groups wardrobe !! c = Some group ↔
  group = ofCategory c wardrobe ∧ group ≠ [].
Proof.
  rewrite groups_lookup.
  destruct (ofCategory c wardrobe) eqn:E; split.
  - done.
  - by intros [-> ?].
  - by intros [= <-].
  - by intros [-> _].
Qed.

Lemma groupedItems_addToGroup grouped item :
  groupedItems (addToGroup grouped item) ≡ₚ item :: groupedItems grouped.
Proof.
  rewrite addToGroup_insert. unfold groupedItems.
  destruct (grouped !! categoryOf item) as [group|] eqn:Hg; simpl.
  - rewrite <-(insert_delete_eq grouped).
    rewrite map_to_list_insert by apply lookup_delete_eq.
    rewrite <-(map_to_list_delete grouped _ _ Hg). simpl.
    rewrite <-app_assoc. simpl.
    by rewrite <-Permutation_middle.
  - by rewrite map_to_list_insert.
Qed.

Lemma groupedItems_groups wardrobe :
  groupedItems (groups wardrobe) ≡ₚ wardrobe.
Proof.
  induction wardrobe as [|item wardrobe IH] using rev_ind.
  - unfold groups, groupedItems. simpl.
    by rewrite map_to_list_empty.
  - rewrite groups_snoc, groupedItems_addToGroup, IH.
    by rewrite <-Permutation_cons_append.
Qed.

Lemma elem_of_set_add members x y :
  y ∈ set_add members x ↔ y ∈ members ∨ y = x.
Proof.
  unfold set_add. case_decide as Hx.
  - split; [by left|]. by intros [?| ->].
  - rewrite elem_of_app, list_elem_of_singleton. done.
Qed.

Lemma NoDup_set_add members x : NoDup members → NoDup (set_add members x).
Proof.
  intros Hnd. unfold set_add. case_decide as Hx; [done|].
  apply NoDup_app. split_and!; [done| |apply NoDup_singleton].
  intros y Hy ->%list_elem_of_singleton. done.
Qed.

Lemma categories_fold wardrobe :
  let categories :=
    foldl (λ categories item, set_add categories (categoryOf item)) [] wardrobe in
  NoDup categories ∧ ∀ c, c ∈ categories ↔ ∃ item, item ∈ wardrobe ∧ categoryOf item = c.
Proof.
  induction wardrobe as [|item wardrobe [IHnd IH]] using rev_ind; simpl.
  - split; [constructor|]. intros c. split.
    + by intros ?%not_elem_of_nil.
    + by intros (item & ?%not_elem_of_nil & _).
  - rewrite foldl_app. simpl. split; [by apply NoDup_set_add|].
    intros c. rewrite elem_of_set_add, IH. split.
    + intros [(item' & Hin & Hc)| ->].
      * exists item'. rewrite elem_of_app. auto.
      * exists item. rewrite elem_of_app, list_elem_of_singleton. auto.
    + intros (item' & [Hin| ->%list_elem_of_singleton]%elem_of_app & Hc).
      * left. eauto.
      * by right.
Qed.

Lemma elem_of_ofCategory item c wardrobe :
  item ∈ ofCategory c wardrobe ↔ item ∈ wardrobe ∧ categoryOf item = c.
Proof. unfold ofCategory. rewrite list_elem_of_filter. tauto. Qed.

Lemma groups_is_Some wardrobe c :
  is_Some (groups wardrobe !! c) ↔
  ∃ item, item ∈ wardrobe ∧ categoryOf item = c.
Proof.
  rewrite groups_lookup.
  destruct (ofCategory c wardrobe) as [|item group] eqn:E; split.
  - by intros [? [=]].
  - intros (item & Hin). apply elem_of_ofCategory in Hin.
    rewrite E in Hin. by apply not_elem_of_nil in Hin.
  - intros _. exists item. apply elem_of_ofCategory. rewrite E. left.
  - by eexists.
Qed.

Lemma elem_of_getAvailableCategories wardrobe c :
  c ∈ getAvailableCategories wardrobe ↔ ∃ item, item ∈ wardrobe ∧ categoryOf item = c.
Proof.
  unfold getAvailableCategories, sort. rewrite merge_sort_Permutation.
  apply categories_fold.
Qed.

(** The grouping throws exactly when some item's category names an
    inherited member, and is [groups] otherwise. *)
Lemma groups_inherited wardrobe c :
  Forall (λ item, categoryOf item ∉ objectPrototype) wardrobe →
  c ∈ objectPrototype → groups wardrobe !! c = None.
Proof.
  intros Hall Hc. rewrite groups_lookup.
  destruct (ofCategory c wardrobe) as [|item group] eqn:E; [done|].
  assert (item ∈ ofCategory c wardrobe) as Hin by (rewrite E; left).
  apply elem_of_ofCategory in Hin as [Hin <-].
  rewrite Forall_forall in Hall. by destruct (Hall item Hin).
Qed.

Lemma getGroupedWardrobe_run wardrobe :
  getGroupedWardrobe wardrobe =
    if decide (Forall (λ item, categoryOf item ∉ objectPrototype) wardrobe)
    then Some (groups wardrobe) else None.
Proof.
  induction wardrobe as [|item wardrobe IH] using rev_ind.
  - by rewrite decide_True by constructor.
  - unfold getGroupedWardrobe in *. rewrite foldl_app. cbn [foldl]. rewrite IH.
    destruct (decide (Forall _ wardrobe)) as [Hall|Hall]; cbn [mbind option_bind].
    + unfold groupStep, member.
      destruct (decide (categoryOf item ∈ objectPrototype)) as [Hc|Hc].
      * rewrite (groups_inherited _ _ Hall Hc).
        destruct (decide (Forall _ (wardrobe ++ [item]))) as [Hall'|]; [|done].
        apply Forall_app in Hall' as [_ Hitem]. by inversion Hitem.
      * rewrite groups_snoc.
        destruct (decide (Forall _ (wardrobe ++ [item]))) as [|Hall'].
        -- by destruct (groups wardrobe !! categoryOf item).
        -- destruct Hall'. apply Forall_app. split; [done|]. by constructor.
    + destruct (decide (Forall _ (wardrobe ++ [item]))) as [Hall'|]; [|done].
      by apply Forall_app in Hall' as [? _].
Qed.

Lemma getGroupedWardrobe_Some wardrobe grouped :
  getGroupedWardrobe wardrobe = Some grouped ↔
  Forall (λ item, categoryOf item ∉ objectPrototype) wardrobe ∧
  grouped = groups wardrobe.
Proof.
  rewrite getGroupedWardrobe_run. case_decide; split.
  - by intros [= <-].
  - by intros [_ ->].
  - done.
  - by intros [? _].
Qed.

Lemma getGroupedWardrobe_None wardrobe :
  getGroupedWardrobe wardrobe = None ↔
  ∃ item, item ∈ wardrobe ∧ categoryOf item ∈ objectPrototype.
Proof.
  rewrite getGroupedWardrobe_run. case_decide as Hall; split.
  - done.
  - intros (item & Hin & Hc). rewrite Forall_forall in Hall.
    by destruct (Hall item Hin).
  - intros _. apply not_Forall_Exists in Hall; [|apply _].
    apply Exists_exists in Hall as (item & Hin & Hc).
    exists item. split; [done|]. by apply dec_stable.
  - done.
Qed.

(** The order of the sort: total and transitive. *)
Lemma unitsLe_total a b : Js.unitsLe a b = true ∨ Js.unitsLe b a = true.
Proof.
  revert b. induction a as [|x a IH]; intros [|y b]; cbn; auto.
  destruct (N.ltb_spec x y), (N.ltb_spec y x); auto; lia.
Qed.

Lemma unitsLe_trans a b c :
  Js.unitsLe a b = true → Js.unitsLe b c = true → Js.unitsLe a c = true.
Proof.
  revert b c. induction a as [|x a IH]; intros [|y b] [|z c]; cbn; try done.
  destruct (N.ltb_spec x y), (N.ltb_spec y x), (N.ltb_spec y z),
    (N.ltb_spec z y), (N.ltb_spec x z), (N.ltb_spec z x);
    try done; try lia.
  apply IH.
Qed.

#[global] Instance le_total : Total Js.le.
Proof. intros s t. apply unitsLe_total. Qed.

#[global] Instance le_transitive : Transitive Js.le.
Proof. intros s t u. apply unitsLe_trans. Qed.

(** A letter comes before a character outside the basic plane, whose
    first code unit is a surrogate, and that one before a character at the
    end of the basic plane, although its UTF-8 text is the greater. *)
Lemma sort_by_code_units : sort ["～"; "😀"; "z"] = ["z"; "😀"; "～"].
Proof. reflexivity. Qed.

(** C3. [getGroupedWardrobe] throws exactly when some item's category
    names a member that objects inherit, as for the one item filed under
    constructor. Otherwise it partitions the wardrobe by category: every
    item lies in the group keyed by its category, or by Other when the
    category is missing or empty, and in no other group; a group holds
    exactly the items of its key in their wardrobe order; and the groups
    together hold the wardrobe's items, none dropped and none duplicated. *)
Theorem getGroupedWardrobe_partition :
  getGroupedWardrobe [Scenarios.cape] = None ∧
  (∀ wardrobe,
     getGroupedWardrobe wardrobe = None ↔
     ∃ item, item ∈ wardrobe ∧ categoryOf item ∈ objectPrototype) ∧
  (∀ item, categoryOf item =
     match category item with
     | Some c => if decide (c = "") then "Other" else c
     | None => "Other"
     end) ∧
  (∀ wardrobe grouped, getGroupedWardrobe wardrobe = Some grouped →
     (∀ item, item ∈ wardrobe →
        ∃ group, grouped !! categoryOf item = Some group ∧ item ∈ group) ∧
     (∀ c group item,
        grouped !! c = Some group → item ∈ group → c = categoryOf item) ∧
     (∀ c group, grouped !! c = Some group →
        group = filter (λ item, categoryOf item = c) wardrobe) ∧
     groupedItems grouped ≡ₚ wardrobe).
Proof.
  split_and!.
  - reflexivity.
  - apply getGroupedWardrobe_None.
  - intros item. unfold categoryOf, Js.or_else.
    destruct (category item) as [c|]; [|done].
    destruct (decide (c = "")) as [->|Hc]; [done|].
    by rewrite bool_decide_eq_true_2.
  - intros wardrobe grouped [_ ->]%getGroupedWardrobe_Some. split_and!.
    + intros item Hin.
      destruct (groups wardrobe !! categoryOf item) as [group|] eqn:Hg.
      * exists group. split; [done|].
        apply groups_lookup_Some in Hg as [-> _].
        by apply elem_of_ofCategory.
      * assert (is_Some (groups wardrobe !! categoryOf item)) as [? Hs].
        { apply groups_is_Some. by exists item. }
        congruence.
    + intros c group item [-> _]%groups_lookup_Some Hin.
      by apply elem_of_ofCategory in Hin as [_ <-].
    + by intros c group [-> _]%groups_lookup_Some.
    + apply groupedItems_groups.
Qed.

(** C6. With the filter all, [getFilteredWardrobe] is [getGroupedWardrobe],
    which throws for the item filed under constructor. With another filter
    [c] it throws when the grouping does; otherwise it is the one group of
    [c] when the grouping has the key [c], so that every item it returns
    has category [c], and when the grouping has no such key it is the empty
    object, unless [c] names a member that objects inherit: the result then
    holds that member under [c] (and nothing for [__proto__]). *)
Theorem getFilteredWardrobe_spec :
  getFilteredWardrobe "all" [Scenarios.cape] = None ∧
  getFilteredWardrobe "constructor" [Scenarios.shirt; Scenarios.jeans] =
    Some {["constructor" := Inherited "constructor"]} ∧
  (∀ wardrobe,
     getFilteredWardrobe "all" wardrobe =
       fmap (M:=gmap string) Group <$> getGroupedWardrobe wardrobe) ∧
  (∀ wardrobe c, c ≠ "all" → getGroupedWardrobe wardrobe = None →
     getFilteredWardrobe c wardrobe = None) ∧
  (∀ wardrobe c grouped, c ≠ "all" → getGroupedWardrobe wardrobe = Some grouped →
     (∀ group, grouped !! c = Some group →
        getFilteredWardrobe c wardrobe = Some {[c := Group group]} ∧
        ∀ item, item ∈ group → categoryOf item = c ∧ item ∈ wardrobe) ∧
     (grouped !! c = None → c ∉ objectPrototype →
        getFilteredWardrobe c wardrobe = Some ∅) ∧
     (grouped !! c = None → c ∈ objectPrototype →
        getFilteredWardrobe c wardrobe =
          Some (if decide (c = "__proto__") then ∅ else {[c := Inherited c]}))).
Proof.
  split_and!.
  - reflexivity.
  - reflexivity.
  - intros wardrobe. unfold getFilteredWardrobe. by rewrite decide_True.
  - intros wardrobe c Hc Hg. unfold getFilteredWardrobe.
    rewrite decide_False by done. by rewrite Hg.
  - intros wardrobe c grouped Hc Hg. unfold getFilteredWardrobe.
    rewrite decide_False by done. rewrite Hg. cbn [mbind option_bind mret option_ret].
    apply getGroupedWardrobe_Some in Hg as [Hall ->]. unfold member, assign.
    split_and!.
    + intros group Hgroup. rewrite Hgroup. split.
      * rewrite decide_False; [done|]. intros ->.
        rewrite groups_inherited in Hgroup; [done..|].
        unfold objectPrototype. rewrite !elem_of_cons. tauto.
      * intros item Hin. apply groups_lookup_Some in Hgroup as [-> _].
        by apply elem_of_ofCategory in Hin as [? ?].
    + intros -> Hout. by rewrite decide_False.
    + intros -> Hin. by rewrite decide_True.
Qed.

(** C7. The list of [getAvailableCategories] has as its members the
    categories (or Other) of the items, has no duplicates, and is in
    ascending order of the code units; its members are exactly the keys of
    the grouping whenever [getGroupedWardrobe] returns one, which for the
    item filed under constructor it does not. *)
Theorem getAvailableCategories_keys :
  (getAvailableCategories [Scenarios.cape] = ["constructor"] ∧
   getGroupedWardrobe [Scenarios.cape] = None) ∧
  (∀ wardrobe,
     let categories := getAvailableCategories wardrobe in
     (∀ c, c ∈ categories ↔ ∃ item, item ∈ wardrobe ∧ categoryOf item = c) ∧
     NoDup categories ∧
     StronglySorted Js.le categories ∧
     (∀ grouped, getGroupedWardrobe wardrobe = Some grouped →
        ∀ c, c ∈ categories ↔ c ∈ dom grouped)).
Proof.
  split; [split; reflexivity|]. intros wardrobe. cbn zeta. split_and!.
  - apply elem_of_getAvailableCategories.
  - unfold getAvailableCategories, sort. rewrite merge_sort_Permutation.
    apply categories_fold.
  - unfold getAvailableCategories, sort.
    apply StronglySorted_merge_sort; apply _.
  - intros grouped [_ ->]%getGroupedWardrobe_Some c.
    rewrite elem_of_getAvailableCategories, elem_of_dom.
    by rewrite groups_is_Some.
Qed.

End WardrobeFacts.

(** ** The planner's week *)

Module CalendarFacts.

Import Calendar.

Local Open Scope Z_scope.

Section LocalTime.

Variable tz : Z.

Lemma timeWithinDay_bounds date : 0 ≤ timeWithinDay tz date < msPerDay.
Proof. unfold timeWithinDay, msPerDay. apply Z.mod_pos_bound. lia. Qed.

(** [setDate] moves a date to the given day of its month. *)
Lemma localDay_setDate date n :
  localDay tz (setDate tz date n) = monthStart (localDay tz date) + n - 1.
Proof.
  unfold localDay at 1. unfold localTime, setDate.
  pose proof (timeWithinDay_bounds date) as Hb. unfold msPerDay in *.
  replace ((monthStart (localDay tz date) + n - 1) * 86400000 + timeWithinDay tz date
           - tz * msPerMinute + tz * msPerMinute)
    with (timeWithinDay tz date + (monthStart (localDay tz date) + n - 1) * 86400000)
    by lia.
  rewrite Z.div_add by lia. rewrite Z.div_small by lia. lia.
Qed.

Lemma timeWithinDay_setDate date n :
  timeWithinDay tz (setDate tz date n) = timeWithinDay tz date.
Proof.
  unfold timeWithinDay at 1. unfold localTime, setDate.
  pose proof (timeWithinDay_bounds date) as Hb. unfold msPerDay in *.
  replace ((monthStart (localDay tz date) + n - 1) * 86400000 + timeWithinDay tz date
           - tz * msPerMinute + tz * msPerMinute)
    with (timeWithinDay tz date + (monthStart (localDay tz date) + n - 1) * 86400000)
    by lia.
  rewrite Z.mod_add by lia. by rewrite Z.mod_small by lia.
Qed.

(** [date.setDate(date.getDate() + k)] moves a date by [k] days. *)
Lemma localDay_setDate_getDate date k :
  localDay tz (setDate tz date (getDate tz date + k)) = localDay tz date + k.
Proof. rewrite localDay_setDate. unfold getDate. lia. Qed.

Lemma sundayOf_is_sunday today weekOffset :
  (sundayOf tz today weekOffset + 4) mod 7 = 0.
Proof.
  unfold sundayOf, getDay.
  replace (localDay tz today - (localDay tz today + 4) mod 7 + weekOffset * 7 + 4)
    with ((localDay tz today + 4) - (localDay tz today + 4) mod 7 + weekOffset * 7)
    by lia.
  rewrite Z.mod_add by lia.
  pose proof (Z.div_mod (localDay tz today + 4) 7 ltac:(lia)) as Hdm.
  replace (localDay tz today + 4 - (localDay tz today + 4) mod 7)
    with (0 + (localDay tz today + 4) / 7 * 7) by lia.
  by rewrite Z.mod_add by lia.
Qed.

Lemma sundayOf_same_week today :
  sundayOf tz today 0 ≤ localDay tz today < sundayOf tz today 0 + 7.
Proof.
  unfold sundayOf, getDay.
  pose proof (Z.mod_pos_bound (localDay tz today + 4) 7 ltac:(lia)). lia.
Qed.

Lemma getWeekDates_lookup today weekOffset (i : nat) date :
  getWeekDates tz today weekOffset !! i = Some date →
  (i < 7)%nat ∧
  localDay tz date = sundayOf tz today weekOffset + Z.of_nat i ∧
  getDay tz date = Z.of_nat i ∧
  timeWithinDay tz date = timeWithinDay tz today.
Proof.
  unfold getWeekDates. rewrite list_lookup_fmap.
  destruct (seqZ 0 7 !! i) as [j|] eqn:Hj; [|done].
  apply lookup_seqZ in Hj as [-> Hi]. simpl. intros [= <-].
  assert (localDay tz
            (setDate tz
               (setDate tz today (getDate tz today - getDay tz today + weekOffset * 7))
               (getDate tz
                  (setDate tz today (getDate tz today - getDay tz today + weekOffset * 7))
                + (0 + Z.of_nat i)))
          = sundayOf tz today weekOffset + Z.of_nat i) as Hday.
  { rewrite localDay_setDate_getDate.
    replace (getDate tz today - getDay tz today + weekOffset * 7)
      with (getDate tz today + (- getDay tz today + weekOffset * 7)) by lia.
    rewrite localDay_setDate_getDate. unfold sundayOf. lia. }
  split_and!.
  - lia.
  - done.
  - unfold getDay at 1. rewrite Hday.
    pose proof (sundayOf_is_sunday today weekOffset) as Hs.
    replace (sundayOf tz today weekOffset + Z.of_nat i + 4)
      with (Z.of_nat i + (sundayOf tz today weekOffset + 4)) by lia.
    rewrite Z.add_mod, Hs, Z.add_0_r, Z.mod_mod by lia.
    apply Z.mod_small. lia.
  - by rewrite !timeWithinDay_setDate.
Qed.

(** [getWeekDates] gives the seven local days of the week, from its Sunday,
    each at the local time of day of [today]. *)
Lemma getWeekDates_week today weekOffset :
  length (getWeekDates tz today weekOffset) = 7%nat ∧
  localDay tz <$> getWeekDates tz today weekOffset
    = (λ i, sundayOf tz today weekOffset + i) <$> seqZ 0 7 ∧
  getDay tz <$> getWeekDates tz today weekOffset = seqZ 0 7.
Proof.
  assert (length (getWeekDates tz today weekOffset) = 7%nat) as Hlen.
  { unfold getWeekDates. by rewrite length_fmap, length_seqZ. }
  split_and!; [done|..].
  - apply list_eq. intros i. rewrite !list_lookup_fmap.
    destruct (getWeekDates tz today weekOffset !! i) as [date|] eqn:Hd; simpl.
    + apply getWeekDates_lookup in Hd as (Hi & -> & _).
      rewrite (lookup_seqZ_lt 0 7 i) by lia. simpl. f_equal; lia.
    + apply lookup_ge_None in Hd. rewrite lookup_seqZ_ge; [done|lia].
  - apply list_eq. intros i. rewrite !list_lookup_fmap.
    destruct (getWeekDates tz today weekOffset !! i) as [date|] eqn:Hd; simpl.
    + apply getWeekDates_lookup in Hd as (Hi & _ & -> & _).
      rewrite (lookup_seqZ_lt 0 7 i) by lia. f_equal.
    + apply lookup_ge_None in Hd. rewrite lookup_seqZ_ge; [done|lia].
Qed.

Lemma utcDay_localDay date :
  date / msPerDay = localDay tz date + dayShift tz date.
Proof.
  unfold dayShift, timeWithinDay, localDay, localTime, msPerDay.
  pose proof (Z.div_mod (date + tz * msPerMinute) 86400000 ltac:(lia)) as Hdm.
  replace ((date + tz * msPerMinute) mod 86400000 - tz * msPerMinute)
    with (date + - ((date + tz * msPerMinute) / 86400000) * 86400000) by lia.
  rewrite Z.div_add by lia. lia.
Qed.

(** What [loadPlannedOutfits] asks for: the week's Sunday and Saturday,
    both moved by the day shift of [today]. *)
Lemma plannerRange_shifted today selectedWeek :
  plannerRange tz today selectedWeek =
    Some (isoDate (sundayOf tz today selectedWeek + dayShift tz today),
          isoDate (sundayOf tz today selectedWeek + 6 + dayShift tz today)).
Proof.
  unfold plannerRange.
  pose proof (getWeekDates_week today selectedWeek) as (Hlen & _ & _).
  destruct (getWeekDates tz today selectedWeek !! 0%nat) as [d0|] eqn:H0;
    [|apply lookup_ge_None in H0; lia].
  destruct (getWeekDates tz today selectedWeek !! 6%nat) as [d6|] eqn:H6;
    [|apply lookup_ge_None in H6; lia].
  simpl. unfold formatDate.
  apply getWeekDates_lookup in H0 as (_ & Hd0 & _ & Ht0).
  apply getWeekDates_lookup in H6 as (_ & Hd6 & _ & Ht6).
  rewrite (utcDay_localDay d0), (utcDay_localDay d6), Hd0, Hd6.
  unfold dayShift. rewrite Ht0, Ht6. do 3 f_equal; lia.
Qed.

(** When the UTC day of [today] is its local day, the planner is asked
    for the week itself, Sunday to Saturday. *)
Lemma plannerRange_same_day today selectedWeek :
  dayShift tz today = 0 →
  plannerRange tz today selectedWeek =
    Some (isoDate (sundayOf tz today selectedWeek),
          isoDate (sundayOf tz today selectedWeek + 6)).
Proof.
  intros Hshift. rewrite plannerRange_shifted, Hshift.
  by rewrite !Z.add_0_r.
Qed.

(** Otherwise it is asked for the week moved by one day. *)
Lemma dayShift_bounds today :
  -1440 < tz < 1440 → -1 ≤ dayShift tz today ≤ 1.
Proof.
  intros Htz. unfold dayShift.
  pose proof (timeWithinDay_bounds today) as Hb.
  unfold msPerDay, msPerMinute in *. split.
  - apply Z.div_le_lower_bound; lia.
  - apply Z.lt_succ_r. apply Z.div_lt_upper_bound; lia.
Qed.

End LocalTime.

End CalendarFacts.

(** ** Handler runs *)

Module HandlerFacts.

Import Wardrobe Calendar App.

Section Steps.

Context (R : relation World) `{!PreOrder R}.

Lemma steps_ret {A} (a : A) : steps R (mret a : Handler A).
Proof. intros w. simpl. reflexivity. Qed.

Lemma steps_throw {A} : steps R (throw : Handler A).
Proof. intros w. simpl. reflexivity. Qed.

Lemma steps_json {B} (body : option B) : steps R (json body).
Proof. destruct body; [apply steps_ret|apply steps_throw]. Qed.

Lemma steps_bind {A B} (m : Handler A) (f : A → Handler B) :
  steps R m → (∀ a, steps R (f a)) → steps R (m ≫= f).
Proof.
  intros Hm Hf w. unfold mbind, handler_bind. specialize (Hm w).
  destruct (m w) as [[a|] w1]; simpl in *; [|done].
  etransitivity; [done|apply Hf].
Qed.

Lemma steps_tryCatch {A} (body handler : Handler A) :
  steps R body → steps R handler → steps R (tryCatch body handler).
Proof.
  intros Hb Hh w. unfold tryCatch. specialize (Hb w).
  destruct (body w) as [[a|] w1]; simpl in *; [done|].
  etransitivity; [done|apply Hh].
Qed.

Lemma steps_tryFinally {A} (body : Handler A) (cleanup : Handler unit) :
  steps R body → steps R cleanup → steps R (tryFinally body cleanup).
Proof.
  intros Hb Hc w. unfold tryFinally. specialize (Hb w).
  destruct (body w) as [r w1]. specialize (Hc w1).
  destruct (cleanup w1) as [[[]|] w2]; simpl in *; by etransitivity.
Qed.

End Steps.

(** One step of a proof that a handler runs within a relation: [prim]
    settles the primitive operations. *)
Ltac steps_with prim :=
  repeat lazymatch goal with
  | |- steps _ (mret _) => apply steps_ret; apply _
  | |- steps _ throw => apply steps_throw; apply _
  | |- steps _ (json _) => apply steps_json; apply _
  | |- steps _ (tryCatch _ _) => apply steps_tryCatch; [apply _| |]
  | |- steps _ (tryFinally _ _) => apply steps_tryFinally; [apply _| |]
  | |- steps _ (_ ≫= _) => apply steps_bind; [apply _| |intros ?]
  | |- steps _ (match ?x with _ => _ end) => destruct x
  | |- _ => prim
  end.

(** Runs a handler as far as its text and the known results allow. *)
Ltac run :=
  repeat progress
    (unfold tryCatch, tryFinally, mbind, handler_bind, mret, handler_ret,
       fetch, json, nonNull, throw, now, getItem, setItem, removeItem, appendMessage,
       updateMessages, update, emit;
     cbn).

#[global] Instance sameOutfits_preorder : PreOrder sameOutfits.
Proof.
  split.
  - by intros w.
  - intros w1 w2 w3 H12 H23. unfold sameOutfits in *. congruence.
Qed.

#[global] Instance tracedBy_preorder P : PreOrder (tracedBy P).
Proof.
  split.
  - intros w. exists []. by rewrite app_nil_r.
  - intros w1 w2 w3 (n1 & H1 & HP1) (n2 & H2 & HP2). exists (n1 ++ n2).
    rewrite H2, H1, app_assoc. split; [done|]. by apply Forall_app.
Qed.

Lemma newEffects_app w w' new : trace w' = trace w ++ new → newEffects w w' = new.
Proof. intros Heq. unfold newEffects. by rewrite Heq, drop_app_length. Qed.

Section Primitives.

Context (env : Env) (snap : AppState).

(** Setters other than [setGeneratedOutfits] leave the cache alone. *)
Lemma sameOutfits_update f :
  (∀ st, generatedOutfits (f st) = generatedOutfits st) →
  steps sameOutfits (update f).
Proof. intros Hf w. apply Hf. Qed.

Lemma sameOutfits_emit e : steps sameOutfits (emit e).
Proof. by intros w. Qed.

Lemma sameOutfits_now : steps sameOutfits (now env).
Proof. by intros w. Qed.

Lemma sameOutfits_fetch {B} request (result : FetchResult B) :
  steps sameOutfits (fetch request result).
Proof. unfold fetch. steps_with ltac:(apply sameOutfits_emit). Qed.

Lemma sameOutfits_removeItem key : steps sameOutfits (removeItem env key).
Proof.
  unfold removeItem. steps_with ltac:(apply sameOutfits_emit). by intros w.
Qed.

Lemma sameOutfits_loadWardrobe : steps sameOutfits (loadWardrobe env snap).
Proof.
  unfold loadWardrobe.
  steps_with ltac:(first [ apply sameOutfits_fetch | apply sameOutfits_removeItem
                         | by apply sameOutfits_update ]).
Qed.

Lemma tracedBy_update P f : steps (tracedBy P) (update f).
Proof. intros w. exists []. by rewrite app_nil_r. Qed.

Lemma tracedBy_now P : steps (tracedBy P) (now env).
Proof. intros w. exists []. by rewrite app_nil_r. Qed.

Lemma tracedBy_emit (P : Effect → Prop) e : P e → steps (tracedBy P) (emit e).
Proof. intros He w. exists [e]. split; [done|]. by constructor. Qed.

Lemma tracedBy_fetch {B} (P : Effect → Prop) request (result : FetchResult B) :
  P (Fetch request) → steps (tracedBy P) (fetch request result).
Proof. intros He. unfold fetch. steps_with ltac:(by apply tracedBy_emit). Qed.

Lemma tracedBy_removeItem (P : Effect → Prop) key :
  P (Storage (RemoveItem key)) → steps (tracedBy P) (removeItem env key).
Proof.
  intros He. unfold removeItem. steps_with ltac:(by apply tracedBy_emit).
  intros w. exists []. by rewrite app_nil_r.
Qed.

Lemma tracedBy_getItem (P : Effect → Prop) key :
  P (Storage (GetItem key)) → steps (tracedBy P) (getItem env key).
Proof.
  intros He. unfold getItem. steps_with ltac:(by apply tracedBy_emit).
  intros w. exists []. by rewrite app_nil_r.
Qed.

Lemma tracedBy_setItem (P : Effect → Prop) key value :
  P (Storage (SetItem key value)) → steps (tracedBy P) (setItem env key value).
Proof.
  intros He. unfold setItem. steps_with ltac:(by apply tracedBy_emit).
  intros w. exists []. by rewrite app_nil_r.
Qed.

Lemma loadWardrobe_returns w : (loadWardrobe env snap w).1 = Returned tt.
Proof.
  unfold loadWardrobe. destruct (Js.truthy (token snap)); [|done]. simpl.
  unfold mbind, handler_bind, tryFinally, tryCatch, fetch, removeItem, json. simpl.
  destruct (get_wardrobe env (token snap)) as [|status [items|]]; simpl; [done|..].
  - destruct (ok status); simpl; [done|].
    destruct (bool_decide (status = 401%Z)); simpl; [|done].
    by destruct (storageThrows env (RemoveItem "token")).
  - destruct (ok status); simpl; [done|].
    destruct (bool_decide (status = 401%Z)); simpl; [|done].
    by destruct (storageThrows env (RemoveItem "token")).
Qed.

End Primitives.

End HandlerFacts.

(** ** The cache of generated outfits *)

Module OutfitCacheFacts.

Import Wardrobe Calendar App HandlerFacts.

Section Cache.

Context (env : Env) (snap : AppState).

Ltac same_outfits :=
  steps_with ltac:(first [ apply sameOutfits_fetch | apply sameOutfits_emit
                         | apply sameOutfits_loadWardrobe
                         | by apply sameOutfits_update ]).

(** The extraction started from a chat image never touches the cache. *)
Lemma extractChatItems_sameOutfits imageBase64 context :
  steps sameOutfits (extractChatItems env snap imageBase64 context).
Proof. unfold extractChatItems. same_outfits. Qed.

(** Nor does the extraction started after an outfit validation. *)
Lemma extractOutfitItems_sameOutfits imageBase64 :
  steps sameOutfits (extractOutfitItems env snap imageBase64).
Proof. unfold extractOutfitItems. same_outfits. Qed.

(** [addWardrobeItems] empties the cache once its upload has succeeded. *)
Lemma addWardrobeItems_clears w asset more assetBase64 status items_added :
  permissionStatus env = "granted" →
  pickedImage env = {| canceled := false; assets := Some (asset :: more) |} →
  base64 asset = Some assetBase64 → assetBase64 ≠ "" →
  post_wardrobe env (token snap) (imageDataUrl asset assetBase64) []
    = Response status (Some items_added) →
  ok status = true →
  generatedOutfits (state (addWardrobeItems env snap w).2) = [].
Proof.
  intros Hperm Hpick Hb64 Hne Hpost Hok. unfold addWardrobeItems.
  rewrite Hperm, Hpick. simpl. rewrite Hb64. simpl.
  rewrite (proj2 (JsFacts.truthy_Some (Some assetBase64))) by (by exists assetBase64).
  unfold tryFinally, tryCatch, mbind, handler_bind, fetch. simpl.
  rewrite Hpost. simpl. rewrite Hok. simpl.
  match goal with |- context [loadWardrobe env snap ?w1] =>
    pose proof (loadWardrobe_returns env snap w1) as Hret;
    destruct (loadWardrobe env snap w1) as [r w2] end.
  simpl in Hret. subst r. done.
Qed.

(** [deleteWardrobeItem] empties the cache once its request has succeeded. *)
Lemma deleteWardrobeItem_clears w itemId status body :
  Js.truthy (token snap) = true →
  delete_wardrobe_item env (token snap) itemId = Response status body →
  ok status = true →
  generatedOutfits (state (deleteWardrobeItem env snap itemId w).2) = [].
Proof.
  intros Htok Hdel Hok. unfold deleteWardrobeItem.
  unfold tryCatch, mbind, handler_bind, fetch. simpl.
  rewrite Htok. simpl. rewrite Hdel. simpl. by rewrite Hok.
Qed.

End Cache.

End OutfitCacheFacts.

(** ** The planner: saved and displayed outfits *)

Module PlannerFacts.

Import Wardrobe Calendar App HandlerFacts.

Lemma pushResolved_app wardrobe slot outfitItems :
  pushResolved wardrobe slot outfitItems =
    outfitItems ++ pushResolved wardrobe slot [].
Proof.
  unfold pushResolved. destruct slot as [id|]; [|by rewrite app_nil_r].
  destruct (Js.truthy (Some id)); [|by rewrite app_nil_r].
  destruct (List.find _ wardrobe); [done|by rewrite app_nil_r].
Qed.

Lemma pushResolved_cases wardrobe slot :
  pushResolved wardrobe slot [] = [] ∨
  ∃ item, pushResolved wardrobe slot [] = [item] ∧
          item ∈ wardrobe ∧ slot = Some (item_id item).
Proof.
  unfold pushResolved. destruct slot as [id|]; [|by left].
  destruct (Js.truthy (Some id)); [|by left].
  destruct (List.find _ wardrobe) as [item|] eqn:Hfind; [|by left].
  right. exists item. apply find_some in Hfind as [Hin Hid].
  apply bool_decide_eq_true in Hid. split_and!; [done| |by rewrite Hid].
  by apply list_elem_of_In.
Qed.

Lemma pushResolved_stale wardrobe slot :
  (∀ item, item ∈ wardrobe → slot ≠ Some (item_id item)) →
  pushResolved wardrobe slot [] = [].
Proof.
  intros Hnone. destruct (pushResolved_cases wardrobe slot) as [|(item & _ & Hin & Hid)];
    [done|]. by destruct (Hnone item Hin).
Qed.

Lemma pushResolved_found wardrobe id item :
  id ≠ "" → item ∈ wardrobe → item_id item = id →
  ∃ item', pushResolved wardrobe (Some id) [] = [item'].
Proof.
  intros Hid Hin Heq. unfold pushResolved.
  rewrite (proj2 (JsFacts.truthy_Some (Some id))) by (by exists id).
  destruct (List.find _ wardrobe) as [item'|] eqn:Hfind; [by exists item'|].
  apply list_elem_of_In in Hin.
  pose proof (find_none _ _ Hfind item Hin) as Hno. simpl in Hno.
  by rewrite bool_decide_eq_true_2 in Hno.
Qed.

Lemma buildOutfitsMap_snoc wardrobe planned_outfits plannedOutfit :
  buildOutfitsMap wardrobe (planned_outfits ++ [plannedOutfit]) =
    <[planned_date plannedOutfit := displayOutfit wardrobe plannedOutfit]>
      (buildOutfitsMap wardrobe planned_outfits).
Proof. unfold buildOutfitsMap. by rewrite foldl_app. Qed.

(** The entry of a date is made from the last planned outfit of that date. *)
Lemma buildOutfitsMap_lookup wardrobe planned_outfits d :
  buildOutfitsMap wardrobe planned_outfits !! d =
    displayOutfit wardrobe <$>
      last (filter (λ plannedOutfit, planned_date plannedOutfit = d) planned_outfits).
Proof.
  induction planned_outfits as [|plannedOutfit planned_outfits IH] using rev_ind; [done|].
  rewrite buildOutfitsMap_snoc, filter_app, lookup_insert.
  rewrite filter_cons, filter_nil. repeat case_decide; try congruence.
  - by rewrite last_snoc.
  - by rewrite app_nil_r.
Qed.

(** C8. With neither a top nor a bottom selected, [savePlannedOutfit]
    returns at once: no request, no alert, no storage access and no state
    change, whatever the layering and shoes slots hold. *)
Theorem savePlannedOutfit_needs_top_or_bottom (env : Env) (snap : AppState) (w : World) :
  selected_top (selectedOutfit snap) = None →
  selected_bottom (selectedOutfit snap) = None →
  savePlannedOutfit env snap w = (Returned tt, w).
Proof.
  intros Htop Hbottom. unfold savePlannedOutfit. rewrite Htop, Hbottom.
  simpl. by rewrite orb_true_r.
Qed.

#[global] Instance plannedFrom_preorder wardrobe : PreOrder (plannedFrom wardrobe).
Proof.
  split.
  - intros w. by left.
  - intros w1 w2 w3 H12 [H23|[planned_outfits H23]].
    + destruct H12 as [H12|[planned_outfits H12]].
      * left. congruence.
      * right. exists planned_outfits. congruence.
    + right. by exists planned_outfits.
Qed.

Section Planner.

Context (env : Env) (snap : AppState).

(** The planner's map only ever changes to one built by [buildOutfitsMap]
    from the wardrobe the handler sees. *)
Lemma loadPlannedOutfits_plannedFrom :
  steps (plannedFrom (wardrobe snap)) (loadPlannedOutfits env snap).
Proof.
  unfold loadPlannedOutfits, fetch.
  steps_with ltac:(first
    [ by (intros w; left)
    | by (intros w; right; eexists) ]).
Qed.

(** A successful load replaces the planner's map. *)
Lemma loadPlannedOutfits_ok w startDate endDate status planned_outfits :
  Js.truthy (token snap) = true →
  plannerRange (tz env) (clock env (clockReads w)) (selectedWeek snap)
    = Some (startDate, endDate) →
  get_planner_outfits env (token snap) startDate endDate
    = Response status (Some planned_outfits) →
  ok status = true →
  state (loadPlannedOutfits env snap w).2 =
    setWeeklyOutfits (buildOutfitsMap (wardrobe snap) planned_outfits) (state w) ∧
  newEffects w (loadPlannedOutfits env snap w).2 =
    [Fetch (GET_planner_outfits (token snap) startDate endDate)].
Proof.
  intros Htok Hrange Hget Hok. unfold loadPlannedOutfits. rewrite Htok.
  run. rewrite Hrange. run. rewrite Hget. run. rewrite Hok. run.
  split; [done|]. by apply newEffects_app.
Qed.


Lemma savePlannedOutfit_posts :
  steps (tracedBy (postsPrepared snap)) (savePlannedOutfit env snap).
Proof.
  unfold savePlannedOutfit, loadPlannedOutfits.
  steps_with ltac:(first
    [ apply tracedBy_update | apply tracedBy_now
    | apply tracedBy_emit; by intros ?? [=]
    | apply tracedBy_fetch; by intros ?? [=] ]).
Qed.

End Planner.


(** C10. [loadPlannedOutfits] turns the four slot references of a fetched
    outfit into displayed items by looking each one up in the wardrobe of
    the render whose closure it is, whatever wardrobe is loaded by then, in
    the order top, bottom, layering, shoes; a slot gives one item of that
    wardrobe with its id, or nothing when the slot is empty or no item of
    that wardrobe has its id. When the planner tab is opened before the
    wardrobe was ever loaded, the effect of the tab loads the wardrobe and
    the planned outfits at once: the wardrobe is loaded and holds the
    shirt and the jeans, and the outfit planned with them is displayed
    without any item. *)
Theorem loadPlannedOutfits_resolves :
  (∀ wardrobeFirst,
     let w := Scenarios.world MoreScenarios.newcomer ∅ in
     let w' := (PlannerTab.plannerTabEffect MoreScenarios.planning MoreScenarios.newcomer
                  "planner" wardrobeFirst w).2 in
     newEffects w w' =
       [Fetch (GET_wardrobe (Some "tok"));
        Fetch (GET_planner_outfits (Some "tok") "2024-01-06" "2024-01-12")] ∧
     wardrobe (state w') = [Scenarios.shirt; Scenarios.jeans; Scenarios.scarf] ∧
     top (planned_items MoreScenarios.plannedShirtAndJeans)
       = Some (item_id Scenarios.shirt) ∧
     bottom (planned_items MoreScenarios.plannedShirtAndJeans)
       = Some (item_id Scenarios.jeans) ∧
     outfitItems <$> weeklyOutfits (state w') !! "2024-01-10" = Some []) ∧
  (∀ env snap w status planned_outfits,
     Js.truthy (token snap) = true →
     (∀ startDate endDate,
        get_planner_outfits env (token snap) startDate endDate
          = Response status (Some planned_outfits)) →
     ok status = true →
     weeklyOutfits (state (loadPlannedOutfits env snap w).2)
       = buildOutfitsMap (wardrobe snap) planned_outfits ∧
     ∀ d entry,
       weeklyOutfits (state (loadPlannedOutfits env snap w).2) !! d = Some entry →
       ∃ plannedOutfit,
         plannedOutfit ∈ planned_outfits ∧ planned_date plannedOutfit = d ∧
         entry = displayOutfit (wardrobe snap) plannedOutfit) ∧
  (∀ wardrobe plannedOutfit,
     let slots := planned_items plannedOutfit in
     let resolved slot := pushResolved wardrobe slot [] in
     outfitItems (displayOutfit wardrobe plannedOutfit) =
       resolved (top slots) ++ resolved (bottom slots)
       ++ resolved (layering slots) ++ resolved (shoes slots) ∧
     (∀ slot, resolved slot = [] ∨
        ∃ item, resolved slot = [item] ∧ item ∈ wardrobe ∧ slot = Some (item_id item)) ∧
     (∀ slot, (∀ item, item ∈ wardrobe → slot ≠ Some (item_id item)) →
        resolved slot = []) ∧
     (∀ id item, id ≠ "" → item ∈ wardrobe → item_id item = id →
        ∃ item', resolved (Some id) = [item'] ∧ item_id item' = id)).
Proof.
  split_and!.
  - intros wardrobeFirst. cbn zeta. destruct wardrobeFirst; by vm_compute.
  - intros env snap w status planned_outfits Htok Hget Hok.
    destruct (loadPlannedOutfits_ok env snap w _ _ _ _ Htok
                (CalendarFacts.plannerRange_shifted _ _ _) (Hget _ _) Hok)
      as [-> _].
    split; [done|]. intros d entry. cbn. rewrite buildOutfitsMap_lookup.
    destruct (last _) as [plannedOutfit|] eqn:Hlast; [|done].
    intros [= <-]. exists plannedOutfit.
    apply last_Some in Hlast as [l Hl].
    assert (plannedOutfit ∈ filter (λ p, planned_date p = d) planned_outfits) as Hin.
    { rewrite Hl. apply elem_of_app. right. apply list_elem_of_here. }
    apply list_elem_of_filter in Hin as [? ?]. done.
  - intros wardrobe plannedOutfit. cbn zeta. split_and!.
    + unfold displayOutfit. simpl.
      rewrite (pushResolved_app _ (shoes _)), (pushResolved_app _ (layering _)),
        (pushResolved_app _ (bottom _)).
      by rewrite <-!app_assoc.
    + apply pushResolved_cases.
    + apply pushResolved_stale.
    + intros id item Hid Hin Heq.
      destruct (pushResolved_found wardrobe id item Hid Hin Heq) as [item' Hitem'].
      exists item'. split; [done|].
      destruct (pushResolved_cases wardrobe (Some id)) as [Hnil|(item'' & Hres & _ & Hslot)];
        [congruence|].
      rewrite Hitem' in Hres. injection Hres as <-. by injection Hslot.
Qed.

End PlannerFacts.

(** ** The chat session at app start *)

Module SessionFacts.

Import Wardrobe Calendar App HandlerFacts.

Local Open Scope Z_scope.

Section Session.

Context (env : Env) (snap : AppState).

(** With a token, [loadChatHistory] asks for the history, shows the
    messages of a successful answer, asks for nothing else, and leaves the
    session time and the clock alone. *)
Lemma loadChatHistory_run (w : World) (t : string) :
  token snap = Some t → t ≠ "" →
  ∃ w1 more,
    loadChatHistory env snap w = (Returned tt, w1) ∧
    trace w1 = trace w ++ Fetch (GET_chat_history (Some t)) :: more ∧
    Forall (λ e, ∃ op, e = Storage op) more ∧
    storage w1 !! "lastSessionTime" = storage w !! "lastSessionTime" ∧
    clockReads w1 = clockReads w ∧
    (∀ status msgs,
       get_chat_history env (Some t) = Response status (Some msgs) →
       ok status = true → chatMessages (state w1) = msgs).
Proof.
  intros Htok Hne. unfold loadChatHistory.
  rewrite (proj2 (JsFacts.truthy_Some (token snap))) by (by exists t). rewrite Htok. run.
  destruct (get_chat_history env (Some t)) as [|status [msgs|]] eqn:Hget; run;
    [|destruct (ok status) eqn:Hok; run;
      [|destruct (bool_decide (status = 401)); run;
        [destruct (storageThrows env (RemoveItem "token")); run|]]..];
    eexists _, _;
    (split_and!;
       [ reflexivity
       | cbn; rewrite <-?app_assoc; reflexivity
       | repeat constructor; by eexists
       | cbn; by rewrite ?lookup_delete_ne
       | done
       | intros status' msgs' Hr Hok'; cbn; congruence ]).
Qed.

Lemma elapsedOver_toString currentTime l :
  0 ≤ l →
  elapsedOver currentTime (Js.toString l) = bool_decide (currentTime - l > 300000).
Proof.
  intros Hl. unfold elapsedOver. by rewrite JsFacts.parseInt_toString.
Qed.

End Session.

(** At app start the handlers read the token of the first render, which is
    [null]: whatever is stored and whatever the backend answers, the chat
    history is neither cleared on the backend nor loaded from it. *)
Lemma appStart_noChatRequest (env : Env) :
  steps (tracedBy noChatRequest) (appStart env).
Proof.
  unfold appStart, checkAuthStatus, handleAppReopenBehavior, loadChatHistory.
  change (Js.truthy (token initialState)) with false. cbn [negb].
  steps_with ltac:(first
    [ apply tracedBy_update | apply tracedBy_now
    | apply tracedBy_getItem; by intros ?; split
    | apply tracedBy_setItem; by intros ?; split
    | apply tracedBy_removeItem; by intros ?; split
    | apply tracedBy_fetch; by intros ?; split ]).
Qed.

(** The rule of [handleAppReopenBehavior] for a render that has the token:
    with a working device storage, it clears the chat (empties the
    messages, the input and the image, and asks the backend to clear its
    history) if and only if no session time is stored or more than
    300000 ms have passed since the stored one; otherwise it loads the chat
    history instead; either way it then stores the current time as the
    session time. *)
Theorem handleAppReopenBehavior_session (env : Env) (snap : AppState) (w : World)
    (t : string) (last : option Z) :
  let key := "lastSessionTime" in
  let currentTime := clock env (clockReads w) in
  let expired :=
    match last with
    | None => True
    | Some l => currentTime - l > 300000
    end in
  token snap = Some t → t ≠ "" →
  storageThrows env (GetItem key) = false →
  storageThrows env (SetItem key (Js.toString currentTime)) = false →
  storage w !! key = Js.toString <$> last →
  (∀ l, last = Some l → 0 ≤ l) →
  ∃ w',
    handleAppReopenBehavior env snap w = (Returned tt, w') ∧
    storage w' !! key = Some (Js.toString currentTime) ∧
    (Fetch (DELETE_chat_clear (Some t)) ∈ newEffects w w' ↔ expired) ∧
    (expired →
       state w' = setChatImage None (setChatInput "" (setChatMessages [] (state w))) ∧
       newEffects w w' =
         [Storage (GetItem key); Fetch (DELETE_chat_clear (Some t));
          Storage (SetItem key (Js.toString currentTime))]) ∧
    (¬ expired →
       ∃ more,
         newEffects w w' =
           Storage (GetItem key) :: Fetch (GET_chat_history (Some t))
           :: more ++ [Storage (SetItem key (Js.toString currentTime))] ∧
         Forall (λ e, ∃ op, e = Storage op) more ∧
         ∀ status msgs,
           get_chat_history env (Some t) = Response status (Some msgs) →
           ok status = true → chatMessages (state w') = msgs).
Proof.
  intros key currentTime expired Htok Hne Hget Hset Hstored Hlast.
  subst key currentTime expired.
  assert (Js.truthy (token snap) = true) as Htruthy.
  { rewrite Htok. by apply JsFacts.truthy_Some; exists t. }
  unfold handleAppReopenBehavior. run. rewrite Hget. run. rewrite Hstored.
  destruct last as [l|]; cbn.
  - rewrite JsFacts.truthy_toString by auto. cbn.
    rewrite elapsedOver_toString by auto.
    destruct (bool_decide (clock env (clockReads w) - l > 300000)) eqn:Hover.
    + apply bool_decide_eq_true in Hover. rewrite Htruthy, Htok.
      destruct (delete_chat_clear env (Some t)); run; rewrite Hset;
        (eexists; split_and!;
           [ reflexivity
           | cbn; by rewrite lookup_insert_eq
           | cbn; erewrite newEffects_app; [|by rewrite <-!app_assoc];
             split; [done|intros _; set_solver]
           | intros _; split; [done|]; cbn;
             apply newEffects_app; by rewrite <-!app_assoc
           | done ]).
    + apply bool_decide_eq_false in Hover.
      destruct (loadChatHistory_run env snap
                  {| state := state w; storage := storage w;
                     trace := trace w ++ [Storage (GetItem "lastSessionTime")];
                     clockReads := S (clockReads w) |} t Htok Hne)
        as (w1 & more & Hrun & Htr & Hmore & Hsto & Hclock & Hmsgs).
      rewrite Hrun. cbn. rewrite Hset. cbn. eexists. split_and!.
      * reflexivity.
      * cbn. by rewrite lookup_insert_eq.
      * cbn in *. rewrite Htr.
        erewrite newEffects_app; [|by rewrite <-!app_assoc].
        split; [|done]. cbn.
        rewrite !elem_of_cons, elem_of_app, list_elem_of_singleton.
        intros [|[|[Hin|]]]; try done.
        rewrite Forall_forall in Hmore. by destruct (Hmore _ Hin).
      * done.
      * intros _. exists more. cbn in *. rewrite Htr. split_and!.
        -- apply newEffects_app. by rewrite <-!app_assoc.
        -- done.
        -- done.
  - change (Js.truthy None) with false. cbn. rewrite Htruthy, Htok.
    destruct (delete_chat_clear env (Some t)); run; rewrite Hset;
      (eexists; split_and!;
         [ reflexivity
         | cbn; by rewrite lookup_insert_eq
         | cbn; erewrite newEffects_app; [|by rewrite <-!app_assoc];
           split; [done|intros _; set_solver]
         | intros _; split; [done|]; cbn;
           apply newEffects_app; by rewrite <-!app_assoc
         | by intros [] ]).
Qed.

End SessionFacts.

(** ** The chunks of a reply *)

Module BackendFacts.

Import Backend.








(** The reply of the example in the prompt, cut in its three chunks. *)
Lemma chunks_example :
  chunks "Your navy blazer with white jeans would look sharp! ✨||CHUNK||Finish with brown leather loafers and a tan leather watch strap||CHUNK||What's the occasion? Work or weekend? 😊"
    = ["Your navy blazer with white jeans would look sharp! ✨";
       "Finish with brown leather loafers and a tan leather watch strap";
       "What's the occasion? Work or weekend? 😊"].
Proof. reflexivity. Qed.

End BackendFacts.

(** ** Chat messages *)

Module ChatFacts.

Import Wardrobe Calendar App HandlerFacts.

Lemma filterIds_app keep l1 l2 :
  filterIds keep (l1 ++ l2) =
    kept1 ← filterIds keep l1; kept2 ← filterIds keep l2; Some (kept1 ++ kept2).
Proof.
  induction l1 as [|msg l1 IH]; simpl.
  - by destruct (filterIds keep l2).
  - destruct (msg_id msg) as [id|]; [|done].
    destruct (keep id); rewrite IH; [|done].
    destruct (filterIds keep l1); [|done]. simpl.
    by destruct (filterIds keep l2).
Qed.

Lemma filterIds_defined keep l :
  Forall (λ msg, is_Some (msg_id msg)) l →
  ∃ kept, filterIds keep l = Some kept ∧ Forall (λ msg, is_Some (msg_id msg)) kept.
Proof.
  induction 1 as [|msg l [id Hid] _ (kept & IH & Hkept)]; simpl.
  - by exists [].
  - rewrite Hid, IH. destruct (keep id); simpl; eexists; split; try done.
    constructor; [by eexists|done].
Qed.

(** Filtering with a stronger test after a weaker one is filtering with the
    stronger one. *)
Lemma filterIds_refine (keep1 keep2 : string → bool) l kept1 :
  (∀ id, keep2 id = true → keep1 id = true) →
  filterIds keep1 l = Some kept1 →
  filterIds keep2 kept1 = filterIds keep2 l.
Proof.
  intros Himp. revert kept1. induction l as [|msg l IH]; simpl; intros kept1.
  - by intros [= <-].
  - destruct (msg_id msg) as [id|] eqn:Hid; [|done].
    destruct (filterIds keep1 l) as [kept|] eqn:Hl.
    + specialize (IH kept eq_refl).
      destruct (keep1 id) eqn:H1; simpl.
      * intros [= <-]. simpl. rewrite Hid, IH. done.
      * intros [= <-]. rewrite IH.
        destruct (keep2 id) eqn:H2; [|done].
        apply Himp in H2. congruence.
    + by destruct (keep1 id).
Qed.

Lemma notIndicator_notLoading id : notIndicator id = true → notLoading id = true.
Proof. unfold notIndicator, notLoading. by intros [_ ?]%andb_prop. Qed.

(** A number printed in decimal starts with a digit or a minus sign. *)
Lemma toString_not_indicator (n : Z) :
  notIndicator (Js.toString n) = true ∧ notLoading (Js.toString n) = true.
Proof.
  assert (∃ c s', Js.toString n = String c s' ∧ c ≠ "t"%char ∧ c ≠ "l"%char)
    as (c & s' & -> & Ht & Hl).
  { destruct (decide (0 ≤ n)%Z) as [Hn|Hn].
    - destruct (JsFacts.toString_head n Hn) as (d & s' & Hd & ->).
      exists (pretty_N_char d), s'. split; [done|].
      apply JsFacts.digit_cases in Hd.
      repeat (apply elem_of_cons in Hd as [->|Hd]; [done|]).
      by apply not_elem_of_nil in Hd.
    - destruct n as [|p|p]; [lia..|].
      by eexists "-"%char, _. }
  unfold notIndicator, notLoading, Js.startsWith. cbn [String.prefix].
  destruct (ascii_dec "t" c) as [<-|_]; [done|].
  by destruct (ascii_dec "l" c) as [<-|_].
Qed.

Lemma notLoading_loading x : notLoading ("loading-" +:+ x) = false.
Proof. by destruct x. Qed.

Lemma notIndicator_typing x : notIndicator ("typing-" +:+ x) = false.
Proof. by destruct x. Qed.

Section Chat.

Context (env : Env) (snap : AppState).


End Chat.

(** With nothing but white space typed and no image chosen, [sendMessage]
    does nothing. *)
Lemma sendMessage_blank (env : Env) (snap : AppState) (w : World) :
  Js.isBlank (chatInput snap) = true → Js.truthy (chatImage snap) = false →
  sendMessage env snap w = (Returned tt, w).
Proof. intros Hblank Himage. unfold sendMessage. by rewrite Hblank, Himage. Qed.

Lemma sendMessage_wideSpaces (w : World) :
  sendMessage Scenarios.env (setChatInput Scenarios.wideSpaces Scenarios.signedIn) w
    = (Returned tt, w).
Proof. by apply sendMessage_blank. Qed.

(** With a message without an id in the chat, the updater that drops the
    indicators throws when it is run: the render fails, and the handler
    has posted the message all the same. *)
Lemma sendMessage_render_error :
  let w := Scenarios.world (setChatMessages [Scenarios.orphan] Scenarios.signedIn) ∅ in
  let run := sendMessage Scenarios.env Scenarios.signedIn w in
  run.1 = Returned tt ∧
  newEffects w run.2 =
    [RenderError; Fetch (POST_chat (Some "tok") "what goes with this" None);
     RenderError].
Proof. by vm_compute. Qed.


End ChatFacts.

(** ** The handlers on a device ahead of UTC *)

Module ScenarioFacts.

Import Wardrobe Calendar App Scenarios.

Local Open Scope Z_scope.

(** C1. A successful upload from a chat image or after an outfit
    validation leaves the cache of generated outfits as it was: the item is
    posted and the wardrobe reloaded with it, but the cached outfit stays,
    whereas the upload of [addWardrobeItems] and a deletion empty it. *)
Theorem extraction_leaves_cached_outfits :
  let image := "data:image/jpeg;base64,AAAA" in
  let w := world signedIn ∅ in
  let chat := (extractChatItems env signedIn image "what goes with this" w).2 in
  let validated := (extractOutfitItems env signedIn image w).2 in
  post_wardrobe env (Some "tok") image ["chat-extracted"; "what goes with this"]
    = Response 200 (Some (Some 1)) ∧
  trace chat =
    [Fetch (POST_wardrobe (Some "tok") image ["chat-extracted"; "what goes with this"]);
     Fetch (GET_wardrobe (Some "tok")); Alert "Items Extracted!"] ∧
  wardrobe (state chat) = [shirt; jeans; scarf] ∧
  generatedOutfits (state chat) = ["outfit-1"] ∧
  trace validated =
    [Fetch (POST_wardrobe (Some "tok") image ["validated-outfit"; "outfit-extract"]);
     Fetch (GET_wardrobe (Some "tok")); Alert "Items Added!"] ∧
  wardrobe (state validated) = [shirt; jeans; scarf] ∧
  generatedOutfits (state validated) = ["outfit-1"] ∧
  generatedOutfits (state (addWardrobeItems env signedIn w).2) = [] ∧
  generatedOutfits (state (deleteWardrobeItem env signedIn "w1" w).2) = [].
Proof. vm_compute. by repeat split. Qed.

(** C2. At 02:00 local time on Wednesday 10 January 2024, five and a half
    hours ahead of UTC, [getWeekDates] gives the seven days from Sunday 7 to
    Saturday 13 January, and [loadPlannedOutfits] asks the planner for 6 to
    12 January, Saturday to Friday: [formatDate] prints the UTC day, which
    is the day before. *)
Theorem loadPlannedOutfits_asks_for_shifted_week :
  let today := clock env 0 in
  let weekDates := getWeekDates (tz env) today 0 in
  localDate (tz env) <$> weekDates =
    ["2024-01-07"; "2024-01-08"; "2024-01-09"; "2024-01-10"; "2024-01-11";
     "2024-01-12"; "2024-01-13"] ∧
  getDay (tz env) <$> weekDates = [0; 1; 2; 3; 4; 5; 6] ∧
  formatDate <$> weekDates =
    ["2024-01-06"; "2024-01-07"; "2024-01-08"; "2024-01-09"; "2024-01-10";
     "2024-01-11"; "2024-01-12"] ∧
  trace (loadPlannedOutfits env signedIn (world signedIn ∅)).2 =
    [Fetch (GET_planner_outfits (Some "tok") "2024-01-06" "2024-01-12")].
Proof. vm_compute. by repeat split. Qed.

(** The planner rule on the sample user: shoes and a layering piece alone
    save nothing. *)
Lemma savePlannedOutfit_needs_top_or_bottom_witness :
  (selected_top (selectedOutfit shoesOnly) = None ∧
   selected_bottom (selectedOutfit shoesOnly) = None) ∧
  savePlannedOutfit env shoesOnly (world shoesOnly ∅)
    = (Returned tt, world shoesOnly ∅).
Proof.
  split; [split; reflexivity|].
  apply PlannerFacts.savePlannedOutfit_needs_top_or_bottom; reflexivity.
Defined.

(** The session rule for a render that has the token, on the sample
    device six minutes after the last session. *)
Example handleAppReopenBehavior_session_expired :
  let key := "lastSessionTime" in
  let w := world signedIn (sessionAt 1704831840000) in
  let currentTime := clock env (clockReads w) in
  let expired := currentTime - 1704831840000 > 300000 in
  (token signedIn = Some "tok" ∧ "tok" ≠ "" ∧
   storageThrows env (GetItem key) = false ∧
   storageThrows env (SetItem key (Js.toString currentTime)) = false ∧
   storage w !! key = Js.toString <$> Some 1704831840000 ∧
   (∀ l, Some 1704831840000 = Some l → 0 ≤ l)) ∧
  ∃ w',
    handleAppReopenBehavior env signedIn w = (Returned tt, w') ∧
    storage w' !! key = Some (Js.toString currentTime) ∧
    (Fetch (DELETE_chat_clear (Some "tok")) ∈ newEffects w w' ↔ expired) ∧
    (expired →
       state w' =
         setChatImage None (setChatInput "" (setChatMessages [] (state w))) ∧
       newEffects w w' =
         [Storage (GetItem key); Fetch (DELETE_chat_clear (Some "tok"));
          Storage (SetItem key (Js.toString currentTime))]) ∧
    (¬ expired →
       ∃ more,
         newEffects w w' =
           Storage (GetItem key) :: Fetch (GET_chat_history (Some "tok"))
           :: more ++ [Storage (SetItem key (Js.toString currentTime))] ∧
         Forall (λ e, ∃ op, e = Storage op) more ∧
         ∀ status msgs,
           get_chat_history env (Some "tok") = Response status (Some msgs) →
           ok status = true → chatMessages (state w') = msgs).
Proof.
  intros key w currentTime expired.
  assert (∀ l, Some 1704831840000 = Some l → 0 ≤ l) as Hlast
    by (intros l [= <-]; lia).
  split.
  - split_and!; [reflexivity|discriminate|reflexivity|reflexivity|reflexivity|exact Hlast].
  - apply (SessionFacts.handleAppReopenBehavior_session env signedIn w "tok"
             (Some 1704831840000));
      [reflexivity|discriminate|reflexivity|reflexivity|reflexivity|exact Hlast].
Qed.


(** The sample run of [sendMessage]: the user's message, then the two
    chunks with their ids. *)
Example sendMessage_sample :
  (λ msg, (msg_id msg, message msg, is_user msg))
    <$> chatMessages (state (sendMessage env signedIn (world signedIn ∅)).2) =
  [(Some "1704832200000", Some "what goes with this", true);
   (Some "m1", Some "Try the white shirt", false);
   (Some "m2", Some "with the blue jeans", false)].
Proof. vm_compute. reflexivity. Qed.

(** C9. An authenticated app start on the sample device: the stored token
    is accepted and [handleAppReopenBehavior] runs. With no session time
    stored it empties the chat state and stores the current time, but sends
    no request to clear the chat history; within five minutes of the last
    session it stores the current time, but sends no request for the chat
    history: in the closures of the first render the token is still
    [null]. *)
Theorem appStart_sends_no_chat_request :
  let fresh := (appStart env (world initialState {["token" := "tok"]})).2 in
  let recent :=
    (appStart env
       (world initialState (<["token" := "tok"]> (sessionAt 1704832000000)))).2 in
  trace fresh =
    [Storage (GetItem "token"); Fetch (GET_auth_me (Some "tok"));
     Storage (GetItem "lastSessionTime");
     Storage (SetItem "lastSessionTime" "1704832200000")] ∧
  token (state fresh) = Some "tok" ∧
  user (state fresh) = Some {| user_id := "u1"; user_name := "Asha" |} ∧
  chatMessages (state fresh) = [] ∧
  trace recent =
    [Storage (GetItem "token"); Fetch (GET_auth_me (Some "tok"));
     Storage (GetItem "lastSessionTime");
     Storage (SetItem "lastSessionTime" "1704832200000")] ∧
  token (state recent) = Some "tok".
Proof. vm_compute. by repeat split. Qed.

(** The same handler run by a render that has the token, within five
    minutes of the last session: the chat history is asked for and nothing
    is cleared. *)
Example handleAppReopenBehavior_resumes :
  trace (handleAppReopenBehavior env signedIn
           (world signedIn (sessionAt 1704832000000))).2 =
  [Storage (GetItem "lastSessionTime"); Fetch (GET_chat_history (Some "tok"));
   Storage (SetItem "lastSessionTime" "1704832200000")].
Proof. vm_compute. reflexivity. Qed.

End ScenarioFacts.

(** ** Uploads, deletions and the token *)

Module SyncFacts.

Import Wardrobe Calendar App HandlerFacts Failures.

Local Open Scope Z_scope.

(** X1. The data URL [addWardrobeItems] uploads is a PNG or a JPEG header
    followed by the picked string as [stripDataUrl] leaves it: without the
    header it starts with, when that header is data:image/, one or more
    lower-case letters and ;base64, and unchanged otherwise, so that a
    picked string with a header of another form, or with two headers, is
    uploaded behind a second header. Stripping the uploaded URL once gives
    what was put behind its header. *)
Theorem imageDataUrl_round_trip (asset : Asset) (assetBase64 : string) :
  (imageDataUrl asset assetBase64
     = ("data:image/png;base64," ++ Js.stripDataUrl assetBase64)%string ∨
   imageDataUrl asset assetBase64
     = ("data:image/jpeg;base64," ++ Js.stripDataUrl assetBase64)%string) ∧
  (∀ kind payload,
     Js.dataUrlHeader kind payload assetBase64 →
     Js.stripDataUrl assetBase64 = payload) ∧
  ((∀ kind payload, ¬ Js.dataUrlHeader kind payload assetBase64) →
   Js.stripDataUrl assetBase64 = assetBase64) ∧
  Js.stripDataUrl (imageDataUrl asset assetBase64) = Js.stripDataUrl assetBase64 ∧
  (uri asset = None →
   imageDataUrl asset "data:image/jpeg;base64,QUJD" = "data:image/jpeg;base64,QUJD" ∧
   imageDataUrl asset "data:image/svg+xml;base64,QUJD"
     = "data:image/jpeg;base64,data:image/svg+xml;base64,QUJD" ∧
   imageDataUrl asset "data:image/JPEG;base64,QUJD"
     = "data:image/jpeg;base64,data:image/JPEG;base64,QUJD" ∧
   imageDataUrl asset "data:image/jpeg;base64,data:image/png;base64,QUJD"
     = "data:image/jpeg;base64,data:image/png;base64,QUJD").
Proof.
  split_and!.
  - unfold imageDataUrl.
    set (ext := match uri asset with Some _ => _ | None => _ end).
    destruct (bool_decide (ext = "png")); cbn; auto.
  - intros kind payload. apply JsFacts.stripDataUrl_header.
  - apply JsFacts.stripDataUrl_other.
  - unfold imageDataUrl.
    set (ext := match uri asset with Some _ => _ | None => _ end).
    by destruct (bool_decide (ext = "png")).
  - intros Huri. unfold imageDataUrl. rewrite Huri. by split_and!.
Qed.

Section Sync.

Context (env : Env) (snap : AppState).

(** What a run of [loadWardrobe] with a token does, whatever the answer. *)
Lemma loadWardrobe_run (w : World) :
  Js.truthy (token snap) = true →
  ∃ w' more,
    loadWardrobe env snap w = (Returned tt, w') ∧
    trace w' = trace w ++ Fetch (GET_wardrobe (token snap)) :: more ∧
    Forall (λ e, e = Storage (RemoveItem "token")) more ∧
    generatedOutfits (state w') = generatedOutfits (state w) ∧
    loading (state w') = false ∧
    (∀ status items,
       get_wardrobe env (token snap) = Response status (Some items) →
       ok status = true → wardrobe (state w') = items) ∧
    (refused (get_wardrobe env (token snap)) →
       wardrobe (state w') = wardrobe (state w)).
Proof.
  intros Htok. unfold loadWardrobe. rewrite Htok.
  destruct (get_wardrobe env (token snap)) as [|st [items|]] eqn:Hget;
    try destruct (ok st) eqn:Hok;
    try destruct (bool_decide (st = 401)) eqn:H401;
    try destruct (storageThrows env (RemoveItem "token")) eqn:Hthrows;
    run; rewrite ?Hok, ?H401; run; rewrite ?Hthrows; run.
  all: eexists _, _; split_and!;
    [ reflexivity | cbn; rewrite <-?app_assoc; reflexivity
    | by repeat constructor | done | done
    | intros ?? [=]; subst; by try congruence
    | intros [|(? & ? & [=] & ?)]; subst; by try congruence ].
Qed.

(** The two parts of [loadWardrobeSent], one after the other, are
    [loadWardrobe]. *)
Lemma loadWardrobe_split (w : World) :
  loadWardrobe env snap w = (reloaded ← loadWardrobeSent env snap; reloaded) w.
Proof.
  unfold loadWardrobe, loadWardrobeSent, received.
  destruct (Js.truthy (token snap)); [|done].
  destruct (get_wardrobe env (token snap)) as [|st [items|]] eqn:Hget;
    try destruct (ok st) eqn:Hok;
    try destruct (bool_decide (st = 401)) eqn:H401;
    try destruct (storageThrows env (RemoveItem "token")) eqn:Hthrows;
    run; rewrite ?Hok, ?H401; run; rewrite ?Hthrows; by run.
Qed.

(** What the first part of [loadWardrobeSent] does with a token, and what
    the second part does wherever it is run. *)
Lemma loadWardrobeSent_run (w : World) :
  Js.truthy (token snap) = true →
  ∃ reloaded,
    loadWardrobeSent env snap w =
      (Returned reloaded,
       (emit (Fetch (GET_wardrobe (token snap)))
          (update (setLoading true) w).2).2) ∧
    ∀ w1, ∃ w2,
      reloaded w1 = (Returned tt, w2) ∧
      trace w2 =
        trace w1 ++
          (if unauthorized (get_wardrobe env (token snap))
           then [Storage (RemoveItem "token")] else []) ∧
      generatedOutfits (state w2) = generatedOutfits (state w1) ∧
      loading (state w2) = false ∧
      (∀ status items,
         get_wardrobe env (token snap) = Response status (Some items) →
         ok status = true → wardrobe (state w2) = items) ∧
      (refused (get_wardrobe env (token snap)) →
         wardrobe (state w2) = wardrobe (state w1)).
Proof.
  intros Htok. unfold loadWardrobeSent. rewrite Htok. run.
  eexists. split; [reflexivity|]. intros w1. unfold received, unauthorized.
  destruct (get_wardrobe env (token snap)) as [|st [items|]] eqn:Hget;
    try destruct (ok st) eqn:Hok;
    try destruct (bool_decide (st = 401)) eqn:H401;
    try destruct (storageThrows env (RemoveItem "token")) eqn:Hthrows;
    run; rewrite ?Hok, ?H401; run; rewrite ?Hthrows; run.
  all: try (apply bool_decide_eq_true in H401; subst st; by vm_compute in Hok).
  all: eexists; split_and!;
    [ reflexivity
    | cbn; rewrite <-?app_assoc, ?app_nil_r; reflexivity
    | done | done
    | intros ?? [=]; subst; by try congruence
    | intros [|(? & ? & [=] & ?)]; subst; by try congruence ].
Qed.

(** X2. A deletion that the backend does not carry out (no answer, or a
    status that is not a success) is rolled back by loading the wardrobe
    again, without waiting for it: the run sends the DELETE, then the GET,
    then shows the Error alert, and only then deals with the answer of the
    GET, which on a 401 removes the stored token after the alert; the
    cache of generated outfits is kept; the wardrobe shown afterwards is
    the server's when the reload succeeds, and when the reload fails too
    the item stays removed from the list. *)
Theorem deleteWardrobeItem_rolls_back (w : World) (itemId : string) :
  Js.truthy (token snap) = true →
  refused (delete_wardrobe_item env (token snap) itemId) →
  ∃ w',
    deleteWardrobeItem env snap itemId w = (Returned tt, w') ∧
    newEffects w w' =
      Fetch (DELETE_wardrobe_item (token snap) itemId)
      :: Fetch (GET_wardrobe (token snap)) :: Alert "Error"
      :: (if unauthorized (get_wardrobe env (token snap))
          then [Storage (RemoveItem "token")] else []) ∧
    generatedOutfits (state w') = generatedOutfits (state w) ∧
    loading (state w') = false ∧
    (∀ status items,
       get_wardrobe env (token snap) = Response status (Some items) →
       ok status = true → wardrobe (state w') = items) ∧
    (refused (get_wardrobe env (token snap)) →
       wardrobe (state w')
         = filter (λ item, item_id item ≠ itemId) (wardrobe (state w))).
Proof.
  intros Htok Hdel.
  unfold deleteWardrobeItem. rewrite Htok.
  destruct Hdel as [->|(st & body & -> & Hno)]; run; rewrite ?Hno; run.
  all: match goal with
       | |- context [loadWardrobeSent env snap ?w0] =>
           destruct (loadWardrobeSent_run w0 Htok) as (reloaded & -> & Hlater)
       end; run.
  all: match goal with
       | Hl : ∀ w1, ∃ w2, ?later w1 = _ ∧ _ |- context [?later ?w1] =>
           destruct (Hl w1) as (w2 & -> & Htrace & Hcache & Hloading & Hok & Hfail)
       end.
  all: exists w2; split_and!;
    [ done
    | apply newEffects_app; rewrite Htrace; cbn; by rewrite <-!app_assoc
    | done | done | done | done ].
Qed.

(** X3. When the wardrobe endpoint answers 401, [loadWardrobe] signs the
    user out: the token is removed from the device storage and the token
    and the user are cleared from the state, the wardrobe is left as it
    was and the loading flag ends off; the next start of the app on that
    storage then only reads the storage and sends no request. If the
    storage fails to remove the token, the state keeps the token too. *)
Theorem loadWardrobe_unauthorized (w : World) (body : option (list WardrobeItem)) :
  Js.truthy (token snap) = true →
  get_wardrobe env (token snap) = Response 401 body →
  ∃ w',
    loadWardrobe env snap w = (Returned tt, w') ∧
    loading (state w') = false ∧
    wardrobe (state w') = wardrobe (state w) ∧
    if storageThrows env (RemoveItem "token")
    then token (state w') = token (state w) ∧ storage w' = storage w
    else
      token (state w') = None ∧ user (state w') = None ∧
      storage w' = delete "token" (storage w) ∧
      ∀ env' w0,
        storageThrows env' (GetItem "token") = false →
        storage w0 = storage w' →
        newEffects w0 (appStart env' w0).2 = [Storage (GetItem "token")].
Proof.
  intros Htok Hget. unfold loadWardrobe. rewrite Htok, Hget.
  destruct (storageThrows env (RemoveItem "token")) eqn:Hthrows;
    run; rewrite ?Hthrows; run; (eexists; split_and!; [reflexivity|done..|]).
  - done.
  - intros env' w0 Hread Hstore. apply newEffects_app.
    unfold appStart, checkAuthStatus. run. rewrite Hread. run.
    rewrite Hstore. cbn. rewrite lookup_delete_eq. by run.
Qed.

End Sync.

(** X4. At the start of the app a stored token is checked with the
    backend: a status that is not a success removes it from the storage and
    from the state, after exactly one request; when the backend cannot be
    reached, or answers with a success, the token stays in the storage and
    is the token of the state. *)
Theorem appStart_token (env : Env) (w : World) (t : string) :
  storage w !! "token" = Some t → t ≠ "" →
  storageThrows env (GetItem "token") = false →
  storageThrows env (RemoveItem "token") = false →
  ∃ w',
    appStart env w = (Returned tt, w') ∧
    ((∃ status body,
        get_auth_me env (Some t) = Response status body ∧ ok status = false) →
     storage w' = delete "token" (storage w) ∧ token (state w') = None ∧
     newEffects w w' =
       [Storage (GetItem "token"); Fetch (GET_auth_me (Some t));
        Storage (RemoveItem "token")]) ∧
    (get_auth_me env (Some t) = NetworkError ∨
     (∃ status body,
        get_auth_me env (Some t) = Response status body ∧ ok status = true) →
     storage w' !! "token" = Some t ∧ token (state w') = Some t).
Proof.
  intros Hstored Ht Hread Hremove.
  unfold appStart, checkAuthStatus. run. rewrite Hread. run. rewrite Hstored.
  assert (Js.truthy (Some t) = true) as Htruthy
    by (apply JsFacts.truthy_Some; by exists t).
  rewrite Htruthy. run.
  destruct (get_auth_me env (Some t)) as [|status [userData|]] eqn:Hme;
    [|destruct (ok status) eqn:Hok..]; rewrite ?Hremove; run.
  2: (unfold handleAppReopenBehavior, loadChatHistory;
      change (Js.truthy (token initialState)) with false; run;
      destruct (storageThrows env (GetItem "lastSessionTime")); run;
      [|destruct (negb (Js.truthy _) || elapsedOver _ _); run;
        destruct (storageThrows env (SetItem _ _)); run]).
  all: (eexists; split_and!;
    [ reflexivity
    | intros (? & ? & [=] & ?); subst;
      first [ congruence
            | split_and!;
              [done|done|apply newEffects_app; cbn; by rewrite <-?app_assoc] ]
    | intros [[=]|(? & ? & [=] & ?)]; subst;
      first [ congruence | split; [cbn; by rewrite ?lookup_insert_ne|done] ] ]).
Qed.


End SyncFacts.

(** ** Starting a chat over, attaching an image, and a message that fails *)

Module ChatSessionFacts.

Import Wardrobe Calendar App HandlerFacts Failures ChatSession ChatFacts.

Local Open Scope Z_scope.

(** X6. [startFreshChatSession] always ends, without an exception, with an
    empty chat, an empty input and no attached image, whatever the backend
    answers; it leaves the storage alone and sends the request to clear the
    history exactly when there is a token. *)
Theorem startFreshChatSession_clears (env : Env) (snap : AppState) (w : World) :
  ∃ w',
    startFreshChatSession env snap w = (Returned tt, w') ∧
    chatMessages (state w') = [] ∧
    chatInput (state w') = "" ∧
    chatImage (state w') = None ∧
    storage w' = storage w ∧
    newEffects w w' =
      if Js.truthy (token snap) then [Fetch (DELETE_chat_clear (token snap))] else [].
Proof.
  unfold startFreshChatSession.
  destruct (Js.truthy (token snap)); run.
  - destruct (delete_chat_clear env (token snap)); run;
      (eexists; split_and!; [reflexivity|done..|by apply newEffects_app]).
  - eexists; split_and!; [reflexivity|done..|].
    apply newEffects_app. by rewrite app_nil_r.
Qed.

(** X7. [selectChatImage] never throws, and what it does is decided by
    what the picker gives. When the picker is cancelled, or its first asset
    is missing or has no image data, nothing changes at all. When the
    picker gives no asset list, or image data that is only a data URL
    header, the state is unchanged and the Error alert is shown. Otherwise
    the attached image becomes the first asset's data as [stripDataUrl]
    leaves it, which is not empty, and nothing is shown. *)
Theorem selectChatImage_attaches_payload (env : Env) (w : World) :
  ∃ w',
    selectChatImage env w = (Returned tt, w') ∧
    storage w' = storage w ∧ clockReads w' = clockReads w ∧
    (canceled (pickedImage env) = true → w' = w) ∧
    (canceled (pickedImage env) = false → assets (pickedImage env) = None →
     state w' = state w ∧ newEffects w w' = [Alert "Error"]) ∧
    (∀ picked,
       canceled (pickedImage env) = false →
       assets (pickedImage env) = Some picked →
       match head picked ≫= base64 with
       | None => w' = w
       | Some raw =>
           if decide (raw = "") then w' = w
           else if decide (Js.stripDataUrl raw = "")
           then state w' = state w ∧ newEffects w w' = [Alert "Error"]
           else state w' = setChatImage (Some (Js.stripDataUrl raw)) (state w) ∧
                newEffects w w' = []
       end).
Proof.
  unfold selectChatImage.
  destruct (canceled (pickedImage env)) eqn:Hc; run.
  { exists w. by split_and!. }
  destruct (assets (pickedImage env)) as [[|asset more]|] eqn:Ha; run.
  3: { eexists. split_and!; try done. intros _ _. split; [done|].
       by apply newEffects_app. }
  { exists w. split_and!; try done. by intros ? _ [= <-]. }
  destruct (base64 asset) as [raw|] eqn:Hraw; run.
  2: { exists w. split_and!; try done. intros ? _ [= <-]. cbn. by rewrite Hraw. }
  unfold Js.truthy.
  destruct (decide (raw = "")) as [->|Hne].
  { rewrite bool_decide_false by naive_solver. run.
    exists w. split_and!; try done. intros ? _ [= <-]. cbn. by rewrite Hraw. }
  rewrite (bool_decide_true (raw ≠ "")) by done.
  destruct (decide (Js.stripDataUrl raw = "")) as [Hs|Hs].
  - rewrite (bool_decide_false (Js.stripDataUrl raw ≠ "")) by naive_solver. run.
    eexists. split_and!; try done.
    intros ? _ [= <-]. cbn. rewrite Hraw, decide_False, decide_True by done.
    split; [done|]. by apply newEffects_app.
  - rewrite (bool_decide_true (Js.stripDataUrl raw ≠ "")) by done.
    rewrite bool_decide_true.
    2: { destruct (Js.stripDataUrl raw); [done|cbn; lia]. }
    run. eexists. split_and!; try done.
    intros ? _ [= <-]. cbn. rewrite Hraw, !decide_False by done.
    split; [done|]. apply newEffects_app. by rewrite app_nil_r.
Qed.
(** X8. When the chat request fails (no answer, an answer that is not
    JSON, or a status that is not a success), [sendMessage] still returns:
    the chat keeps the user's message after the earlier messages, without
    any typing or loading indicator; the input and the attached image are
    cleared and the loading flag is off; the last effect is an alert, titled
    Error when the backend answered with JSON and Network Error otherwise. *)
Theorem sendMessage_failure (env : Env) (snap : AppState) (w : World) (u : User)
    (result : FetchResult ChatData) :
  Js.isBlank (chatInput snap) && negb (Js.truthy (chatImage snap)) = false →
  user snap = Some u →
  Forall (λ msg, is_Some (msg_id msg)) (chatMessages (state w)) →
  (∀ bearer text image, post_chat env bearer text image = result) →
  chatFailed result →
  ∃ w' kept userMessage,
    sendMessage env snap w = (Returned tt, w') ∧
    filterIds notIndicator (chatMessages (state w)) = Some kept ∧
    chatMessages (state w') = kept ++ [userMessage] ∧
    is_user userMessage = true ∧
    message userMessage =
      Some (Js.or_else (Some (chatInput snap)) "Please analyze this image") ∧
    chatInput (state w') = "" ∧
    chatImage (state w') = None ∧
    loading (state w') = false ∧
    last (trace w') =
      Some (Alert match result with
                  | Response _ (Some _) => "Error"
                  | _ => "Network Error"
                  end).
Proof.
  intros Hsend Huser Hids Hpost Hfailed.
  destruct (filterIds_defined notIndicator _ Hids) as (kept & Hkept & _).
  destruct (filterIds_defined notLoading _ Hids) as (kept1 & Hkept1 & _).
  pose proof (filterIds_refine notLoading notIndicator _ _
                notIndicator_notLoading Hkept1) as Hrefine.
  rewrite Hkept in Hrefine.
  unfold sendMessage. rewrite Hsend, Huser. run.
  destruct (chatImage snap) as [image|] eqn:Himg;
    [destruct (Js.truthy (Some image)) eqn:Htruthy|];
    unfold handleItemExtractionPermission, emit; cbn;
    rewrite ?filterIds_app, Hkept1; cbn;
    rewrite ?(proj2 (toString_not_indicator _)), ?notLoading_loading; cbn.
  all: rewrite Hpost;
    destruct Hfailed as [->|[(st & ->)|(st & data & -> & Hno)]];
    run; rewrite ?Hno; cbn;
    rewrite ?app_nil_r, !filterIds_app, Hrefine; cbn;
    rewrite ?(proj1 (toString_not_indicator _)), ?notIndicator_typing; cbn.
  all: eexists _, kept, _; split_and!;
    [ reflexivity | done | cbn; by rewrite ?app_nil_r, <-?app_assoc
    | reflexivity | reflexivity | done | done | done
    | cbn; by rewrite last_snoc ].
Qed.

End ChatSessionFacts.

(** ** The planner: saved outfits, the repetition warning, the week *)

Module PlannerViewFacts.

Import Wardrobe Calendar App PlannerView PlannerFacts CalendarFacts.

Local Open Scope Z_scope.

Lemma find_by_id (wardrobe : list WardrobeItem) (item : WardrobeItem) :
  NoDup (item_id <$> wardrobe) → item ∈ wardrobe →
  List.find (λ i, bool_decide (item_id i = item_id item)) wardrobe = Some item.
Proof.
  induction wardrobe as [|first rest IH]; cbn; intros Hnodup Hin.
  - by apply elem_of_nil in Hin.
  - apply NoDup_cons in Hnodup as [Hfirst Hrest].
    apply elem_of_cons in Hin as [->|Hin].
    + by rewrite bool_decide_true.
    + rewrite bool_decide_false; [by apply IH|].
      intros Heq. apply Hfirst. rewrite Heq. by apply list_elem_of_fmap_2.
Qed.

Lemma pushResolved_selected (wardrobe : list WardrobeItem)
    (selected : option WardrobeItem) (outfitItems : list WardrobeItem) :
  NoDup (item_id <$> wardrobe) →
  (∀ item, selected = Some item → item ∈ wardrobe ∧ item_id item ≠ "") →
  pushResolved wardrobe (Js.or_null (item_id <$> selected)) outfitItems
    = outfitItems ++ omap id [selected].
Proof.
  intros Hnodup Hsel. destruct selected as [item|]; cbn.
  - destruct (Hsel item eq_refl) as [Hin Hid].
    unfold Js.or_null, pushResolved, Js.truthy. cbn.
    rewrite !bool_decide_true by done. cbn.
    by rewrite find_by_id.
  - by rewrite app_nil_r.
Qed.

(** X9. Saving and showing agree: when the wardrobe has no two items with
    the same id and the chosen items are wardrobe items with an id, an
    outfit whose slots are the ones [savePlannedOutfit] posts is shown by
    [loadPlannedOutfits] with exactly the chosen items, in the order top,
    bottom, layering, shoes. *)
Theorem saved_outfit_shows_selection (wardrobe : list WardrobeItem)
    (snap : AppState) (plannedOutfit : PlannedOutfit) :
  NoDup (item_id <$> wardrobe) →
  (∀ item, item ∈ selectedItems (selectedOutfit snap) →
     item ∈ wardrobe ∧ item_id item ≠ "") →
  planned_items plannedOutfit = items (plannedOutfitData snap) →
  outfitItems (displayOutfit wardrobe plannedOutfit)
    = selectedItems (selectedOutfit snap).
Proof.
  intros Hnodup Hsel Hitems. unfold displayOutfit. rewrite Hitems. cbn.
  assert (∀ slot item, slot ∈ [selected_top (selectedOutfit snap);
                               selected_bottom (selectedOutfit snap);
                               selected_layering (selectedOutfit snap);
                               selected_shoes (selectedOutfit snap)] →
            slot = Some item → item ∈ wardrobe ∧ item_id item ≠ "") as Hslot.
  { intros slot item Hin ->. apply Hsel. unfold selectedItems.
    apply list_elem_of_omap. by exists (Some item). }
  rewrite !pushResolved_selected; try done;
    try (intros item; apply Hslot; rewrite !elem_of_cons; by auto 6).
  unfold selectedItems.
  by destruct (selected_top _), (selected_bottom _), (selected_layering _),
    (selected_shoes _).
Qed.

Lemma shownId_Some names outfit id :
  shownId names outfit = Some id →
  ∃ item, item ∈ outfitItems outfit ∧ item_id item = id ∧
          includes names (category item) = true.
Proof.
  unfold shownId. destruct (List.find _ _) as [item|] eqn:Hfind; [|done].
  intros [= <-]. apply find_some in Hfind as [Hin Hcat].
  exists item. by rewrite list_elem_of_In.
Qed.

Lemma firstRepetition_Some currentTopId currentBottomId allOutfits warning :
  firstRepetition currentTopId currentBottomId allOutfits = Some warning →
  ∃ outfit,
    outfit ∈ allOutfits ∧
    planned_date (planned outfit) = warning_date warning ∧
    shownId tops outfit = currentTopId ∧
    shownId bottoms outfit = currentBottomId.
Proof.
  induction allOutfits as [|outfit rest IH]; cbn; [done|].
  destruct (bool_decide (shownId tops outfit = currentTopId)) eqn:Htop;
    [destruct (bool_decide (shownId bottoms outfit = currentBottomId)) eqn:Hbottom|];
    cbn.
  - intros [= <-]. exists outfit.
    apply bool_decide_eq_true in Htop, Hbottom.
    split_and!; [apply list_elem_of_here|done..].
  - intros (o & Hin & Ho)%IH. exists o. split; [by apply list_elem_of_further|done].
  - intros (o & Hin & Ho)%IH. exists o. split; [by apply list_elem_of_further|done].
Qed.

Lemma firstRepetition_is_Some currentTopId currentBottomId allOutfits outfit :
  outfit ∈ allOutfits →
  shownId tops outfit = currentTopId →
  shownId bottoms outfit = currentBottomId →
  is_Some (firstRepetition currentTopId currentBottomId allOutfits).
Proof.
  intros Hin Htop Hbottom.
  induction allOutfits as [|first rest IH]; [by apply elem_of_nil in Hin|].
  cbn.
  destruct (bool_decide (shownId tops first = currentTopId)
            && bool_decide (shownId bottoms first = currentBottomId)) eqn:Hfirst;
    [done|].
  apply elem_of_cons in Hin as [->|Hin]; [|by apply IH].
  by rewrite !bool_decide_true in Hfirst.
Qed.

(** X10. A repetition warning is never wrong about what is shown: when
    [checkOutfitRepetition] warns, a top and a bottom are chosen, and the
    planned outfit of the date it names shows an item of a top category
    with the id of the chosen top and an item of a bottom category with the
    id of the chosen bottom. *)
Theorem checkOutfitRepetition_sound (allOutfits : list DisplayedOutfit)
    (selected : SelectedOutfit) (warning : RepetitionWarning) :
  checkOutfitRepetition allOutfits selected = Some warning →
  ∃ outfit t b shownTop shownBottom,
    outfit ∈ allOutfits ∧
    planned_date (planned outfit) = warning_date warning ∧
    selected_top selected = Some t ∧ selected_bottom selected = Some b ∧
    shownTop ∈ outfitItems outfit ∧ item_id shownTop = item_id t ∧
    includes tops (category shownTop) = true ∧
    shownBottom ∈ outfitItems outfit ∧ item_id shownBottom = item_id b ∧
    includes bottoms (category shownBottom) = true.
Proof.
  unfold checkOutfitRepetition.
  destruct (selected_top selected) as [t|]; [|done].
  destruct (selected_bottom selected) as [b|];
    [|by rewrite orb_true_r].
  destruct (negb _ || negb _); [done|].
  intros (outfit & Hin & Hdate & Htop & Hbottom)%firstRepetition_Some.
  apply shownId_Some in Htop as (shownTop & ? & ? & ?).
  apply shownId_Some in Hbottom as (shownBottom & ? & ? & ?).
  by exists outfit, t, b, shownTop, shownBottom.
Qed.

Lemma tops_not_bottoms category :
  includes tops category = true → includes bottoms category = false.
Proof.
  destruct category as [c|]; [|done]. cbn.
  rewrite bool_decide_eq_true, bool_decide_eq_false.
  unfold tops, bottoms. rewrite !elem_of_cons, !elem_of_nil.
  intros [->|[->|[->|[->|[]]]]] [|[|[|[|[|[]]]]]]; done.
Qed.

Lemma pushResolved_id (wardrobe : list WardrobeItem) (item : WardrobeItem)
    (outfitItems : list WardrobeItem) :
  NoDup (item_id <$> wardrobe) → item ∈ wardrobe → item_id item ≠ "" →
  pushResolved wardrobe (Some (item_id item)) outfitItems = outfitItems ++ [item].
Proof.
  intros Hnodup Hin Hid. unfold pushResolved, Js.truthy.
  rewrite bool_decide_true by done. by rewrite find_by_id.
Qed.

(** X11. A repetition is never missed for an outfit made in the builder:
    when the chosen top and bottom are among the items the builder offers
    for these slots, ids are unique and not empty, and a planned outfit with
    these two ids in its top and bottom slots is among the shown outfits,
    [checkOutfitRepetition] gives a warning. *)
Theorem checkOutfitRepetition_complete (wardrobe : list WardrobeItem)
    (allOutfits : list DisplayedOutfit) (selected : SelectedOutfit)
    (t b : WardrobeItem) (plannedOutfit : PlannedOutfit) :
  NoDup (item_id <$> wardrobe) →
  t ∈ topChoices wardrobe → b ∈ bottomChoices wardrobe →
  item_id t ≠ "" → item_id b ≠ "" →
  selected_top selected = Some t → selected_bottom selected = Some b →
  top (planned_items plannedOutfit) = Some (item_id t) →
  bottom (planned_items plannedOutfit) = Some (item_id b) →
  displayOutfit wardrobe plannedOutfit ∈ allOutfits →
  is_Some (checkOutfitRepetition allOutfits selected).
Proof.
  intros Hnodup [Htop Ht]%list_elem_of_filter [Hbottom Hb]%list_elem_of_filter
    Htid Hbid Hseltop Hselbottom Hptop Hpbottom Hin.
  unfold checkOutfitRepetition. rewrite Hseltop, Hselbottom. cbn.
  unfold Js.truthy. rewrite !bool_decide_true by done. cbn.
  apply (firstRepetition_is_Some _ _ _ _ Hin).
  all: unfold shownId, displayOutfit; cbn; rewrite Hptop, Hpbottom.
  all: rewrite (pushResolved_app _ (shoes _)), (pushResolved_app _ (layering _)),
    !pushResolved_id by done; cbn.
  - by rewrite Htop.
  - by rewrite (tops_not_bottoms _ Htop), Hbottom.
Qed.

Section Week.

Variable tz : Z.

Lemma formatCardDate_localDay d1 d2 :
  localDay tz d1 = localDay tz d2 → formatCardDate tz d1 = formatCardDate tz d2.
Proof.
  intros Hday. unfold formatCardDate, shortMonth, getDate. by rewrite Hday.
Qed.

Lemma getWeekDates_card today weekOffset (i : nat) :
  (i < 7)%nat →
  ∃ date, getWeekDates tz today weekOffset !! i = Some date ∧
          localDay tz date = sundayOf tz today weekOffset + Z.of_nat i ∧
          getDay tz date = Z.of_nat i ∧
          timeWithinDay tz date = timeWithinDay tz today.
Proof.
  intros Hi.
  destruct (lookup_lt_is_Some_2 (getWeekDates tz today weekOffset) i) as [date Hdate].
  { destruct (getWeekDates_week tz today weekOffset) as [-> _]. lia. }
  exists date. split; [done|]. by apply getWeekDates_lookup in Hdate as (_ & ? & ? & ?).
Qed.

(** X12. The header of a week does not span its cards: the cards run from
    Sunday to Saturday, and [getWeekDateRange] prints the week from its
    second card, a Monday, to the first card of the following week, a
    Sunday, each as day of the month and short month name. *)
Theorem getWeekDateRange_monday_to_sunday (today : Date) (weekOffset : Z) :
  ∃ monday nextSunday,
    getWeekDates tz today weekOffset !! 1%nat = Some monday ∧
    getWeekDates tz today (weekOffset + 1) !! 0%nat = Some nextSunday ∧
    getDayName tz monday = Some "Monday" ∧
    getDayName tz nextSunday = Some "Sunday" ∧
    getWeekDateRange tz today weekOffset =
      Some (formatCardDate tz monday ++ " to " ++ formatCardDate tz nextSunday)%string.
Proof.
  destruct (getWeekDates_card today weekOffset 1) as (monday & Hm & Hmday & Hmwd & _);
    [lia|].
  destruct (getWeekDates_card today (weekOffset + 1) 0)
    as (nextSunday & Hs & Hsday & Hswd & _); [lia|].
  exists monday, nextSunday. split_and!; try done.
  - unfold getDayName. by rewrite Hmwd.
  - unfold getDayName. by rewrite Hswd.
  - unfold getWeekDateRange. rewrite Hm. cbn. do 3 f_equal.
    apply formatCardDate_localDay.
    rewrite localDay_setDate_getDate, Hmday, Hsday. unfold sundayOf. lia.
Qed.

(** X13. On a device whose zone keeps one offset from UTC (no daylight
    saving change), the cards of every week are named Sunday to Saturday in
    this order; the cards of the next week are those of this week seven
    local days later; and the current week has today itself as the card at
    the index of its day of the week. *)
Theorem week_cards (today : Date) (weekOffset : Z) :
  getDayName tz <$> getWeekDates tz today weekOffset = Some <$> days ∧
  localDay tz <$> getWeekDates tz today (weekOffset + 1)
    = (λ date, localDay tz date + 7) <$> getWeekDates tz today weekOffset ∧
  getWeekDates tz today 0 !! Z.to_nat (getDay tz today) = Some today.
Proof.
  destruct (getWeekDates_week tz today weekOffset) as (Hlen & Hdays & Hwd).
  destruct (getWeekDates_week tz today (weekOffset + 1)) as (_ & Hnext & _).
  split_and!.
  - unfold getDayName.
    change (λ date, days !! Z.to_nat (getDay tz date))
      with ((λ d, days !! Z.to_nat d) ∘ getDay tz).
    by rewrite list_fmap_compose, Hwd.
  - rewrite Hnext.
    change (λ date, localDay tz date + 7) with ((λ d, d + 7) ∘ localDay tz).
    rewrite list_fmap_compose, Hdays, <-list_fmap_compose.
    apply list_fmap_ext. intros _ i _. cbn. unfold sundayOf. lia.
  - assert (0 ≤ getDay tz today < 7) as Hrange by (apply Z.mod_pos_bound; lia).
    destruct (getWeekDates_card today 0 (Z.to_nat (getDay tz today)))
      as (date & Hdate & Hday & _ & Htime); [lia|].
    rewrite Hdate. f_equal.
    unfold sundayOf in Hday. rewrite Z2Nat.id in Hday by lia.
    unfold localDay, timeWithinDay in *.
    pose proof (Z.div_mod (localTime tz date) msPerDay) as H1.
    pose proof (Z.div_mod (localTime tz today) msPerDay) as H2.
    unfold localTime, msPerDay in *. lia.
Qed.

End Week.
End PlannerViewFacts.

(** ** The events of the planner *)

Module EventFacts.

Import Events.

Local Open Scope Z_scope.

Lemma dayEvents_insert events d d' evs :
  dayEvents (<[d := evs]> events) d' =
    if decide (d' = d) then evs else dayEvents events d'.
Proof.
  unfold dayEvents. destruct (decide (d' = d)) as [->|Hne].
  - by rewrite lookup_insert_eq.
  - by rewrite lookup_insert_ne.
Qed.

Lemma entered_eventOfForm form :
  Js.isBlank (event_title form) = false → entered (Some (eventOfForm form)).
Proof.
  intros Htitle. eexists. split_and!; [done|done|]. cbn.
  destruct (decide (event_time form = "")) as [->|Hne]; [done|].
  unfold Js.or_else. by rewrite bool_decide_true.
Qed.

(** X14. Every stored event is one the modal made, with a title that is
    not blank and a time: this holds at the start and is kept by adding,
    by updating a shown event, by deleting (whatever the index and the
    button), and by opening and resetting the modal; and then [editEvent]
    on a shown event does not throw. *)
Theorem events_stay_entered (snap st : EventState) :
  allEntered st →
  allEntered initialEvents ∧
  allEntered (addEvent snap st) ∧
  (editingShown snap st → allEntered (updateEvent snap st)) ∧
  (∀ dateKey eventIndex pressed,
     allEntered (deleteEvent dateKey eventIndex pressed st)) ∧
  (∀ dateKey, allEntered (openAddEventModal dateKey st)) ∧
  allEntered (resetEventForm st) ∧
  (∀ dateKey eventIndex,
     allEntered snap →
     (eventIndex < length (dayEvents (weeklyEvents snap) dateKey))%nat →
     ∃ st', editEvent snap dateKey eventIndex st = Some st' ∧ allEntered st').
Proof.
  intros Hst. split_and!.
  - intros d. unfold dayEvents. cbn. by rewrite lookup_empty.
  - unfold addEvent.
    destruct (Js.isBlank _) eqn:Htitle; cbn; [done|].
    destruct (negb _); [done|].
    intros d. cbn. rewrite dayEvents_insert. destruct (decide _) as [->|]; [|done].
    apply Forall_app. split; [done|]. apply Forall_singleton.
    by apply entered_eventOfForm.
  - intros Hshown. unfold updateEvent.
    destruct (Js.isBlank _) eqn:Htitle; cbn; [done|].
    destruct (bool_decide _); [done|].
    intros d. cbn. rewrite dayEvents_insert. destruct (decide _) as [->|]; [|done].
    unfold assign, editingShown in *.
    destruct (Z.ltb_spec (editingEventIndex snap) 0); [lia|].
    destruct (Nat.ltb_spec (Z.to_nat (editingEventIndex snap))
                (length (dayEvents (weeklyEvents st) (selectedEventDate snap))));
      [|lia].
    apply Forall_insert; [done|]. by apply entered_eventOfForm.
  - intros d i [|]; [done|]. intros d'. cbn. rewrite dayEvents_insert.
    destruct (decide _) as [->|]; [|done]. unfold splice1.
    apply Forall_app. split; [by apply Forall_take|by apply Forall_drop].
  - done.
  - done.
  - intros d i Hsnap Hi. unfold editEvent, dayEvents in *.
    specialize (Hsnap d). unfold dayEvents in Hsnap.
    destruct (weeklyEvents snap !! d) as [evs|]; cbn in *; [|lia].
    destruct (lookup_lt_is_Some_2 evs i Hi) as [e He].
    rewrite He. cbn.
    destruct (Forall_lookup_1 _ _ _ _ Hsnap He) as (ev & -> & _). cbn.
    eexists. split; [done|]. done.
Qed.

(** X15. [addEvent] puts the event of the form at the end of the selected
    date's events and leaves every other date alone; deleting the event at
    that last index afterwards shows every date as it was before. *)
Theorem addEvent_then_deleteEvent (snap st : EventState) :
  Js.isBlank (event_title (eventForm snap)) = false →
  selectedEventDate snap ≠ "" →
  let dateKey := selectedEventDate snap in
  let added := addEvent snap st in
  let eventIndex := length (dayEvents (weeklyEvents st) dateKey) in
  dayEvents (weeklyEvents added) dateKey
    = dayEvents (weeklyEvents st) dateKey ++ [Some (eventOfForm (eventForm snap))] ∧
  (∀ d, d ≠ dateKey → weeklyEvents added !! d = weeklyEvents st !! d) ∧
  ∀ d, dayEvents (weeklyEvents (deleteEvent dateKey eventIndex Delete added)) d
       = dayEvents (weeklyEvents st) d.
Proof.
  intros Htitle Hdate dateKey added eventIndex.
  assert (weeklyEvents added =
          <[dateKey := dayEvents (weeklyEvents st) dateKey
                       ++ [Some (eventOfForm (eventForm snap))]]> (weeklyEvents st))
    as Hadded.
  { subst added. unfold addEvent, Js.truthy. rewrite Htitle.
    by rewrite bool_decide_true. }
  split_and!.
  - rewrite Hadded, dayEvents_insert. by rewrite decide_True.
  - intros d Hd. rewrite Hadded. by rewrite lookup_insert_ne.
  - intros d. cbn. rewrite dayEvents_insert, Hadded, !dayEvents_insert.
    rewrite (decide_True (P := dateKey = dateKey)) by done.
    destruct (decide _) as [->|]; [|done].
    unfold splice1. subst eventIndex.
    rewrite take_app_length, drop_ge; [by rewrite app_nil_r|].
    rewrite length_app. cbn. lia.
Qed.

Lemma eventOfForm_entered event :
  event_time event ≠ "" →
  eventOfForm {| event_title := event_title event; event_time := event_time event;
                 event_type := event_type event |} = event.
Proof.
  intros Htime. unfold eventOfForm, Js.or_else. cbn.
  rewrite bool_decide_true by done. by destruct event.
Qed.

(** X16. Editing changes the tapped event only: [editEvent] on a stored
    event fills the form with it, and [updateEvent], after whatever typing
    leaves a title, replaces that one event by the event of the form,
    closes the modal, and changes nothing at all when the form is saved as
    it was filled. *)
Theorem editEvent_then_updateEvent (snap : EventState) (dateKey : string)
    (eventIndex : nat) (events : list (option CalendarEvent)) (event : CalendarEvent)
    (typing : CalendarEvent → CalendarEvent) :
  weeklyEvents snap !! dateKey = Some events →
  events !! eventIndex = Some (Some event) →
  Js.isBlank (event_title (typing event)) = false →
  ∃ editing,
    editEvent snap dateKey eventIndex snap = Some editing ∧
    eventForm editing = event ∧
    let typed := setEventForm typing editing in
    let updated := updateEvent typed typed in
    weeklyEvents updated =
      <[dateKey := <[eventIndex := Some (eventOfForm (typing event))]> events]>
        (weeklyEvents snap) ∧
    showEventModal updated = false ∧
    (entered (Some event) → typing event = event →
     weeklyEvents updated = weeklyEvents snap).
Proof.
  intros Hevents Hevent Htitle.
  unfold editEvent. rewrite Hevents. cbn. rewrite Hevent. cbn.
  eexists. split; [done|].
  assert ({| event_title := event_title event; event_time := event_time event;
             event_type := event_type event |} = event) as Hform
    by by destruct event.
  rewrite Hform. split; [done|].
  unfold updateEvent, setEventForm.
  cbn [eventForm editingEventIndex selectedEventDate weeklyEvents showEventModal].
  rewrite Htitle, bool_decide_false by lia.
  cbn [orb resetEventForm setWeeklyEvents weeklyEvents showEventModal].
  unfold dayEvents. rewrite Hevents. cbn [default].
  change (id events) with events.
  assert (assign events (Z.of_nat eventIndex) (eventOfForm (typing event)) =
          <[eventIndex := Some (eventOfForm (typing event))]> events) as ->.
  { unfold assign. destruct (Z.ltb_spec (Z.of_nat eventIndex) 0); [lia|].
    rewrite Nat2Z.id. apply lookup_lt_Some in Hevent as Hlt.
    by destruct (Nat.ltb_spec eventIndex (length events)); [|lia]. }
  split_and!; [done|done|].
  intros (e & [= <-] & _ & Htime) ->.
  rewrite <-Hform at 1. rewrite eventOfForm_entered by done.
  rewrite list_insert_id by done. by apply insert_id.
Qed.

End EventFacts.

(** ** The category chips of the wardrobe *)

Module CategoryChipFacts.

Import Wardrobe WardrobeFacts.

Lemma NoDup_getAvailableCategories wardrobe : NoDup (getAvailableCategories wardrobe).
Proof.
  unfold getAvailableCategories, sort. rewrite merge_sort_Permutation.
  apply categories_fold.
Qed.

Lemma map_to_list_groups wardrobe :
  map_to_list (groups wardrobe)
    ≡ₚ (λ c, (c, ofCategory c wardrobe)) <$> getAvailableCategories wardrobe.
Proof.
  apply NoDup_Permutation.
  - apply NoDup_map_to_list.
  - apply NoDup_fmap_2; [|apply NoDup_getAvailableCategories].
    by intros c1 c2 [= ->].
  - intros [c group]. rewrite elem_of_map_to_list, list_elem_of_fmap.
    rewrite groups_lookup_Some. split.
    + intros [-> Hne]. exists c. split; [done|].
      apply elem_of_getAvailableCategories.
      destruct (ofCategory c wardrobe) as [|item rest] eqn:Hgroup; [done|].
      exists item. apply elem_of_ofCategory. rewrite Hgroup. apply list_elem_of_here.
    + intros (c' & [= -> ->] & Hin). split; [done|].
      apply elem_of_getAvailableCategories in Hin as (item & Hitem & Hcat).
      intros Hnil.
      assert (item ∈ ofCategory c' wardrobe) as Hgroup by by apply elem_of_ofCategory.
      rewrite Hnil in Hgroup. by apply elem_of_nil in Hgroup.
Qed.

(** X17. The category chips cut the wardrobe into its sections. When no
    item's category names a member that objects inherit, choosing a chip
    other than [all] shows one section, the items of that category in
    wardrobe order, which is not empty, and a category that has no chip
    and names no inherited member shows nothing; when some item's category
    does name one, every choice throws. In both cases the sections of all
    the chips together are the wardrobe, each item once, and there is no
    chip exactly when the wardrobe is empty. *)
Theorem category_chips_partition (wardrobe : list WardrobeItem) :
  let chips := getAvailableCategories wardrobe in
  (Forall (λ item, categoryOf item ∉ objectPrototype) wardrobe →
     (∀ c, c ∈ chips → c ≠ "all" →
        getFilteredWardrobe c wardrobe = Some {[c := Group (ofCategory c wardrobe)]} ∧
        ofCategory c wardrobe ≠ []) ∧
     (∀ c, c ∉ chips → c ≠ "all" → c ∉ objectPrototype →
        getFilteredWardrobe c wardrobe = Some ∅)) ∧
  (¬ Forall (λ item, categoryOf item ∉ objectPrototype) wardrobe →
     ∀ c, getFilteredWardrobe c wardrobe = None) ∧
  concat ((λ c, ofCategory c wardrobe) <$> chips) ≡ₚ wardrobe ∧
  (chips = [] ↔ wardrobe = []).
Proof.
  intros chips. split_and!.
  - intros Hall.
    assert (getGroupedWardrobe wardrobe = Some (groups wardrobe)) as Hg
      by by apply getGroupedWardrobe_Some.
    split.
    + intros c Hin Hc. unfold getFilteredWardrobe. rewrite decide_False by done.
      rewrite Hg. cbn [mbind option_bind mret option_ret]. unfold member, assign.
      rewrite groups_lookup.
      apply elem_of_getAvailableCategories in Hin as (item & Hitem & Hcat).
      assert (item ∈ ofCategory c wardrobe) as Hgroup by by apply elem_of_ofCategory.
      destruct (ofCategory c wardrobe) as [|first rest] eqn:E;
        [by apply elem_of_nil in Hgroup|].
      split; [|done]. rewrite decide_False; [done|]. intros ->.
      rewrite Forall_forall in Hall. destruct (Hall item Hitem). rewrite Hcat.
      unfold objectPrototype. rewrite !elem_of_cons. tauto.
    + intros c Hout Hc Hown. unfold getFilteredWardrobe.
      rewrite decide_False by done.
      rewrite Hg. cbn [mbind option_bind mret option_ret]. unfold member.
      rewrite groups_lookup.
      destruct (ofCategory c wardrobe) as [|item rest] eqn:Hgroup.
      * by rewrite decide_False.
      * destruct Hout. apply elem_of_getAvailableCategories. exists item.
        apply elem_of_ofCategory. rewrite Hgroup. apply list_elem_of_here.
  - intros Hall c.
    assert (getGroupedWardrobe wardrobe = None) as Hg.
    { rewrite getGroupedWardrobe_run. by rewrite decide_False. }
    unfold getFilteredWardrobe. rewrite Hg. by case_decide.
  - etrans; [|apply groupedItems_groups].
    unfold groupedItems. rewrite map_to_list_groups.
    change (map snd) with (fmap (M := list) (snd (A := string) (B := list WardrobeItem))).
    by rewrite <-list_fmap_compose.
  - split.
    + intros Hchips. destruct wardrobe as [|item rest]; [done|].
      assert (categoryOf item ∈ chips) as Hin.
      { apply elem_of_getAvailableCategories. exists item.
        split; [apply list_elem_of_here|done]. }
      rewrite Hchips in Hin. by apply elem_of_nil in Hin.
    + by intros ->.
Qed.

End CategoryChipFacts.

(** ** Calendar days and their printed forms *)

Module CalendarDayFacts.

Import Calendar PlannerView Today CalendarFacts.

Local Open Scope Z_scope.

(** The calendar date of a day number gives the day number back, and its
    month and day of the month are in range. *)
Lemma civil_round_trip z :
  let '(y, m, d) := civil_from_days z in
  days_from_civil y m d = z ∧ 1 ≤ m ≤ 12 ∧ 1 ≤ d ≤ 31.
Proof.
  unfold civil_from_days, days_from_civil. cbv zeta.
  set (era := (z + 719468) / 146097).
  set (doe := z + 719468 - era * 146097).
  assert (0 ≤ doe < 146097) as Hdoe.
  { subst doe era. Z.to_euclidean_division_equations; lia. }
  assert (doe = z + 719468 - era * 146097) as Hz by reflexivity.
  clearbody doe.
  set (yoe := (doe - doe / 1460 + doe / 36524 - doe / 146096) / 365).
  assert (0 ≤ yoe ≤ 399 ∧ 0 ≤ doe - (365 * yoe + yoe / 4 - yoe / 100) ≤ 365)
    as [Hyoe Hdoy].
  { subst yoe. Z.to_euclidean_division_equations; lia. }
  set (doy := doe - (365 * yoe + yoe / 4 - yoe / 100)) in *.
  set (mp := (5 * doy + 2) / 153).
  assert (0 ≤ mp ≤ 11) as Hmp by (subst mp; Z.to_euclidean_division_equations; lia).
  set (d := doy - (153 * mp + 2) / 5 + 1).
  assert (1 ≤ d ≤ 31) as Hd by (subst d mp; Z.to_euclidean_division_equations; lia).
  destruct (Z.ltb_spec mp 10) as [Hlt|Hge].
  - destruct (Z.leb_spec (mp + 3) 2) as [|_]; [lia|].
    split; [|lia].
    replace ((mp + 3 + 9) mod 12) with mp by (Z.to_euclidean_division_equations; lia).
    replace ((yoe + era * 400) / 400) with era by (Z.to_euclidean_division_equations; lia).
    replace (yoe + era * 400 - era * 400) with yoe by lia.
    subst d doy. clearbody yoe mp era. lia.
  - destruct (Z.leb_spec (mp - 9) 2) as [_|]; [|lia].
    split; [|lia].
    replace ((mp - 9 + 9) mod 12) with mp by (Z.to_euclidean_division_equations; lia).
    replace ((yoe + era * 400 + 1 - 1) / 400) with era
      by (Z.to_euclidean_division_equations; lia).
    replace (yoe + era * 400 + 1 - 1 - era * 400) with yoe by lia.
    subst d doy. clearbody yoe mp era. lia.
Qed.

Lemma civil_from_days_inj z1 z2 :
  civil_from_days z1 = civil_from_days z2 → z1 = z2.
Proof.
  intros Heq. pose proof (civil_round_trip z1) as H1.
  pose proof (civil_round_trip z2) as H2. rewrite Heq in H1.
  destruct (civil_from_days z2) as [[y m] d].
  destruct H1 as [<- _]. by destruct H2 as [<- _].
Qed.

Lemma digit_inj a b : digit a = digit b → a mod 10 = b mod 10.
Proof.
  unfold digit. intros [= Heq].
  apply (f_equal Ascii.N_of_ascii) in Heq.
  rewrite !Ascii.N_ascii_embedding in Heq
    by (pose proof (Z.mod_pos_bound a 10); pose proof (Z.mod_pos_bound b 10); lia).
  pose proof (Z.mod_pos_bound a 10). pose proof (Z.mod_pos_bound b 10). lia.
Qed.

Lemma pad2_app_inj a b s t :
  0 ≤ a < 100 → 0 ≤ b < 100 →
  (pad2 a ++ s = pad2 b ++ t)%string → a = b ∧ s = t.
Proof.
  intros Ha Hb. unfold pad2, digit. cbn [String.append]. intros [= H1 H2 Hst].
  split; [|done].
  assert (digit (a / 10) = digit (b / 10)) as Htens%digit_inj
    by (unfold digit; by rewrite H1).
  assert (digit a = digit b) as Hunits%digit_inj by (unfold digit; by rewrite H2).
  revert Htens Hunits. Z.to_euclidean_division_equations. lia.
Qed.

Lemma string_app_assoc (x y u : string) : (x +:+ y) +:+ u = x +:+ y +:+ u.
Proof.
  induction x as [|c x IH]; [done|].
  change (String c ((x +:+ y) +:+ u) = String c (x +:+ y +:+ u)). by f_equal.
Qed.

Lemma string_app_nil_r (x : string) : x +:+ "" = x.
Proof.
  induction x as [|c x IH]; [done|].
  change (String c (x +:+ "") = String c x). by f_equal.
Qed.

Lemma pad4_app_inj a b s t :
  0 ≤ a ≤ 9999 → 0 ≤ b ≤ 9999 →
  (pad4 a ++ s = pad4 b ++ t)%string → a = b ∧ s = t.
Proof.
  intros Ha Hb. unfold pad4.
  rewrite !string_app_assoc.
  intros [Hhi [Hlo Hst]%pad2_app_inj]%pad2_app_inj;
    try (Z.to_euclidean_division_equations; lia).
  split; [|done]. revert Hhi Hlo. Z.to_euclidean_division_equations. lia.
Qed.

Lemma isoDate_inj day1 day2 :
  fourDigitYear day1 → fourDigitYear day2 →
  isoDate day1 = isoDate day2 → day1 = day2.
Proof.
  unfold fourDigitYear, isoDate. intros Hy1 Hy2 Hiso.
  apply civil_from_days_inj.
  pose proof (civil_round_trip day1) as H1.
  pose proof (civil_round_trip day2) as H2.
  destruct (civil_from_days day1) as [[y1 m1] d1].
  destruct (civil_from_days day2) as [[y2 m2] d2].
  destruct H1 as (_ & Hm1 & Hd1). destruct H2 as (_ & Hm2 & Hd2).
  apply pad4_app_inj in Hiso as [-> Hrest]; [|done..].
  apply (String.app_inj "-") in Hrest.
  apply pad2_app_inj in Hrest as [-> Hrest]; [|lia..].
  apply (String.app_inj "-") in Hrest.
  rewrite <-(string_app_nil_r (pad2 d1)), <-(string_app_nil_r (pad2 d2)) in Hrest.
  apply pad2_app_inj in Hrest as [-> _]; [done|lia..].
Qed.

Section Cards.

Variable tz : Z.

Lemma dayShift_card today weekOffset (i : nat) date :
  getWeekDates tz today weekOffset !! i = Some date →
  date / msPerDay = sundayOf tz today weekOffset + Z.of_nat i + dayShift tz today.
Proof.
  intros (_ & Hday & _ & Htime)%getWeekDates_lookup.
  rewrite (utcDay_localDay tz), Hday. unfold dayShift. by rewrite Htime.
Qed.

Lemma formatDate_nonempty date : formatDate date ≠ "".
Proof.
  unfold formatDate, isoDate. by destruct (civil_from_days _) as [[y m] d].
Qed.

Lemma formatDate_cards today w1 w2 (i1 i2 : nat) d1 d2 :
  getWeekDates tz today w1 !! i1 = Some d1 →
  getWeekDates tz today w2 !! i2 = Some d2 →
  fourDigitYear (d1 / msPerDay) → fourDigitYear (d2 / msPerDay) →
  formatDate d1 = formatDate d2 ↔ w1 = w2 ∧ i1 = i2.
Proof.
  intros H1 H2 Hy1 Hy2. unfold formatDate. split.
  - intros Hkey%isoDate_inj; [|done..].
    rewrite (dayShift_card _ _ _ _ H1), (dayShift_card _ _ _ _ H2) in Hkey.
    apply getWeekDates_lookup in H1 as (Hi1 & _).
    apply getWeekDates_lookup in H2 as (Hi2 & _).
    unfold sundayOf in Hkey. lia.
  - intros [-> ->]. rewrite H1 in H2. by injection H2 as ->.
Qed.

End Cards.
End CalendarDayFacts.

(** ** The cards of the planner: their keys, and the card of today *)

Module CardFacts.

Import Calendar PlannerView Today CalendarFacts CalendarDayFacts Events.

Local Open Scope Z_scope.

Section Cards.

Variable tz : Z.

(** X18. On a device whose zone keeps one offset from UTC (no daylight
    saving change), two cards in years of four digits have the same date
    key only if they are the same card of the same week, so an event shows
    on the card it was added from and on no other card of any week: after
    opening the modal from a card, typing a title that is not blank and
    pressing Add, the events under the key of any card are the earlier
    ones, followed by the new event exactly when it is the card the modal
    was opened from. *)
Theorem event_shows_on_its_card (today : Date) (w1 w2 : Z) (i1 i2 : nat)
    (d1 d2 : Date) (st : EventState) (typing : CalendarEvent → CalendarEvent) :
  getWeekDates tz today w1 !! i1 = Some d1 →
  getWeekDates tz today w2 !! i2 = Some d2 →
  fourDigitYear (d1 / msPerDay) → fourDigitYear (d2 / msPerDay) →
  Js.isBlank (event_title (typing (eventForm st))) = false →
  let typed := setEventForm typing (openAddEventModal (formatDate d1) st) in
  (formatDate d1 = formatDate d2 ↔ w1 = w2 ∧ i1 = i2) ∧
  dayEvents (weeklyEvents (addEvent typed typed)) (formatDate d2)
    = dayEvents (weeklyEvents st) (formatDate d2)
      ++ (if decide (w1 = w2 ∧ i1 = i2)
          then [Some (eventOfForm (typing (eventForm st)))] else []).
Proof.
  intros H1 H2 Hy1 Hy2 Htitle typed.
  pose proof (formatDate_cards tz today w1 w2 i1 i2 d1 d2 H1 H2 Hy1 Hy2) as Hkeys.
  split; [done|].
  unfold addEvent, typed. cbn [eventForm setEventForm openAddEventModal selectedEventDate].
  rewrite Htitle. unfold Js.truthy.
  rewrite bool_decide_true by apply formatDate_nonempty.
  cbn [orb negb resetEventForm setWeeklyEvents weeklyEvents].
  rewrite EventFacts.dayEvents_insert.
  destruct (decide (w1 = w2 ∧ i1 = i2)) as [Hsame|Hother].
  - apply Hkeys in Hsame as Hkey. by rewrite decide_True, Hkey.
  - rewrite decide_False; [by rewrite app_nil_r|].
    intros Hkey. by apply Hother, Hkeys.
Qed.

Lemma shortDays_length (i : nat) :
  (i < 7)%nat → String.length (default "" (shortDays !! i)) = 3%nat.
Proof. intros Hi. by do 7 (destruct i as [|i]; [done|]); lia. Qed.

Lemma shortMonths_length (i : nat) :
  (i < 12)%nat → String.length (default "" (shortMonths !! i)) = 3%nat.
Proof. intros Hi. by do 12 (destruct i as [|i]; [done|]); lia. Qed.

Lemma shortMonths_inj (i j : nat) :
  (i < 12)%nat → (j < 12)%nat →
  default "" (shortMonths !! i) = default "" (shortMonths !! j) → i = j.
Proof.
  intros Hi Hj.
  do 12 (destruct i as [|i]; [do 12 (destruct j as [|j]; [done|]); lia|]). lia.
Qed.

Lemma string_app_inj_length (x y s t : string) :
  String.length x = String.length y → x +:+ s = y +:+ t → x = y ∧ s = t.
Proof.
  revert y. induction x as [|c x IH]; intros [|c' y]; try done.
  intros [= Hlen].
  change (String c (x +:+ s) = String c' (y +:+ t) → String c x = String c' y ∧ s = t).
  intros Heq. injection Heq as -> Hrest.
  by destruct (IH y Hlen Hrest) as [-> ->].
Qed.

Lemma toDateString_localDay d1 d2 :
  fourDigitYear (localDay tz d1) → fourDigitYear (localDay tz d2) →
  toDateString tz d1 = toDateString tz d2 ↔ localDay tz d1 = localDay tz d2.
Proof.
  intros Hy1 Hy2. unfold toDateString, getDay. split; [|by intros ->].
  unfold fourDigitYear in *. intros Heq. apply civil_from_days_inj.
  pose proof (civil_round_trip (localDay tz d1)) as H1.
  pose proof (civil_round_trip (localDay tz d2)) as H2.
  destruct (civil_from_days (localDay tz d1)) as [[y1 m1] dm1].
  destruct (civil_from_days (localDay tz d2)) as [[y2 m2] dm2].
  destruct H1 as (_ & Hm1 & Hd1). destruct H2 as (_ & Hm2 & Hd2).
  apply string_app_inj_length in Heq as [_ Heq].
  2: { rewrite !shortDays_length; [done|..].
       all: pose proof (Z.mod_pos_bound (localDay tz d1 + 4) 7);
         pose proof (Z.mod_pos_bound (localDay tz d2 + 4) 7); lia. }
  apply (String.app_inj " ") in Heq.
  apply string_app_inj_length in Heq as [Hmonth Heq].
  2: { rewrite !shortMonths_length; [done|lia..]. }
  apply shortMonths_inj in Hmonth; [|lia..].
  apply (String.app_inj " ") in Heq.
  apply pad2_app_inj in Heq as [-> Heq]; [|lia..].
  apply (String.app_inj " ") in Heq.
  rewrite <-(string_app_nil_r (pad4 y1)), <-(string_app_nil_r (pad4 y2)) in Heq.
  apply pad4_app_inj in Heq as [-> _]; [|done..].
  do 2 f_equal. lia.
Qed.

Lemma findIndex_spec {A} (p : A → bool) (array : list A) (k : Z) :
  (∀ (i : nat) x, array !! i = Some x → p x = true ↔ Z.of_nat i = k) →
  findIndex p array = if decide (0 ≤ k < Z.of_nat (length array)) then k else -1.
Proof.
  revert k. induction array as [|x rest IH]; intros k Hp.
  - cbn. destruct (decide _); [lia|done].
  - cbn [findIndex]. pose proof (Hp 0%nat x eq_refl) as H0.
    destruct (p x) eqn:Hx.
    + assert (k = 0) as -> by (symmetry; by apply H0).
      rewrite decide_True; [done|]. cbn [length]. lia.
    + assert (k ≠ 0) as Hk.
      { intros ->. destruct H0 as [_ H0]. by specialize (H0 eq_refl). }
      rewrite (IH (k - 1)).
      2: { intros i y Hi. rewrite (Hp (S i) y Hi). lia. }
      cbn [length].
      destruct (decide (0 ≤ k - 1 < _)) as [Hin|Hout].
      * destruct (Z.ltb_spec (k - 1) 0); [lia|].
        rewrite decide_True by lia. lia.
      * cbn. destruct (decide _); [lia|done].
Qed.

(** X19. A card is marked as today exactly when its local day is the local
    day of the clock: it is the card at index [k], the number of days from
    the week's Sunday to today, and [scrollToCurrentDay] scrolls to
    [k * 200] when that index is one of the seven cards and does not
    scroll otherwise; with one clock reading this is the card of today's
    day of the week in the current week, and no card of any other week. *)
Theorem today_card (today now : Date) (selectedWeek : Z) :
  Forall (λ date, fourDigitYear (localDay tz date))
         (getWeekDates tz today selectedWeek) →
  fourDigitYear (localDay tz now) →
  let k := localDay tz now - sundayOf tz today selectedWeek in
  (∀ (i : nat) date,
     getWeekDates tz today selectedWeek !! i = Some date →
     isToday tz now date = true ↔ Z.of_nat i = k) ∧
  scrollToCurrentDay tz today now selectedWeek
    = (if decide (0 ≤ k < 7) then Some (k * 200) else None) ∧
  (localDay tz now = localDay tz today →
   (0 ≤ k < 7 ↔ selectedWeek = 0) ∧ (selectedWeek = 0 → k = getDay tz today)).
Proof.
  intros Hweek Hnow k.
  assert (∀ (i : nat) date,
            getWeekDates tz today selectedWeek !! i = Some date →
            isToday tz now date = true ↔ Z.of_nat i = k) as Hcard.
  { intros i date Hi. unfold isToday. rewrite bool_decide_eq_true.
    rewrite toDateString_localDay;
      [|exact (Forall_lookup_1 _ _ _ _ Hweek Hi)|done].
    apply getWeekDates_lookup in Hi as (_ & -> & _). subst k. lia. }
  split_and!.
  - done.
  - unfold scrollToCurrentDay. cbv zeta.
    rewrite (findIndex_spec _ _ k Hcard).
    destruct (getWeekDates_week tz today selectedWeek) as [-> _].
    destruct (decide (0 ≤ k < 7)) as [Hin|Hout].
    + rewrite decide_True by lia. by destruct (Z.leb_spec 0 k); [|lia].
    + by rewrite decide_False by lia.
  - intros Hsame. subst k. rewrite Hsame. unfold sundayOf.
    assert (0 ≤ getDay tz today < 7) by (apply Z.mod_pos_bound; lia). lia.
Qed.

End Cards.
End CardFacts.

(** ** Saving an outfit and uploading an item: success and failure *)

Module SaveAndUploadFacts.

Import Wardrobe Calendar App HandlerFacts Failures PlannerView PlannerFacts
  CalendarFacts PlannerViewFacts.

Local Open Scope Z_scope.

Section Outcomes.

Context (env : Env) (snap : AppState).

(** X20. A saved outfit appears in the planner: when the POST succeeds and
    the planner endpoint then returns the outfit with the posted date and
    slots, [savePlannedOutfit] sends the POST, shows the success alert and
    reads the planner once; afterwards the planner shows, under the selected
    date, exactly the chosen items in slot order, the builder is reset and
    closed, and the loading flag is off. *)
Theorem saved_outfit_appears (w : World) (status : Z) (data : option string)
    (plannedOutfit : PlannedOutfit) :
  Js.truthy (token snap) = true →
  is_Some (selected_top (selectedOutfit snap))
    ∨ is_Some (selected_bottom (selectedOutfit snap)) →
  post_planner_outfit env (token snap) (plannedOutfitData snap)
    = Response status (Some data) →
  ok status = true →
  (∀ start_date end_date,
     get_planner_outfits env (token snap) start_date end_date
       = Response 200 (Some [plannedOutfit])) →
  planned_date plannedOutfit = date (plannedOutfitData snap) →
  planned_items plannedOutfit = items (plannedOutfitData snap) →
  NoDup (item_id <$> wardrobe snap) →
  (∀ item, item ∈ selectedItems (selectedOutfit snap) →
     item ∈ wardrobe snap ∧ item_id item ≠ "") →
  ∃ w' start_date end_date,
    savePlannedOutfit env snap w = (Returned tt, w') ∧
    newEffects w w' =
      [Fetch (POST_planner_outfit (token snap) (plannedOutfitData snap));
       Alert "Success!";
       Fetch (GET_planner_outfits (token snap) start_date end_date)] ∧
    outfitItems <$> weeklyOutfits (state w') !! selectedOutfitDate snap
      = Some (selectedItems (selectedOutfit snap)) ∧
    selectedOutfit (state w') = emptySelection ∧
    outfitEvent (state w') = "" ∧ outfitOccasion (state w') = "" ∧
    showManualOutfitBuilder (state w') = false ∧
    loading (state w') = false.
Proof.
  intros Htok Hsel Hpost Hok Hget Hdate Hitems Hnodup Hin.
  unfold savePlannedOutfit. rewrite Htok.
  assert (negb (bool_decide (is_Some (selected_top (selectedOutfit snap))))
          && negb (bool_decide (is_Some (selected_bottom (selectedOutfit snap))))
          = false) as ->.
  { destruct Hsel as [Hs|Hs]; rewrite (bool_decide_true _ Hs); cbn;
      [done|by rewrite andb_false_r]. }
  run. rewrite Hpost. run. rewrite Hok. run.
  unfold loadPlannedOutfits. rewrite Htok. run.
  match goal with
  | |- context [plannerRange ?z ?today ?week] =>
      destruct (plannerRange z today week) as [[start_date end_date]|] eqn:Hrange;
        [|by rewrite plannerRange_shifted in Hrange]
  end.
  run. rewrite Hget. run.
  eexists _, start_date, end_date.
  split_and!; [reflexivity| | |reflexivity..].
  - apply newEffects_app. cbn. by rewrite <-!app_assoc.
  - cbn. unfold buildOutfitsMap. cbn. rewrite Hdate. cbn.
    rewrite lookup_insert_eq. cbn. f_equal.
    rewrite Hitems. cbn.
    assert (∀ slot item,
              slot ∈ [selected_top (selectedOutfit snap);
                      selected_bottom (selectedOutfit snap);
                      selected_layering (selectedOutfit snap);
                      selected_shoes (selectedOutfit snap)] →
              slot = Some item → item ∈ wardrobe snap ∧ item_id item ≠ "") as Hslot.
    { intros slot item Hslot ->. apply Hin. unfold selectedItems.
      apply list_elem_of_omap. by exists (Some item). }
    rewrite !pushResolved_selected; try done;
      try (intros item; apply Hslot; rewrite !elem_of_cons; by auto 6).
    unfold selectedItems.
    by destruct (selected_top _), (selected_bottom _), (selected_layering _),
      (selected_shoes _).
Qed.

(** X21. When the POST of a planned outfit fails (no answer, an answer
    that is not JSON even with a success status, or a status that is not a
    success), [savePlannedOutfit] shows the Error alert after that one
    request and changes nothing but the loading flag, which ends off: the
    selection, the occasion and the event stay for another try, and the
    planner is not read again. *)
Theorem savePlannedOutfit_failure (w : World) :
  Js.truthy (token snap) = true →
  is_Some (selected_top (selectedOutfit snap))
    ∨ is_Some (selected_bottom (selectedOutfit snap)) →
  (post_planner_outfit env (token snap) (plannedOutfitData snap) = NetworkError ∨
   (∃ status, post_planner_outfit env (token snap) (plannedOutfitData snap)
                = Response status None) ∨
   (∃ status data, post_planner_outfit env (token snap) (plannedOutfitData snap)
                     = Response status (Some data) ∧ ok status = false)) →
  ∃ w',
    savePlannedOutfit env snap w = (Returned tt, w') ∧
    newEffects w w' =
      [Fetch (POST_planner_outfit (token snap) (plannedOutfitData snap));
       Alert "Error"] ∧
    state w' = setLoading false (setLoading true (state w)).
Proof.
  intros Htok Hsel Hpost.
  unfold savePlannedOutfit. rewrite Htok.
  assert (negb (bool_decide (is_Some (selected_top (selectedOutfit snap))))
          && negb (bool_decide (is_Some (selected_bottom (selectedOutfit snap))))
          = false) as ->.
  { destruct Hsel as [Hs|Hs]; rewrite (bool_decide_true _ Hs); cbn;
      [done|by rewrite andb_false_r]. }
  run.
  destruct Hpost as [->|[(status & ->)|(status & data & -> & Hno)]]; run;
    rewrite ?Hno; run;
    (eexists; split_and!; [reflexivity| |done]);
    apply newEffects_app; cbn; by rewrite <-?app_assoc.
Qed.

(** X22. Without a token [deleteWardrobeItem] sends no request and shows
    the Error alert, and the item is nevertheless gone from the list: the
    removal is done first, and the reload that should restore it does
    nothing without a token. *)
Theorem deleteWardrobeItem_without_token (w : World) (itemId : string) :
  Js.truthy (token snap) = false →
  ∃ w',
    deleteWardrobeItem env snap itemId w = (Returned tt, w') ∧
    newEffects w w' = [Alert "Error"] ∧
    state w' =
      setWardrobe (filter (λ item, item_id item ≠ itemId) (wardrobe (state w)))
        (state w).
Proof.
  intros Htok. unfold deleteWardrobeItem, loadWardrobeSent. rewrite Htok. run.
  eexists. split_and!; [reflexivity| |done]. by apply newEffects_app.
Qed.

(** X23. [addWardrobeItems] sends nothing when there is no image to send:
    without the permission it only shows the alert that asks for it, and
    when the picker is cancelled or gives no image data it shows nothing;
    in both cases the state is unchanged but for the loading flag, which
    ends off. *)
Theorem addWardrobeItems_without_image (w : World) :
  permissionStatus env ≠ "granted"
    ∨ canceled (pickedImage env) = true
    ∨ (assets (pickedImage env) ≫= head) ≫= base64 = None
    ∨ (assets (pickedImage env) ≫= head) ≫= base64 = Some "" →
  ∃ w',
    addWardrobeItems env snap w = (Returned tt, w') ∧
    newEffects w w' =
      (if decide (permissionStatus env = "granted") then []
       else [Alert "Permission needed"]) ∧
    state w' =
      setLoading false
        (if decide (permissionStatus env = "granted")
         then setLoading true (state w) else state w).
Proof.
  intros Hnone. unfold addWardrobeItems.
  destruct (decide (permissionStatus env = "granted")) as [Hgranted|Hdenied].
  2: { rewrite bool_decide_false by done. run.
       eexists. split_and!; [reflexivity| |done]. by apply newEffects_app. }
  rewrite bool_decide_true by done. run.
  destruct Hnone as [?|Hnone]; [done|].
  assert ((if canceled (pickedImage env) then None
           else assets (pickedImage env) ≫= head) ≫= base64 = None
          ∨ (if canceled (pickedImage env) then None
             else assets (pickedImage env) ≫= head) ≫= base64 = Some "") as Hpick.
  { destruct (canceled (pickedImage env)); [by left|].
    by destruct Hnone as [[=]|Hnone]. }
  destruct (if canceled (pickedImage env) then None else _) as [asset|]; cbn in *.
  - destruct Hpick as [->| ->]; run;
      (eexists; split_and!; [reflexivity| |done]);
      apply newEffects_app; by rewrite app_nil_r.
  - run. eexists; split_and!; [reflexivity| |done].
    apply newEffects_app; by rewrite app_nil_r.
Qed.

(** X24. When the upload of the picked image is refused (no answer, or a
    status that is not a success), [addWardrobeItems] shows the Error alert
    after that one request, does not reload the wardrobe, and leaves the
    wardrobe and the cache of generated outfits as they were; the loading
    flag ends off. *)
Theorem addWardrobeItems_refused (w : World) (asset : Asset) (more : list Asset)
    (assetBase64 : string) :
  permissionStatus env = "granted" →
  pickedImage env = {| canceled := false; assets := Some (asset :: more) |} →
  base64 asset = Some assetBase64 → assetBase64 ≠ "" →
  refused (post_wardrobe env (token snap) (imageDataUrl asset assetBase64) []) →
  ∃ w',
    addWardrobeItems env snap w = (Returned tt, w') ∧
    newEffects w w' =
      [Fetch (POST_wardrobe (token snap) (imageDataUrl asset assetBase64) []);
       Alert "Error"] ∧
    state w' = setLoading false (setLoading true (state w)).
Proof.
  intros Hgranted Hpicked Hbase64 Hne Hpost. unfold addWardrobeItems.
  rewrite bool_decide_true by done. rewrite Hpicked. cbn. rewrite Hbase64.
  unfold Js.truthy. rewrite bool_decide_true by done. run.
  destruct Hpost as [->|(status & body & -> & Hno)]; run; rewrite ?Hno; run;
    (eexists; split_and!; [reflexivity| |done]);
    apply newEffects_app; cbn; by rewrite <-?app_assoc.
Qed.

End Outcomes.

End SaveAndUploadFacts.

(** ** The properties above on the sample device *)

Module ScenarioChecks.

Import Wardrobe Calendar App Scenarios Failures ChatSession PlannerView Events
  Today MoreScenarios.

Local Open Scope Z_scope.

(** With an expired token, the deletion of the shirt is refused and so is
    the reload: the alert is shown, and after it the stored token is
    removed. *)
Lemma deleteWardrobeItem_rolls_back_witness :
  (Js.truthy (token signedIn) = true ∧
   refused (delete_wardrobe_item expired (token signedIn) "w1")) ∧
  ∃ w',
    deleteWardrobeItem expired signedIn "w1" (world signedIn ∅) = (Returned tt, w') ∧
    newEffects (world signedIn ∅) w' =
      [Fetch (DELETE_wardrobe_item (token signedIn) "w1");
       Fetch (GET_wardrobe (token signedIn)); Alert "Error";
       Storage (RemoveItem "token")] ∧
    generatedOutfits (state w') = ["outfit-1"].
Proof.
  assert (refused (delete_wardrobe_item expired (token signedIn) "w1")) as Hdel.
  { right. exists 401, None. split; reflexivity. }
  split; [split; [reflexivity|exact Hdel]|].
  destruct (SyncFacts.deleteWardrobeItem_rolls_back expired signedIn
              (world signedIn ∅) "w1" eq_refl Hdel)
    as (w' & Hrun & Htrace & Hcache & _).
  exists w'. split_and!; [exact Hrun|exact Htrace|exact Hcache].
Defined.

(** With an expired token, loading the wardrobe signs the user out. *)
Lemma loadWardrobe_unauthorized_witness :
  (Js.truthy (token signedIn) = true ∧
   get_wardrobe expired (token signedIn) = Response 401 None) ∧
  ∃ w',
    loadWardrobe expired signedIn (world signedIn {["token" := "tok"]})
      = (Returned tt, w') ∧
    token (state w') = None ∧ user (state w') = None ∧
    storage w' = delete "token" {["token" := "tok"]}.
Proof.
  split; [split; reflexivity|].
  destruct (SyncFacts.loadWardrobe_unauthorized expired signedIn
              (world signedIn {["token" := "tok"]}) None)
    as (w' & Hrun & _ & _ & Hout); [reflexivity..|].
  exists w'. by destruct Hout as (? & ? & ? & _).
Defined.

(** The start of the app with a stored token that the backend accepts. *)
Lemma appStart_token_witness :
  let w := world initialState {["token" := "tok"]} in
  (storage w !! "token" = Some "tok" ∧ "tok" ≠ "" ∧
   storageThrows env (GetItem "token") = false ∧
   storageThrows env (RemoveItem "token") = false) ∧
  ∃ w',
    appStart env w = (Returned tt, w') ∧
    storage w' !! "token" = Some "tok" ∧ token (state w') = Some "tok".
Proof.
  intros w. split.
  - split_and!; [reflexivity|discriminate|reflexivity|reflexivity].
  - destruct (SyncFacts.appStart_token env w "tok") as (w' & Hrun & _ & Hkept);
      [reflexivity|discriminate|reflexivity|reflexivity|].
    exists w'. split; [exact Hrun|].
    apply Hkept. right.
    exists 200, (Some {| user_id := "u1"; user_name := "Asha" |}).
    split; reflexivity.
Defined.


(** Offline, the message stays in the chat and the alert says so. *)
Lemma sendMessage_failure_witness :
  let w := world signedIn ∅ in
  let u := {| user_id := "u1"; user_name := "Asha" |} in
  (Js.isBlank (chatInput signedIn) && negb (Js.truthy (chatImage signedIn)) = false ∧
   user signedIn = Some u ∧
   Forall (λ msg, is_Some (msg_id msg)) (chatMessages (state w)) ∧
   (∀ bearer text image, post_chat offline bearer text image = NetworkError) ∧
   chatFailed (NetworkError : FetchResult ChatData)) ∧
  ∃ w' userMessage,
    sendMessage offline signedIn w = (Returned tt, w') ∧
    chatMessages (state w') = [userMessage] ∧
    message userMessage = Some "what goes with this" ∧
    chatInput (state w') = "" ∧
    last (trace w') = Some (Alert "Network Error").
Proof.
  intros w u. split.
  - split_and!; [reflexivity|reflexivity|constructor|reflexivity|by left].
  - destruct (ChatSessionFacts.sendMessage_failure offline signedIn w u NetworkError)
      as (w' & kept & userMessage & Hrun & Hkept & Hchat & _ & Hmsg & Hinput & _ & _ & Hlast);
      [reflexivity|reflexivity|constructor|reflexivity|by left|].
    exists w', userMessage. injection Hkept as <-.
    split_and!; [exact Hrun|exact Hchat|exact Hmsg|exact Hinput|exact Hlast].
Defined.

(** The shirt and the jeans, saved and shown again. *)
Lemma saved_outfit_shows_selection_witness :
  (NoDup (item_id <$> [shirt; jeans]) ∧
   (∀ item, item ∈ selectedItems (selectedOutfit shirtAndJeans) →
      item ∈ [shirt; jeans] ∧ item_id item ≠ "") ∧
   planned_items plannedShirtAndJeans = items (plannedOutfitData shirtAndJeans)) ∧
  outfitItems (displayOutfit [shirt; jeans] plannedShirtAndJeans) = [shirt; jeans].
Proof.
  assert (NoDup (item_id <$> [shirt; jeans])) as Hnodup.
  { apply NoDup_cons. split; [|apply NoDup_singleton].
    by intros [=]%list_elem_of_singleton. }
  assert (∀ item, item ∈ selectedItems (selectedOutfit shirtAndJeans) →
            item ∈ [shirt; jeans] ∧ item_id item ≠ "") as Hsel.
  { intros item Hin. split; [done|].
    apply elem_of_cons in Hin as [->|Hin]; [done|].
    by apply list_elem_of_singleton in Hin as ->. }
  split; [by split_and!|].
  by apply (PlannerViewFacts.saved_outfit_shows_selection
              [shirt; jeans] shirtAndJeans plannedShirtAndJeans).
Defined.

(** The warning for the shirt and the jeans planned on 10 January. *)
Lemma checkOutfitRepetition_sound_witness :
  let allOutfits := [displayOutfit [shirt; jeans] plannedShirtAndJeans] in
  ∃ warning,
    checkOutfitRepetition allOutfits (selectedOutfit shirtAndJeans) = Some warning ∧
    ∃ outfit t b shownTop shownBottom,
      outfit ∈ allOutfits ∧
      planned_date (planned outfit) = warning_date warning ∧
      selected_top (selectedOutfit shirtAndJeans) = Some t ∧
      selected_bottom (selectedOutfit shirtAndJeans) = Some b ∧
      shownTop ∈ outfitItems outfit ∧ item_id shownTop = item_id t ∧
      includes tops (category shownTop) = true ∧
      shownBottom ∈ outfitItems outfit ∧ item_id shownBottom = item_id b ∧
      includes bottoms (category shownBottom) = true.
Proof.
  intros allOutfits. eexists. split; [reflexivity|].
  apply (PlannerViewFacts.checkOutfitRepetition_sound allOutfits). reflexivity.
Defined.

Lemma checkOutfitRepetition_complete_witness :
  let wardrobe := [shirt; jeans] in
  let allOutfits := [displayOutfit wardrobe plannedShirtAndJeans] in
  (NoDup (item_id <$> wardrobe) ∧
   shirt ∈ topChoices wardrobe ∧ jeans ∈ bottomChoices wardrobe ∧
   item_id shirt ≠ "" ∧ item_id jeans ≠ "" ∧
   selected_top (selectedOutfit shirtAndJeans) = Some shirt ∧
   selected_bottom (selectedOutfit shirtAndJeans) = Some jeans ∧
   top (planned_items plannedShirtAndJeans) = Some (item_id shirt) ∧
   bottom (planned_items plannedShirtAndJeans) = Some (item_id jeans) ∧
   displayOutfit wardrobe plannedShirtAndJeans ∈ allOutfits) ∧
  is_Some (checkOutfitRepetition allOutfits (selectedOutfit shirtAndJeans)).
Proof.
  intros wardrobe allOutfits.
  assert (NoDup (item_id <$> wardrobe)) as Hnodup.
  { apply NoDup_cons. split; [|apply NoDup_singleton].
    by intros [=]%list_elem_of_singleton. }
  assert (shirt ∈ topChoices wardrobe) as Hshirt by apply list_elem_of_here.
  assert (jeans ∈ bottomChoices wardrobe) as Hjeans by apply list_elem_of_here.
  assert (displayOutfit wardrobe plannedShirtAndJeans ∈ allOutfits) as Hin
    by apply list_elem_of_here.
  split; [by split_and!|].
  by apply (PlannerViewFacts.checkOutfitRepetition_complete
              wardrobe allOutfits (selectedOutfit shirtAndJeans)
              shirt jeans plannedShirtAndJeans).
Defined.

(** A first event added to an empty calendar. *)
Lemma events_stay_entered_witness :
  allEntered initialEvents ∧ allEntered (addEvent typedLecture initialEvents).
Proof.
  assert (allEntered initialEvents) as Hstart.
  { intros dateKey. unfold dayEvents. cbn. rewrite lookup_empty. constructor. }
  split; [done|].
  by destruct (EventFacts.events_stay_entered typedLecture initialEvents Hstart)
    as (_ & Hadd & _).
Defined.

Lemma addEvent_then_deleteEvent_witness :
  (Js.isBlank (event_title (eventForm typedLecture)) = false ∧
   selectedEventDate typedLecture ≠ "") ∧
  dayEvents (weeklyEvents (addEvent typedLecture typedLecture)) "2024-01-10"
    = [Some lecture] ∧
  ∀ d, dayEvents
         (weeklyEvents
            (deleteEvent "2024-01-10" 0 Delete (addEvent typedLecture typedLecture))) d
       = dayEvents (weeklyEvents typedLecture) d.
Proof.
  split; [by split|].
  destruct (EventFacts.addEvent_then_deleteEvent typedLecture typedLecture)
    as (Hadd & _ & Hundo); [reflexivity|done|].
  split; [exact Hadd|exact Hundo].
Defined.

(** The lecture moved to the afternoon. *)
Lemma editEvent_then_updateEvent_witness :
  let typing (form : CalendarEvent) :=
    {| event_title := event_title form; event_time := "2:30 PM";
       event_type := event_type form |} in
  (weeklyEvents withLecture !! "2024-01-10" = Some [Some lecture] ∧
   [Some lecture] !! 0%nat = Some (Some lecture) ∧
   Js.isBlank (event_title (typing lecture)) = false) ∧
  ∃ editing,
    editEvent withLecture "2024-01-10" 0 withLecture = Some editing ∧
    weeklyEvents (updateEvent (setEventForm typing editing) (setEventForm typing editing))
      = <["2024-01-10" := [Some (typing lecture)]]> (weeklyEvents withLecture).
Proof.
  intros typing. split; [by split_and!|].
  destruct (EventFacts.editEvent_then_updateEvent withLecture "2024-01-10" 0
              [Some lecture] lecture typing)
    as (editing & Hedit & _ & Hupdate & _); [reflexivity..|].
  by exists editing.
Defined.

(** The College event added from Wednesday's card does not show on
    Thursday's. *)
Lemma event_shows_on_its_card_witness :
  let today := clock env 0 in
  let typing (form : CalendarEvent) :=
    {| event_title := "College"; event_time := event_time form;
       event_type := event_type form |} in
  ∃ d1 d2,
    (getWeekDates (tz env) today 0 !! 3%nat = Some d1 ∧
     getWeekDates (tz env) today 0 !! 4%nat = Some d2 ∧
     fourDigitYear (d1 / msPerDay) ∧ fourDigitYear (d2 / msPerDay) ∧
     Js.isBlank (event_title (typing (eventForm initialEvents))) = false) ∧
    let typed := setEventForm typing (openAddEventModal (formatDate d1) initialEvents) in
    dayEvents (weeklyEvents (addEvent typed typed)) (formatDate d1)
      = [Some (eventOfForm (typing (eventForm initialEvents)))] ∧
    dayEvents (weeklyEvents (addEvent typed typed)) (formatDate d2) = [].
Proof.
  intros today typing. eexists _, _.
  split.
  - split_and!; [reflexivity|reflexivity|by vm_compute|by vm_compute|reflexivity].
  - split.
    + apply (CardFacts.event_shows_on_its_card (tz env) today 0 0 3 3 _ _
               initialEvents typing);
        [reflexivity|reflexivity|by vm_compute|by vm_compute|reflexivity].
    + apply (CardFacts.event_shows_on_its_card (tz env) today 0 0 3 4 _ _
               initialEvents typing);
        [reflexivity|reflexivity|by vm_compute|by vm_compute|reflexivity].
Defined.

(** At 02:00 on Wednesday 10 January 2024 the planner scrolls to the
    fourth card. *)
Lemma today_card_witness :
  let today := clock env 0 in
  (Forall (λ date, fourDigitYear (localDay (tz env) date))
          (getWeekDates (tz env) today 0) ∧
   fourDigitYear (localDay (tz env) today)) ∧
  scrollToCurrentDay (tz env) today today 0 = Some 600.
Proof.
  intros today.
  assert (Forall (λ date, fourDigitYear (localDay (tz env) date))
            (getWeekDates (tz env) today 0)) as Hweek
    by (repeat constructor; by vm_compute).
  assert (fourDigitYear (localDay (tz env) today)) as Hnow by by vm_compute.
  split; [by split|].
  by destruct (CardFacts.today_card (tz env) today today 0 Hweek Hnow)
    as (_ & -> & _).
Defined.

(** The shirt and the jeans, saved for 10 January, show on that day. *)
Lemma saved_outfit_appears_witness :
  let w := world shirtAndJeans ∅ in
  (Js.truthy (token shirtAndJeans) = true ∧
   (is_Some (selected_top (selectedOutfit shirtAndJeans))
      ∨ is_Some (selected_bottom (selectedOutfit shirtAndJeans))) ∧
   post_planner_outfit planning (token shirtAndJeans) (plannedOutfitData shirtAndJeans)
     = Response 200 (Some None) ∧
   ok 200 = true ∧
   (∀ start_date end_date,
      get_planner_outfits planning (token shirtAndJeans) start_date end_date
        = Response 200 (Some [plannedShirtAndJeans])) ∧
   planned_date plannedShirtAndJeans = date (plannedOutfitData shirtAndJeans) ∧
   planned_items plannedShirtAndJeans = items (plannedOutfitData shirtAndJeans) ∧
   NoDup (item_id <$> wardrobe shirtAndJeans) ∧
   (∀ item, item ∈ selectedItems (selectedOutfit shirtAndJeans) →
      item ∈ wardrobe shirtAndJeans ∧ item_id item ≠ "")) ∧
  ∃ w',
    savePlannedOutfit planning shirtAndJeans w = (Returned tt, w') ∧
    outfitItems <$> weeklyOutfits (state w') !! "2024-01-10" = Some [shirt; jeans] ∧
    selectedOutfit (state w') = emptySelection.
Proof.
  intros w.
  assert (NoDup (item_id <$> wardrobe shirtAndJeans)) as Hnodup.
  { apply NoDup_cons. split; [|apply NoDup_singleton].
    by intros [=]%list_elem_of_singleton. }
  assert (∀ item, item ∈ selectedItems (selectedOutfit shirtAndJeans) →
            item ∈ wardrobe shirtAndJeans ∧ item_id item ≠ "") as Hsel.
  { intros item Hin. split; [exact Hin|].
    apply elem_of_cons in Hin as [->|Hin]; [discriminate|].
    apply list_elem_of_singleton in Hin as ->. discriminate. }
  split.
  - split_and!;
      [reflexivity|left; by eexists|reflexivity|reflexivity|reflexivity
      |reflexivity|reflexivity|exact Hnodup|exact Hsel].
  - destruct (SaveAndUploadFacts.saved_outfit_appears planning shirtAndJeans w 200 None
                plannedShirtAndJeans)
      as (w' & _ & _ & Hrun & _ & Hshown & Hreset & _);
      [reflexivity|left; by eexists|reflexivity|reflexivity|reflexivity
      |reflexivity|reflexivity|exact Hnodup|exact Hsel|].
    exists w'. split_and!; [exact Hrun|exact Hshown|exact Hreset].
Defined.

(** Offline, the shirt and the jeans stay chosen. *)
Lemma savePlannedOutfit_failure_witness :
  let w := world shirtAndJeans ∅ in
  (Js.truthy (token shirtAndJeans) = true ∧
   (is_Some (selected_top (selectedOutfit shirtAndJeans))
      ∨ is_Some (selected_bottom (selectedOutfit shirtAndJeans))) ∧
   post_planner_outfit offline (token shirtAndJeans) (plannedOutfitData shirtAndJeans)
     = NetworkError) ∧
  ∃ w',
    savePlannedOutfit offline shirtAndJeans w = (Returned tt, w') ∧
    newEffects w w' =
      [Fetch (POST_planner_outfit (token shirtAndJeans) (plannedOutfitData shirtAndJeans));
       Alert "Error"] ∧
    state w' = setLoading false (setLoading true (state w)).
Proof.
  intros w. split.
  - split_and!; [reflexivity|left; by eexists|reflexivity].
  - apply (SaveAndUploadFacts.savePlannedOutfit_failure offline shirtAndJeans w);
      [reflexivity|left; by eexists|left; reflexivity].
Defined.

(** Signed out, the shirt disappears from the list all the same. *)
Lemma deleteWardrobeItem_without_token_witness :
  let w := world signedIn ∅ in
  Js.truthy (token initialState) = false ∧
  ∃ w',
    deleteWardrobeItem env initialState "w1" w = (Returned tt, w') ∧
    newEffects w w' = [Alert "Error"] ∧
    wardrobe (state w') = [jeans].
Proof.
  intros w. split; [reflexivity|].
  destruct (SaveAndUploadFacts.deleteWardrobeItem_without_token env initialState w "w1")
    as (w' & Hrun & Htrace & Hstate); [reflexivity|].
  exists w'. split_and!; [exact Hrun|exact Htrace|]. rewrite Hstate. reflexivity.
Defined.

Lemma addWardrobeItems_without_image_witness :
  let w := world signedIn ∅ in
  (permissionStatus noPermission ≠ "granted"
     ∨ canceled (pickedImage noPermission) = true
     ∨ (assets (pickedImage noPermission) ≫= head) ≫= base64 = None
     ∨ (assets (pickedImage noPermission) ≫= head) ≫= base64 = Some "") ∧
  ∃ w',
    addWardrobeItems noPermission signedIn w = (Returned tt, w') ∧
    newEffects w w' = [Alert "Permission needed"] ∧
    state w' = setLoading false (state w).
Proof.
  intros w.
  assert (permissionStatus noPermission ≠ "granted") as Hdenied by discriminate.
  split; [by left|].
  destruct (SaveAndUploadFacts.addWardrobeItems_without_image noPermission signedIn w)
    as (w' & Hrun & Htrace & Hstate); [by left|].
  exists w'. split_and!; [exact Hrun|exact Htrace|exact Hstate].
Defined.

Lemma addWardrobeItems_refused_witness :
  let w := world signedIn ∅ in
  let asset := {| base64 := Some "AAAA"; uri := Some "file:///photo.png" |} in
  (permissionStatus offline = "granted" ∧
   pickedImage offline = {| canceled := false; assets := Some [asset] |} ∧
   base64 asset = Some "AAAA" ∧ "AAAA" ≠ "" ∧
   refused (post_wardrobe offline (token signedIn) (imageDataUrl asset "AAAA") [])) ∧
  ∃ w',
    addWardrobeItems offline signedIn w = (Returned tt, w') ∧
    newEffects w w' =
      [Fetch (POST_wardrobe (token signedIn) (imageDataUrl asset "AAAA") []);
       Alert "Error"] ∧
    state w' = setLoading false (setLoading true (state w)).
Proof.
  intros w asset. split.
  - split_and!; [reflexivity|reflexivity|reflexivity|discriminate|by left].
  - apply (SaveAndUploadFacts.addWardrobeItems_refused offline signedIn w asset [] "AAAA");
      [reflexivity|reflexivity|reflexivity|discriminate|by left].
Defined.

End ScenarioChecks.
